(** * audit_repo.py: a shallow embedding and its checked properties

    The development follows
    [skills/optimizing-claude-code/scripts/audit_repo.py] function by
    function and keeps its names.  Python values are modelled as follows.

    - [str] is [string]; a character stands for the code point of the same
      number, so the texts covered are those over U+0000..U+00FF.
    - [bytes] is [list byte].
    - [int] is [Z] for return codes and [nat] for lengths and counts.
    - [pathlib.Path] is a record of an anchor and a list of components.
    - A [dict] is the list of its items in insertion order.
    - The file system is a finite tree of directories and regular files,
      the entries of a directory in the order in which it lists them.
      There are no symbolic links, no permissions and no limits on names,
      so that the only failures of a file-system call are those of a path
      that is absent or of the wrong kind.
    - A call that can raise returns a [result]; [Raise e] is the exception
      [e] leaving the call.
    - What the script takes from outside is a [World] (the tree, the
      working directory, the home directories, the child processes, the
      clock) and a [Runtime] (the library functions that are not modelled
      further: decoding, JSON parsing, [str] of a parsed value).  *)

From Stdlib Require Import String Ascii List ZArith Bool Arith Lia.
From Stdlib Require Import Strings.Byte DecimalString.
From Stdlib Require Import Sorting.Sorted Sorting.Permutation.
Import ListNotations.

Open Scope string_scope.
Open Scope bool_scope.

Open Scope list_scope.

Set Warnings "-register-all".

(** ** Python string primitives *)

Module PyStr.

Definition ord (c : ascii) : nat := nat_of_ascii c.

Definition between (lo hi n : nat) : bool := Nat.leb lo n && Nat.leb n hi.

(** [str.isspace] on one character; also the class [\s] of [re]. *)
Definition isspace (c : ascii) : bool :=
  let n := ord c in
  between 9 13 n || between 28 32 n || Nat.eqb n 133 || Nat.eqb n 160.

(** The class [\w] of [re] on [str] patterns: alphanumerics and [_]. *)
Definition isword (c : ascii) : bool :=
  let n := ord c in
  between 48 57 n || between 65 90 n || Nat.eqb n 95 || between 97 122 n
  || Nat.eqb n 170 || Nat.eqb n 178 || Nat.eqb n 179 || Nat.eqb n 181
  || Nat.eqb n 185 || Nat.eqb n 186 || between 188 190 n
  || between 192 214 n || between 216 246 n || between 248 255 n.

(** Line boundaries of [str.splitlines]. *)
Definition islinebreak (c : ascii) : bool :=
  let n := ord c in
  between 10 13 n || between 28 30 n || Nat.eqb n 133.

Definition NL : ascii := "010"%char.
Definition CR : ascii := "013"%char.

Definition lower_char (c : ascii) : ascii :=
  let n := ord c in
  if between 65 90 n || (between 192 222 n && negb (Nat.eqb n 215))
  then ascii_of_nat (n + 32) else c.

(** [s.lower()] *)
Fixpoint lower (s : string) : string :=
  match s with
  | "" => ""
  | String c r => String (lower_char c) (lower r)
  end.

(** [s.lstrip()] *)
Fixpoint lstrip (s : string) : string :=
  match s with
  | "" => ""
  | String c r => if isspace c then lstrip r else s
  end.

(** [s.rstrip()] *)
Fixpoint rstrip (s : string) : string :=
  match s with
  | "" => ""
  | String c r =>
      match rstrip r with
      | "" => if isspace c then "" else String c ""
      | r' => String c r'
      end
  end.

(** [s.strip()] *)
Definition strip (s : string) : string := rstrip (lstrip s).

(** [s.rstrip('/')], as [posixpath.expanduser] uses it. *)
Fixpoint rstrip_slash (s : string) : string :=
  match s with
  | "" => ""
  | String c r =>
      match rstrip_slash r with
      | "" => if Ascii.eqb c "/" then "" else String c ""
      | r' => String c r'
      end
  end.

(** [p.startswith(s)] is [String.prefix p s = true]. *)
Definition startswith (p s : string) : bool := prefix p s.

(** [sub in s] *)
Fixpoint contains (sub s : string) : bool :=
  prefix sub s ||
  match s with
  | "" => false
  | String _ r => contains sub r
  end.

(** [s.count(c)] for a one-character needle. *)
Fixpoint count_char (c : ascii) (s : string) : nat :=
  match s with
  | "" => 0
  | String d r => (if Ascii.eqb d c then 1 else 0) + count_char c r
  end.

(** [s.split()]: the maximal runs of non-whitespace characters. *)
Fixpoint split (s : string) : list string :=
  match s with
  | "" => []
  | String c r =>
      if isspace c then split r
      else match r with
           | "" => [String c ""]
           | String d _ =>
               if isspace d then String c "" :: split r
               else match split r with
                    | w :: ws => String c w :: ws
                    | [] => [String c ""]
                    end
           end
  end.

(** [s.splitlines()]: the lines without their terminators; [\r\n] is one
    terminator, and a terminator at the very end opens no further line.
    [cur] is the line being read, if one is open; [after_cr] tells that the
    previous character was a carriage return. *)
Definition open_line (cur : option string) : string :=
  match cur with Some l => l | None => "" end.

Fixpoint splitlines_aux (cur : option string) (after_cr : bool) (s : string)
  : list string :=
  match s with
  | "" => match cur with Some l => [l] | None => [] end
  | String c r =>
      if after_cr && Ascii.eqb c NL then splitlines_aux cur false r
      else if islinebreak c
           then open_line cur :: splitlines_aux None (Ascii.eqb c CR) r
           else splitlines_aux (Some (open_line cur ++ String c "")%string) false r
  end.

Definition splitlines (s : string) : list string := splitlines_aux None false s.

(** [sep.join(l)] *)
Definition join (sep : string) (l : list string) : string := String.concat sep l.

(** [str(n)] for a non-negative [int]. *)
Definition str_of_nat (n : nat) : string := NilZero.string_of_uint (Nat.to_uint n).

End PyStr.

Import PyStr.

(** ** The two regular expressions of the script *)

Module Regex.

(** The longest run of [#] at the head of [s], and the rest. *)
Fixpoint span_hash (s : string) : nat * string :=
  match s with
  | String c r =>
      if Ascii.eqb c "#" then let (n, t) := span_hash r in (S n, t) else (0, s)
  | "" => (0, s)
  end.

(** The number of whitespace characters at the head of [s]. *)
Fixpoint span_space (s : string) : nat :=
  match s with
  | String c r => if isspace c then S (span_space r) else 0
  | "" => 0
  end.

(** [#{1,6}\s+] anchored at the head of [s]: the length of the match.
    Both quantifiers are greedy; a run of seven or more [#] has no match,
    since every shorter choice is again followed by [#]. *)
Definition match_heading (s : string) : option nat :=
  let (n, t) := span_hash s in
  let k := span_space t in
  if Nat.leb 1 n && Nat.leb n 6 && Nat.leb 1 k then Some (n + k) else None.

(** [re.findall(r'^#{1,6}\s+', text, re.MULTILINE)], counted.  With
    [re.MULTILINE], [^] matches at the start and after each newline: [bol]
    says whether it matches here.  Matches do not overlap: after a match
    the search resumes at its end, so [skip] counts the characters that
    still belong to the last match. *)
Fixpoint heading_scan (skip : nat) (bol : bool) (s : string) : nat :=
  match s with
  | "" => 0
  | String c r =>
      match skip with
      | S k => heading_scan k (Ascii.eqb c NL) r
      | 0 =>
          match (if bol then match_heading s else None) with
          | Some len => 1 + heading_scan (pred len) (Ascii.eqb c NL) r
          | None => heading_scan 0 (Ascii.eqb c NL) r
          end
      end
  end.

(** [re.search(r'^#{1,6}\s+', text, re.MULTILINE)] as a truth value. *)
Fixpoint heading_search (bol : bool) (s : string) : bool :=
  match s with
  | "" => false
  | String c r =>
      match (if bol then match_heading s else None) with
      | Some _ => true
      | None => heading_search (Ascii.eqb c NL) r
      end
  end.

(** The class [[~/.\w\-\s/]] of IMPORT_RE. *)
Definition token_char (c : ascii) : bool :=
  Ascii.eqb c "~" || Ascii.eqb c "/" || Ascii.eqb c "." || isword c
  || Ascii.eqb c "-" || isspace c.

(** The class [[.\w\-\s/]] of IMPORT_RE, which ends a token. *)
Definition token_last (c : ascii) : bool :=
  Ascii.eqb c "." || isword c || Ascii.eqb c "-" || isspace c || Ascii.eqb c "/".

(** The longest run of token characters at the head of [s]. *)
Fixpoint span_token (s : string) : string :=
  match s with
  | String c r => if token_char c then String c (span_token r) else ""
  | "" => ""
  end.

(** The longest non-empty prefix of [run] that ends in [token_last]. *)
Fixpoint backtrack (run : string) : option string :=
  match run with
  | "" => None
  | String c r =>
      match backtrack r with
      | Some p => Some (String c p)
      | None => if token_last c then Some (String c "") else None
      end
  end.

(** The group [([~/.\w\-\s/]+[.\w\-\s/])] anchored at the head of [s]:
    the greedy [+] takes the whole run and gives characters back until the
    last one taken can be matched by the closing class. *)
Definition match_token (s : string) : option string :=
  match span_token s with
  | "" => None
  | String c r =>
      match backtrack r with
      | Some p => Some (String c p)
      | None => None
      end
  end.

(** [(?<!`)\B] before an [@]: the previous character is no backtick, and,
    [@] being no word character, the position is no word boundary exactly
    when there is no previous character or it is no word character. *)
Definition before_at (prev : option ascii) : bool :=
  match prev with
  | None => true
  | Some p => negb (Ascii.eqb p "`") && negb (isword p)
  end.

(** [[m.group(1) for m in IMPORT_RE.finditer(text)]] *)
Fixpoint import_scan (skip : nat) (prev : option ascii) (s : string) : list string :=
  match s with
  | "" => []
  | String c r =>
      match skip with
      | S k => import_scan k (Some c) r
      | 0 =>
          if Ascii.eqb c "@" && before_at prev then
            match match_token r with
            | Some tok => tok :: import_scan (String.length tok) (Some c) r
            | None => import_scan 0 (Some c) r
            end
          else import_scan 0 (Some c) r
      end
  end.

End Regex.

(** ** pathlib *)

(** A [Path]: the anchor is the empty string for a relative path and [/]
    or [//] for an absolute one; the components hold no [/], no empty name
    and no [.], but may hold [..]. *)
Record Path : Type := mkPath { anchor : string; parts_of : list string }.

Module PathLib.

(** [s.split(sep)] for a one-character separator *)
Fixpoint split_on (sep : ascii) (s : string) : list string :=
  match s with
  | "" => [""]
  | String c r =>
      if Ascii.eqb c sep then "" :: split_on sep r
      else match split_on sep r with
           | h :: t => String c h :: t
           | [] => [String c ""]
           end
  end.

(** [posixpath.splitroot]: exactly two leading slashes are kept apart. *)
Definition splitroot (p : string) : string * string :=
  match p with
  | String "/" (String "/" (String "/" r)) => ("/", String "/" (String "/" r))
  | String "/" (String "/" r) => ("//", r)
  | String "/" r => ("/", r)
  | _ => ("", p)
  end.

Definition real_name (x : string) : bool :=
  negb (String.eqb x "") && negb (String.eqb x ".").

(** [Path(s)] *)
Definition of_str (s : string) : Path :=
  let (root, rel) := splitroot s in
  mkPath root (filter real_name (split_on "/" rel)).

(** [a / b] for a path [b] *)
Definition join (a b : Path) : Path :=
  if String.eqb (anchor b) "" then mkPath (anchor a) (parts_of a ++ parts_of b)
  else b.

(** [a / s] for a string [s] *)
Definition child (a : Path) (s : string) : Path := join a (of_str s).

(** [str(p)] *)
Definition to_str (p : Path) : string :=
  match anchor p, parts_of p with
  | "", [] => "."
  | a, ps => (a ++ PyStr.join "/" ps)%string
  end.

(** [p.is_absolute()] *)
Definition is_absolute (p : Path) : bool := negb (String.eqb (anchor p) "").

(** [p.parts] *)
Definition parts (p : Path) : list string :=
  if is_absolute p then anchor p :: parts_of p else parts_of p.

(** [p.parent] *)
Definition parent (p : Path) : Path := mkPath (anchor p) (removelast (parts_of p)).

(** [p.name] *)
Definition name (p : Path) : string := last (parts_of p) "".

(** [s.rfind('.')] as the split of [s] around its last dot, if any. *)
Fixpoint rsplit_dot (s : string) : option (string * string) :=
  match s with
  | "" => None
  | String c r =>
      match rsplit_dot r with
      | Some (a, b) => Some (String c a, b)
      | None => if Ascii.eqb c "." then Some ("", r) else None
      end
  end.

(** [p.stem]: the name without its last suffix; a dot at either end of
    the name starts no suffix. *)
Definition stem (p : Path) : string :=
  let n := name p in
  match rsplit_dot n with
  | Some (a, b) => if String.eqb a "" || String.eqb b "" then n else a
  | None => n
  end.

Definition list_eqb (l1 l2 : list string) : bool :=
  if list_eq_dec string_dec l1 l2 then true else false.

(** [p == q] *)
Definition eqb (p q : Path) : bool :=
  String.eqb (anchor p) (anchor q) && list_eqb (parts_of p) (parts_of q).

(** [q] without the prefix [pre], if it has it. *)
Fixpoint strip_prefix (pre q : list string) : option (list string) :=
  match pre, q with
  | [], _ => Some q
  | a :: pre', b :: q' => if String.eqb a b then strip_prefix pre' q' else None
  | _ :: _, [] => None
  end.

(** [p.relative_to(base)]; [None] stands for the [ValueError]. *)
Definition relative_to (p base : Path) : option Path :=
  if String.eqb (anchor p) (anchor base) then
    match strip_prefix (parts_of base) (parts_of p) with
    | Some rest => Some (mkPath "" rest)
    | None => None
    end
  else None.

(** Lexical removal of [..]: each one drops the component before it, and
    stays at the root when there is none. *)
Fixpoint normalize (acc ps : list string) : list string :=
  match ps with
  | [] => acc
  | p :: r => if String.eqb p ".." then normalize (removelast acc) r
              else normalize (acc ++ [p]) r
  end.

End PathLib.

(** ** Exceptions *)

(** The exception classes that can leave a call of the script. *)
Inductive exn : Type :=
| FileNotFoundError
| NotADirectoryError
| IsADirectoryError
| AttributeError
| TypeError
| JSONDecodeError
| IndexError.

Inductive result (A : Type) : Type :=
| Ok (a : A)
| Raise (e : exn).
Arguments Ok {A} a.
Arguments Raise {A} e.

Definition bind {A B : Type} (m : result A) (k : A -> result B) : result B :=
  match m with
  | Ok a => k a
  | Raise e => Raise e
  end.

Notation "x <- m ;; k" := (bind m (fun x => k))
  (at level 61, m at next level, right associativity).

(** A comprehension [[f(x) for x in l]] whose body can raise: the first
    exception ends it. *)
Fixpoint mapM {A B : Type} (f : A -> result B) (l : list A) : result (list B) :=
  match l with
  | [] => Ok []
  | x :: r => y <- f x ;; ys <- mapM f r ;; Ok (y :: ys)
  end.

(** ** Parsed JSON *)

(** What [json.loads] returns.  An object is a [dict], kept as the list
    of its items in insertion order (keys distinct).  A [float] is looked
    at only for its truth value, which is all the script asks of it. *)
Inductive json : Type :=
| JNull
| JBool (b : bool)
| JInt (z : Z)
| JFloat (nonzero : bool)
| JStr (s : string)
| JArr (items : list json)
| JObj (fields : list (string * json)).

Module Py.

Fixpoint assoc {A : Type} (k : string) (l : list (string * A)) : option A :=
  match l with
  | [] => None
  | (k', v) :: r => if String.eqb k k' then Some v else assoc k r
  end.

(** [d.get(k, default)]; only a [dict] has the method. *)
Definition get (d : json) (k : string) (default : json) : result json :=
  match d with
  | JObj fs => Ok (match assoc k fs with Some v => v | None => default end)
  | _ => Raise AttributeError
  end.

(** [d.get(k)], whose default is [None]. *)
Definition get_none (d : json) (k : string) : result json := get d k JNull.

(** [bool(v)] *)
Definition truthy (v : json) : bool :=
  match v with
  | JNull => false
  | JBool b => b
  | JInt z => negb (Z.eqb z 0)
  | JFloat nz => nz
  | JStr s => negb (String.eqb s "")
  | JArr l => match l with [] => false | _ => true end
  | JObj fs => match fs with [] => false | _ => true end
  end.

(** [len(v)] *)
Definition len (v : json) : result nat :=
  match v with
  | JStr s => Ok (String.length s)
  | JArr l => Ok (List.length l)
  | JObj fs => Ok (List.length fs)
  | _ => Raise TypeError
  end.

Definition is_str (x : string) (v : json) : bool :=
  match v with JStr s => String.eqb s x | _ => false end.

(** [x in v] for a string [x] *)
Definition str_in (x : string) (v : json) : result bool :=
  match v with
  | JStr s => Ok (contains x s)
  | JArr l => Ok (existsb (is_str x) l)
  | JObj fs => Ok (existsb (fun kv => String.eqb (fst kv) x) fs)
  | _ => Raise TypeError
  end.

(** [list(v.keys())] *)
Definition keys (v : json) : result (list string) :=
  match v with
  | JObj fs => Ok (map fst fs)
  | _ => Raise AttributeError
  end.

End Py.

(** ** The file system and the process environment *)

Inductive node : Type :=
| File (data : list byte)
| Dir (entries : list (string * node)).

(** The library functions the script calls and that are taken as given:
    [bytes.decode("utf-8", errors="replace")], [json.loads] and [str] on a
    parsed value. *)
Record Runtime : Type := {
  utf8_decode : list byte -> string;
  json_loads : string -> result json;
  py_str : json -> string
}.

(** The state of the machine the script runs on.  [home] is the home
    directory of the current user, from [$HOME] or the password database;
    [getpwnam] gives the home directory of a named user, if there is one.
    [subprocess_run cmd cwd] is [(returncode, stdout, stderr)] of the
    finished child, or the exception of a child that could not be
    started. *)
Record World : Type := {
  fs_root : node;
  getcwd : list string;
  home : string;
  getpwnam : string -> option string;
  dir_st_size : Path -> nat;
  subprocess_run : list string -> Path -> result (Z * string * string);
  now_iso : string
}.

Module FS.

(** The node [ps] names below [n]; no component is [..]. *)
Fixpoint find (n : node) (ps : list string) : option node :=
  match ps with
  | [] => Some n
  | p :: r =>
      match n with
      | Dir es => match Py.assoc p es with Some c => find c r | None => None end
      | File _ => None
      end
  end.

(** Path lookup as the kernel does it, from the directory [cur]: [..]
    asks for the directory it leaves to exist. *)
Fixpoint lookup (root : node) (cur ps : list string) : option node :=
  match ps with
  | [] => find root cur
  | p :: r =>
      if String.eqb p ".." then
        match find root cur with
        | Some (Dir _) => lookup root (removelast cur) r
        | _ => None
        end
      else lookup root (cur ++ [p]) r
  end.

(** The error of a walk that fails: a name that a directory does not hold
    gives [ENOENT], a name asked of a regular file gives [ENOTDIR]. *)
Fixpoint find_errno (n : node) (ps : list string) : exn :=
  match ps with
  | [] => FileNotFoundError
  | p :: r =>
      match n with
      | Dir es =>
          match Py.assoc p es with
          | Some c => find_errno c r
          | None => FileNotFoundError
          end
      | File _ => NotADirectoryError
      end
  end.

(** The error of a path lookup that fails: that of the first component
    the kernel cannot pass. *)
Fixpoint lookup_errno (root : node) (cur ps : list string) : exn :=
  match ps with
  | [] => find_errno root cur
  | p :: r =>
      if String.eqb p ".." then
        match find root cur with
        | Some (Dir _) => lookup_errno root (removelast cur) r
        | Some (File _) => NotADirectoryError
        | None => find_errno root cur
        end
      else lookup_errno root (cur ++ [p]) r
  end.

Section WithWorld.
Variable w : World.

(** The components that lead to [p] from the root of the file system:
    a relative path starts at the working directory. *)
Definition from_root (p : Path) : list string :=
  (if PathLib.is_absolute p then [] else getcwd w) ++ parts_of p.

(** [os.stat(p)] as the node found; [None] when the call fails. *)
Definition stat (p : Path) : option node := lookup (fs_root w) [] (from_root p).

(** The exception of an [os.stat(p)] that fails. *)
Definition stat_errno (p : Path) : exn := lookup_errno (fs_root w) [] (from_root p).

(** [p.exists()] *)
Definition exists_ (p : Path) : bool :=
  match stat p with Some _ => true | None => false end.

(** [p.is_file()] *)
Definition is_file (p : Path) : bool :=
  match stat p with Some (File _) => true | _ => false end.

(** [p.is_dir()] *)
Definition is_dir (p : Path) : bool :=
  match stat p with Some (Dir _) => true | _ => false end.

(** [p.stat().st_size] of a path that exists *)
Definition st_size (p : Path) : nat :=
  match stat p with
  | Some (File data) => List.length data
  | _ => dir_st_size w p
  end.

(** [p.read_bytes()] *)
Definition read_bytes (p : Path) : result (list byte) :=
  match stat p with
  | Some (File data) => Ok data
  | Some (Dir _) => Raise IsADirectoryError
  | None => Raise (stat_errno p)
  end.

(** [p / name] for a directory entry *)
Definition entry (p : Path) (nm : string) : Path :=
  mkPath (anchor p) (parts_of p ++ [nm]).

(** [list(p.iterdir())] *)
Definition iterdir (p : Path) : result (list Path) :=
  match stat p with
  | Some (Dir es) => Ok (map (fun e => entry p (fst e)) es)
  | Some (File _) => Raise NotADirectoryError
  | None => Raise (stat_errno p)
  end.

(** The directories at and below a node, parents first, each with its
    path from the node and its entries.  A regular file has none. *)
Fixpoint walk_dirs (here : list string) (n : node)
  : list (list string * list (string * node)) :=
  match n with
  | File _ => []
  | Dir es =>
      (here, es) :: flat_map (fun e => walk_dirs (here ++ [fst e]) (snd e)) es
  end.

(** [p] followed by the components [rel] *)
Definition under (p : Path) (rel : list string) : Path :=
  mkPath (anchor p) (parts_of p ++ rel).

(** [list(p.rglob(name))] for a name without wildcards: in each directory
    at or below [p], the entry of that name if there is one. *)
Definition rglob_name (p : Path) (nm : string) : list Path :=
  match stat p with
  | Some n =>
      flat_map (fun d => match Py.assoc nm (snd d) with
                         | Some _ => [under p (fst d ++ [nm])]
                         | None => []
                         end)
               (walk_dirs [] n)
  | None => []
  end.

(** [list(p.rglob("*"))]: every entry of every directory at or below [p]. *)
Definition rglob_all (p : Path) : list Path :=
  match stat p with
  | Some n =>
      flat_map (fun d => map (fun e => under p (fst d ++ [fst e])) (snd d))
               (walk_dirs [] n)
  | None => []
  end.

Definition ends_with (suffix s : string) : bool :=
  let n := String.length s in
  let k := String.length suffix in
  Nat.leb k n && String.eqb (substring (n - k) k s) suffix.

(** [list(p.glob("*.md"))]: the entries of [p] whose name ends in [.md]. *)
Definition glob_md (p : Path) : list Path :=
  match stat p with
  | Some (Dir es) =>
      map (fun e => entry p (fst e)) (filter (fun e => ends_with ".md" (fst e)) es)
  | _ => []
  end.

(** [p.resolve()] *)
Definition resolve (p : Path) : Path :=
  mkPath "/" (PathLib.normalize [] (from_root p)).

(** [os.path.expanduser(s)] *)
Definition expanduser (s : string) : string :=
  match s with
  | String "~" rest =>
      let user := hd "" (PathLib.split_on "/" rest) in
      let tail := substring (String.length user) (String.length rest) rest in
      let userhome :=
        if String.eqb user "" then Some (home w) else getpwnam w user in
      match userhome with
      | Some h =>
          match (rstrip_slash h ++ tail)%string with
          | "" => "/"
          | r => r
          end
      | None => s
      end
  | _ => s
  end.

(** [Path.home()] *)
Definition Path_home : Path := PathLib.of_str (expanduser "~").

End WithWorld.
End FS.

(** ** The report records *)

Module MemoryFileReport.
Record t : Type := mk {
  path : string;
  exists_ : bool;
  bytes : nat;
  lines : nat;
  word_count : nat;
  has_headings : bool;
  heading_count : nat;
  imports : list string;
  missing_imports : list string;
  last_git_commit_iso : option string;
  scope : string;
  issues : list string;
  recommendations : list string
}.
(** [MemoryFileReport(path=..., exists=..., scope=...)] *)
Definition init (p : string) (e : bool) (s : string) : t :=
  mk p e 0 0 0 false 0 [] [] None s [] [].
End MemoryFileReport.

Module SettingsFileReport.
Record t : Type := mk {
  path : string;
  exists_ : bool;
  scope : string;
  bytes : nat;
  has_allowed_tools : bool;
  has_deny_tools : bool;
  has_custom_instructions : bool;
  has_mcp_servers : bool;
  mcp_server_count : nat;
  issues : list string
}.
Definition init (p : string) (e : bool) (s : string) : t :=
  mk p e s 0 false false false false 0 [].
End SettingsFileReport.

Module MCPConfigReport.
Record t : Type := mk {
  path : string;
  exists_ : bool;
  scope : string;
  server_count : nat;
  servers : list string;
  issues : list string
}.
Definition init (p : string) (e : bool) (s : string) : t := mk p e s 0 [] [].
End MCPConfigReport.

Module SkillReport.
Record t : Type := mk {
  path : string;
  name : string;
  scope : string;
  has_description : bool;
  has_scripts : bool;
  has_references : bool;
  has_assets : bool;
  skill_md_lines : nat;
  issues : list string
}.
End SkillReport.

Module SubagentReport.
Record t : Type := mk {
  path : string;
  name : string;
  scope : string;
  has_description : bool;
  agent_md_lines : nat;
  issues : list string
}.
End SubagentReport.

(** An entry of the [issues] or of the [recommendations] list; the key
    [file] is absent from the two entries that concern no file. *)
Record Entry : Type := mkEntry {
  priority : string;
  category : string;
  file : option string;
  message : string
}.

Record Meta : Type := mkMeta {
  tool : string;
  generated_at : string;
  root : string
}.

Record RepoScale : Type := mkRepoScale {
  file_count : nat;
  file_count_source : string;
  large_repo_threshold : nat;
  is_large_repo : bool;
  is_git_repo : bool;
  top_level_dirs_by_file_count : list (string * nat)
}.

Record ClaudeMemory : Type := mkClaudeMemory {
  discovered_files : list MemoryFileReport.t;
  missing_standard_locations : list MemoryFileReport.t
}.

Record MCPConfiguration : Type := mkMCPConfiguration {
  mcp_discovered_files : list MCPConfigReport.t;
  total_servers : nat
}.

Record Skills : Type := mkSkills {
  skills_discovered : list SkillReport.t;
  skills_total_count : nat
}.

Record Subagents : Type := mkSubagents {
  subagents_discovered : list SubagentReport.t;
  subagents_total_count : nat
}.

Record AuditReport : Type := mkAuditReport {
  meta : Meta;
  repo_scale : RepoScale;
  claude_memory : ClaudeMemory;
  claude_settings : list SettingsFileReport.t;
  mcp_configuration : MCPConfiguration;
  skills : Skills;
  subagents : Subagents;
  issues : list Entry;
  recommendations : list Entry
}.

(** ** [sorted] *)

Module Builtins.
Section Sorted.
Context {A : Type} (le : A -> A -> bool).

(** [x] goes before the first element it is not greater than, so that of
    two elements that compare equal the one from further left stays left. *)
Fixpoint insert (x : A) (l : list A) : list A :=
  match l with
  | [] => [x]
  | y :: r => if le x y then x :: l else y :: insert x r
  end.

(** [sorted(l, key=...)]: the stable sort for the order [le] on elements. *)
Fixpoint sorted (l : list A) : list A :=
  match l with
  | [] => []
  | x :: r => insert x (sorted r)
  end.

End Sorted.
End Builtins.

(** The order of the keys [(x["priority"], x["category"])]: tuples compare
    component by component, strings by code points. *)
Definition key_le (a b : string * string) : bool :=
  match String.compare (fst a) (fst b) with
  | Lt => true
  | Gt => false
  | Eq => String.leb (snd a) (snd b)
  end.

Definition entry_key (x : Entry) : string * string := (priority x, category x).

Definition entry_le (x y : Entry) : bool := key_le (entry_key x) (entry_key y).

(** ** The script *)

Section Script.
Variable rt : Runtime.
Variable w : World.

Definition _run (cmd : list string) (cwd : Path) : result (Z * string * string) :=
  p <- subprocess_run w cmd cwd ;;
  let '(returncode, stdout, stderr) := p in
  Ok (returncode, strip stdout, strip stderr).

Definition _is_git_repo (root : Path) : bool :=
  FS.exists_ w (PathLib.child root ".git").

(** [bool(line.strip())] *)
Definition nonblank (line : string) : bool := negb (String.eqb (strip line) "").

Definition _git_tracked_files (root : Path) : result (option (list string)) :=
  r <- _run ["git"; "ls-files"] root ;;
  let '(rc, out, _) := r in
  if negb (Z.eqb rc 0) then Ok None
  else Ok (Some (filter nonblank (splitlines out))).

Definition _git_last_commit_iso (root : Path) (rel_path : string)
  : result (option string) :=
  r <- _run ["git"; "log"; "-1"; "--format=%cI"; "--"; rel_path] root ;;
  let '(rc, out, _) := r in
  if negb (Z.eqb rc 0) || String.eqb out "" then Ok None
  else match splitlines out with
       | l :: _ => Ok (Some (strip l))
       | [] => Raise IndexError
       end.

(** The default of the parameter [max_bytes] of [_safe_read_text]. *)
Definition max_bytes : N := 2000000.

Definition _safe_read_text (path : Path) : string :=
  match FS.read_bytes w path with
  | Ok data =>
      utf8_decode rt (if N.ltb max_bytes (N.of_nat (List.length data))
                      then firstn (N.to_nat max_bytes) data else data)
  | Raise _ => ""
  end.

(** [None] is returned for a text that does not parse and also for the
    text [null], which parses to [None]. *)
Definition _safe_read_json (path : Path) : option json :=
  match json_loads rt (_safe_read_text path) with
  | Ok JNull => None
  | Ok v => Some v
  | Raise _ => None
  end.

Definition _resolve_import (base_dir : Path) (raw : string) (repo_root : Path) : Path :=
  let raw := strip raw in
  if startswith "~" raw then PathLib.of_str (FS.expanduser w raw)
  else
    let p := PathLib.of_str raw in
    if PathLib.is_absolute p then p
    else FS.resolve w (PathLib.join base_dir p).

Definition _extract_imports (text : string) : list string :=
  let found := map strip (Regex.import_scan 0 None text) in
  filter (fun x => negb (contains "@" x)) found.

Definition _count_headings (text : string) : nat := Regex.heading_scan 0 true text.

(** The loop [for p in ...: if p not in [c[0] for c in candidates]: ...] *)
Definition add_nested (scope : string) (found : list Path)
  (candidates : list (Path * string)) : list (Path * string) :=
  fold_left
    (fun cs p =>
       if existsb (PathLib.eqb p) (map fst cs) then cs else cs ++ [(p, scope)])
    found candidates.

(** The list [project_locations] of [_discover_memory_files]. *)
Definition project_locations (root : Path) : list (Path * string) :=
  [ (PathLib.child root "CLAUDE.md", "project");
    (PathLib.child (PathLib.child root ".claude") "CLAUDE.md", "project");
    (PathLib.child root "CLAUDE.local.md", "local");
    (PathLib.child (PathLib.child root ".claude") "CLAUDE.local.md", "local") ].

Definition _discover_memory_files (root : Path) : list (Path * string) :=
  let candidates := project_locations root in
  let candidates :=
    add_nested "project-nested" (FS.rglob_name w root "CLAUDE.md") candidates in
  add_nested "local-nested" (FS.rglob_name w root "CLAUDE.local.md") candidates.

(** [str(p.relative_to(root))], or [str(p)] on [ValueError] *)
Definition rel_str (p root : Path) : string :=
  match PathLib.relative_to p root with
  | Some r => PathLib.to_str r
  | None => PathLib.to_str p
  end.

(** The items appended under the condition [b]. *)
Definition when {A : Type} (b : bool) (l : list A) : list A := if b then l else [].

Definition _analyze_memory_file (path : Path) (scope : string) (root : Path)
  (tracked : option (list string)) : result MemoryFileReport.t :=
  let rel := rel_str path root in
  let exists_ := FS.exists_ w path && FS.is_file w path in
  if negb exists_ then Ok (MemoryFileReport.init rel exists_ scope)
  else
    let text := _safe_read_text path in
    let bytes := FS.st_size w path in
    let lines := count_char NL text + (if String.eqb text "" then 0 else 1) in
    let word_count := List.length (split text) in
    let has_headings := Regex.heading_search true text in
    let heading_count := _count_headings text in
    let imports := _extract_imports text in
    let base_dir := PathLib.parent path in
    let missing_imports :=
      filter (fun imp => negb (FS.exists_ w (_resolve_import base_dir imp root)))
             imports in
    last_git_commit_iso <-
      match tracked with
      | Some _ => _git_last_commit_iso root rel
      | None => Ok None
      end ;;
    let missing := negb (match missing_imports with [] => true | _ => false end) in
    let text_lower := lower text in
    let missing_sections :=
      when (negb (contains "build" text_lower) && negb (contains "test" text_lower)
            && negb (contains "lint" text_lower))
           ["commands (build/test/lint)"]
      ++ when (negb (contains "architecture" text_lower)
               && negb (contains "structure" text_lower))
              ["architecture overview"] in
    let issues :=
      when (contains "local" scope)
           ["CLAUDE.local.md is deprecated; prefer @imports in CLAUDE.md"]
      ++ when (Nat.ltb 500 lines)
              [("Very large (" ++ str_of_nat lines
                ++ " lines); consider splitting via @imports")%string]
      ++ when missing
              [("Missing @imports: " ++ join ", " missing_imports)%string]
      ++ when (negb has_headings)
              ["No markdown headings; structure may be hard for agents to parse"] in
    let recommendations :=
      (if Nat.ltb 500 lines
       then ["Keep top-level CLAUDE.md concise; extract details to imported files"]
       else when (Nat.ltb 300 lines)
                 ["Consider splitting larger sections into @imported files"])
      ++ when (negb has_headings)
              ["Add section headings for Commands, Architecture, Conventions, etc."]
      ++ when (Nat.ltb word_count 50 && exists_)
              ["Very minimal content; consider adding project conventions and commands"]
      ++ when (negb (match missing_sections with [] => true | _ => false end))
              [("Consider adding: " ++ join ", " missing_sections)%string] in
    Ok (MemoryFileReport.mk rel exists_ bytes lines word_count has_headings
          heading_count imports missing_imports last_git_commit_iso scope
          issues recommendations).

Definition _discover_settings_files (root : Path) : list (Path * string) :=
  let home := FS.Path_home w in
  let candidates :=
    [ (PathLib.child (PathLib.child home ".claude") "settings.json", "user");
      (PathLib.child (PathLib.child root ".claude") "settings.json", "project");
      (PathLib.child (PathLib.child root ".claude") "settings.local.json", "local") ] in
  let managed_paths :=
    [ PathLib.of_str "/etc/claude/settings.json";
      PathLib.child (PathLib.child (PathLib.child home ".config") "claude")
                    "managed-settings.json" ] in
  candidates
  ++ map (fun mp => (mp, "managed")) (filter (FS.exists_ w) managed_paths).

(** The literal [{}] *)
Definition empty_dict : json := JObj [].

Definition _analyze_settings_file (path : Path) (scope : string)
  : result SettingsFileReport.t :=
  let p := PathLib.to_str path in
  let exists_ := FS.exists_ w path in
  if negb exists_ then Ok (SettingsFileReport.init p exists_ scope)
  else
    let bytes := FS.st_size w path in
    match _safe_read_json path with
    | None =>
        Ok (SettingsFileReport.mk p exists_ scope bytes false false false false 0
              ["Invalid JSON format"])
    | Some data =>
        perms <- Py.get data "permissions" empty_dict ;;
        allow <- Py.get_none perms "allow" ;;
        let has_allowed_tools := Py.truthy allow in
        perms <- Py.get data "permissions" empty_dict ;;
        deny <- Py.get_none perms "deny" ;;
        let has_deny_tools := Py.truthy deny in
        custom <- Py.get_none data "customInstructions" ;;
        let has_custom_instructions := Py.truthy custom in
        mcp_servers <- Py.get data "mcpServers" empty_dict ;;
        let has_mcp_servers := Py.truthy mcp_servers in
        mcp_server_count <- Py.len mcp_servers ;;
        issues <-
          (if has_allowed_tools then
             perms <- Py.get data "permissions" empty_dict ;;
             allowed <- Py.get perms "allow" (JArr []) ;;
             listed <- Py.str_in "Bash(*)" allowed ;;
             Ok (when (listed || contains "Bash(*)'" (py_str rt allowed))
                   ["Overly permissive Bash(*) in allowed tools - security risk"])
           else Ok []) ;;
        Ok (SettingsFileReport.mk p exists_ scope bytes has_allowed_tools
              has_deny_tools has_custom_instructions has_mcp_servers
              mcp_server_count issues)
    end.

Definition _discover_mcp_configs (root : Path) : list (Path * string) :=
  let home := FS.Path_home w in
  [ (PathLib.child (PathLib.child home ".claude") "mcp.json", "user");
    (PathLib.child root ".mcp.json", "project");
    (PathLib.child (PathLib.child root ".claude") "mcp.json", "project") ].

Definition _analyze_mcp_config (path : Path) (scope : string)
  : result MCPConfigReport.t :=
  let p := PathLib.to_str path in
  let exists_ := FS.exists_ w path in
  if negb exists_ then Ok (MCPConfigReport.init p exists_ scope)
  else
    match _safe_read_json path with
    | None => Ok (MCPConfigReport.mk p exists_ scope 0 [] ["Invalid JSON format"])
    | Some data =>
        servers <- Py.get data "mcpServers" empty_dict ;;
        server_count <- Py.len servers ;;
        names <- Py.keys servers ;;
        Ok (MCPConfigReport.mk p exists_ scope server_count names
              (when (Nat.ltb 10 server_count)
                 [("Many MCP servers (" ++ str_of_nat server_count
                   ++ "); may impact context with lazy loading disabled")%string]))
    end.

(** The body shared by the two loops of [_discover_skills]. *)
Definition skills_in (skills_dir : Path) (scope : string)
  : result (list (Path * string)) :=
  if FS.exists_ w skills_dir then
    ds <- FS.iterdir w skills_dir ;;
    Ok (map (fun d => (d, scope))
            (filter (fun d => FS.is_dir w d
                              && FS.exists_ w (PathLib.child d "SKILL.md")) ds))
  else Ok [].

Definition _discover_skills (root : Path) : result (list (Path * string)) :=
  let home := FS.Path_home w in
  user <- skills_in (PathLib.child (PathLib.child home ".claude") "skills") "user" ;;
  project <- skills_in (PathLib.child (PathLib.child root ".claude") "skills")
                       "project" ;;
  Ok (user ++ project).

Definition _analyze_skill (skill_dir : Path) (scope : string) (root : Path)
  : SkillReport.t :=
  let skill_md := PathLib.child skill_dir "SKILL.md" in
  let rel := rel_str skill_dir root in
  let has_scripts := FS.exists_ w (PathLib.child skill_dir "scripts") in
  let has_references := FS.exists_ w (PathLib.child skill_dir "references") in
  let has_assets := FS.exists_ w (PathLib.child skill_dir "assets") in
  if FS.exists_ w skill_md then
    let text := _safe_read_text skill_md in
    let skill_md_lines := count_char NL text + 1 in
    let has_description := contains "description:" text in
    SkillReport.mk rel (PathLib.name skill_dir) scope has_description
      has_scripts has_references has_assets skill_md_lines
      (when (negb has_description) ["Missing description in SKILL.md frontmatter"]
       ++ when (Nat.ltb 500 skill_md_lines)
               [("SKILL.md very large (" ++ str_of_nat skill_md_lines
                 ++ " lines); consider using references/")%string])
  else
    SkillReport.mk rel (PathLib.name skill_dir) scope false
      has_scripts has_references has_assets 0 [].

(** The body shared by the two loops of [_discover_subagents]. *)
Definition agents_in (agents_dir : Path) (scope : string) : list (Path * string) :=
  if FS.exists_ w agents_dir
  then map (fun f => (f, scope)) (FS.glob_md w agents_dir)
  else [].

Definition _discover_subagents (root : Path) : list (Path * string) :=
  let home := FS.Path_home w in
  agents_in (PathLib.child (PathLib.child home ".claude") "agents") "user"
  ++ agents_in (PathLib.child (PathLib.child root ".claude") "agents") "project".

Definition _analyze_subagent (agent_path : Path) (scope : string) (root : Path)
  : SubagentReport.t :=
  let rel := rel_str agent_path root in
  if FS.exists_ w agent_path then
    let text := _safe_read_text agent_path in
    let agent_md_lines := count_char NL text + 1 in
    let has_description :=
      contains "description:" (lower text) || negb (String.eqb (strip text) "") in
    SubagentReport.mk rel (PathLib.stem agent_path) scope has_description
      agent_md_lines []
  else SubagentReport.mk rel (PathLib.stem agent_path) scope false 0 [].

(** [top_dirs[k] = top_dirs.get(k, 0) + 1] on a [dict] kept as the list of
    its items in insertion order. *)
Fixpoint dict_incr (k : string) (d : list (string * nat)) : list (string * nat) :=
  match d with
  | [] => [(k, 1)]
  | (k', n) :: r => if String.eqb k k' then (k', n + 1) :: r
                    else (k', n) :: dict_incr k r
  end.

(** [top_dirs[k] = v] *)
Fixpoint dict_set (k : string) (v : nat) (d : list (string * nat))
  : list (string * nat) :=
  match d with
  | [] => [(k, v)]
  | (k', n) :: r => if String.eqb k k' then (k', v) :: r
                    else (k', n) :: dict_set k v r
  end.

(** [parts = f.split("/", 1); parts[0] if len(parts) > 1 else "."] *)
Definition top_of (f : string) : string :=
  match PathLib.split_on "/" f with
  | top :: _ :: _ => top
  | _ => "."
  end.

(** The directory names left out of the file count and of the directory
    statistics. *)
Definition housekeeping : list string :=
  [".git"; "node_modules"; "dist"; "build"; ".venv"; "__pycache__"].

(** [x in l] for a list, a tuple or a set of strings *)
Definition mem (x : string) (l : list string) : bool := existsb (String.eqb x) l.

Definition _get_directory_stats (root : Path) (tracked : option (list string))
  : result (list (string * nat)) :=
  top_dirs <-
    match tracked with
    | Some fs => Ok (fold_left (fun d f => dict_incr (top_of f) d) fs [])
    | None =>
        ps <- FS.iterdir w root ;;
        Ok (fold_left
              (fun d p =>
                 if FS.is_dir w p && negb (mem (PathLib.name p) housekeeping)
                 then dict_set (PathLib.name p)
                        (List.length (filter (FS.is_file w) (FS.rglob_all w p))) d
                 else d)
              ps [])
    end ;;
  Ok (firstn 20 (Builtins.sorted (fun a b => Nat.leb (snd b) (snd a)) top_dirs)).

Definition no_memory_entry : Entry :=
  mkEntry "P0" "memory" None
    "No CLAUDE.md found; create one to provide project context to Claude Code".

Definition scale_entry (file_count : nat) : Entry :=
  mkEntry "P1" "scale" None
    ("Repo has " ++ str_of_nat file_count
     ++ " files (>3000 threshold). Consider a context engine or retrieval layer for reliable agent context.")%string.

Definition memory_issue (r : MemoryFileReport.t) (issue : string) : Entry :=
  mkEntry (if contains "missing" (lower issue) then "P1" else "P2") "memory"
          (Some (MemoryFileReport.path r)) issue.

Definition memory_recommendation (r : MemoryFileReport.t) (rec : string) : Entry :=
  mkEntry "P2" "memory" (Some (MemoryFileReport.path r)) rec.

Definition settings_issue (r : SettingsFileReport.t) (issue : string) : Entry :=
  mkEntry "P1" "settings" (Some (SettingsFileReport.path r)) issue.

Definition mcp_issue (r : MCPConfigReport.t) (issue : string) : Entry :=
  mkEntry "P2" "mcp" (Some (MCPConfigReport.path r)) issue.

Definition skill_issue (r : SkillReport.t) (issue : string) : Entry :=
  mkEntry "P2" "skills" (Some (SkillReport.path r)) issue.

(** The first block of appends in [audit] to [all_issues], in the order
    of the source: the missing-memory entry, then the issues of the memory,
    settings, MCP and skill reports. *)
Definition all_issues (memory_reports : list MemoryFileReport.t)
  (settings_reports : list SettingsFileReport.t)
  (mcp_reports : list MCPConfigReport.t) (skill_reports : list SkillReport.t)
  : list Entry :=
  let existing_memory := filter MemoryFileReport.exists_ memory_reports in
  when (match existing_memory with [] => true | _ => false end) [no_memory_entry]
  ++ flat_map (fun r => map (memory_issue r) (MemoryFileReport.issues r))
              memory_reports
  ++ flat_map (fun r => map (settings_issue r) (SettingsFileReport.issues r))
              settings_reports
  ++ flat_map (fun r => map (mcp_issue r) (MCPConfigReport.issues r)) mcp_reports
  ++ flat_map (fun r => map (skill_issue r) (SkillReport.issues r)) skill_reports.

(** The appends in [audit] to [all_recommendations]. *)
Definition all_recommendations (memory_reports : list MemoryFileReport.t)
  (large_repo : bool) (file_count : nat) : list Entry :=
  flat_map (fun r => map (memory_recommendation r)
                         (MemoryFileReport.recommendations r))
           memory_reports
  ++ when large_repo [scale_entry file_count].

(** [scope != "user"] *)
Definition not_user (scope : string) : bool := negb (String.eqb scope "user").

(** [[r for r in reports if r.scope != "user"]] when user scope is left out *)
Definition scoped {R : Type} (include_user_scope : bool) (scope : R -> string)
  (reports : list R) : list R :=
  if negb include_user_scope then filter (fun r => not_user (scope r)) reports
  else reports.

(** The files counted by the walk of [audit]: regular files none of whose
    path components is a housekeeping name. *)
Definition counted (p : Path) : bool :=
  FS.is_file w p && negb (existsb (fun part => mem part housekeeping) (PathLib.parts p)).

Definition audit (root : Path) (include_user_scope : bool) : result AuditReport :=
  let root := FS.resolve w root in
  tracked <- (if _is_git_repo root then _git_tracked_files root else Ok None) ;;
  let '(file_count, file_count_source) :=
    match tracked with
    | Some t => (List.length t, "git ls-files")
    | None =>
        (List.length (filter counted (FS.rglob_all w root)),
         "filesystem walk (excludes node_modules/.git/dist/build/.venv/__pycache__)")
    end in
  let large_repo := Nat.ltb 3000 file_count in
  let memory_files := _discover_memory_files root in
  memory_reports <-
    mapM (fun ps => _analyze_memory_file (fst ps) (snd ps) root tracked)
         memory_files ;;
  let settings_files := _discover_settings_files root in
  settings_reports <-
    mapM (fun ps => _analyze_settings_file (fst ps) (snd ps)) settings_files ;;
  let settings_reports :=
    scoped include_user_scope SettingsFileReport.scope settings_reports in
  let mcp_configs := _discover_mcp_configs root in
  mcp_reports <- mapM (fun ps => _analyze_mcp_config (fst ps) (snd ps)) mcp_configs ;;
  let mcp_reports := scoped include_user_scope MCPConfigReport.scope mcp_reports in
  skills <- _discover_skills root ;;
  let skill_reports := map (fun ps => _analyze_skill (fst ps) (snd ps) root) skills in
  let skill_reports := scoped include_user_scope SkillReport.scope skill_reports in
  let subagents := _discover_subagents root in
  let subagent_reports :=
    map (fun ps => _analyze_subagent (fst ps) (snd ps) root) subagents in
  let subagent_reports :=
    scoped include_user_scope SubagentReport.scope subagent_reports in
  dir_stats <- _get_directory_stats root tracked ;;
  let all_issues :=
    all_issues memory_reports settings_reports mcp_reports skill_reports in
  let all_recommendations :=
    all_recommendations memory_reports large_repo file_count in
  Ok (mkAuditReport
        (mkMeta "optimizing-claude-code.audit_repo" (now_iso w) (PathLib.to_str root))
        (mkRepoScale file_count file_count_source 3000 large_repo
           (_is_git_repo root) dir_stats)
        (mkClaudeMemory
           (filter MemoryFileReport.exists_ memory_reports)
           (filter (fun r => negb (MemoryFileReport.exists_ r)
                             && mem (MemoryFileReport.scope r) ["project"; "local"])
                   memory_reports))
        (filter SettingsFileReport.exists_ settings_reports)
        (mkMCPConfiguration
           (filter MCPConfigReport.exists_ mcp_reports)
           (list_sum (map MCPConfigReport.server_count
                          (filter MCPConfigReport.exists_ mcp_reports))))
        (mkSkills skill_reports (List.length skill_reports))
        (mkSubagents subagent_reports (List.length subagent_reports))
        (Builtins.sorted entry_le all_issues)
        (Builtins.sorted entry_le all_recommendations)).

(** [json.dumps(report, indent=2, ensure_ascii=False)], taken as given. *)
Variable json_dumps : AuditReport -> string.

(** How the process ends: [main] returned and the interpreter exits with
    its value, or an exception reached the top level. *)
Inductive outcome : Type :=
| Exit (status : Z) (stdout stderr : string)
| Uncaught (e : exn).

(** [main] from the line after [ap.parse_args()]: [root_arg] is
    [args.root] and [include_user_scope] is [args.include_user_scope].
    What the parser does on its own is not part of it: for [--help] it
    prints the usage and exits with 0, for an argument it refuses it exits
    with 2, both before the root path is looked at.  The two [print] calls
    are taken to succeed. *)
Definition main (root_arg : string) (include_user_scope : bool) : outcome :=
  let root := PathLib.of_str root_arg in
  if negb (FS.exists_ w root) then
    Exit 1 "" ("Error: " ++ PathLib.to_str root ++ " does not exist" ++ String NL "")%string
  else
    match audit root include_user_scope with
    | Ok report => Exit 0 (json_dumps report ++ String NL "")%string ""
    | Raise e => Uncaught e
    end.

(** The status the shell sees: an uncaught exception makes the interpreter
    print the traceback on the error stream and exit with 1. *)
Definition exit_status (o : outcome) : Z :=
  match o with
  | Exit status _ _ => status
  | Uncaught _ => 1
  end.

End Script.

(** ** Notions of the specification *)

(** The order on keys in the words of the specification: ascending by
    priority, ties broken by category, both in the literal string order. *)
Definition key_before (a b : string * string) : Prop :=
  String.ltb (fst a) (fst b) = true
  \/ (fst a = fst b /\ String.leb (snd a) (snd b) = true).

(** The tracked-file list as [audit] obtains it for the resolved root. *)
Definition tracked_of (w : World) (root : Path) : result (option (list string)) :=
  if _is_git_repo w root then _git_tracked_files w root else Ok None.

(** The scale count as [audit] obtains it for the resolved root. *)
Definition file_count_of (w : World) (root : Path) (tracked : option (list string))
  : nat :=
  match tracked with
  | Some t => List.length t
  | None => List.length (filter (counted w) (FS.rglob_all w root))
  end.

(** Equality of entries is decidable. *)
Definition Entry_eq_dec (x y : Entry) : {x = y} + {x <> y}.
Proof.
  decide equality; try apply string_dec.
  decide equality. apply string_dec.
Defined.

(** The invariant of the data model: the unresolved tokens are among the
    tokens found, and a report of an absent file is all zeros and empty
    lists. *)
Definition memory_invariant (r : MemoryFileReport.t) : Prop :=
  incl (MemoryFileReport.missing_imports r) (MemoryFileReport.imports r)
  /\ (MemoryFileReport.exists_ r = false ->
      MemoryFileReport.bytes r = 0 /\ MemoryFileReport.lines r = 0
      /\ MemoryFileReport.word_count r = 0 /\ MemoryFileReport.heading_count r = 0
      /\ MemoryFileReport.imports r = [] /\ MemoryFileReport.missing_imports r = []
      /\ MemoryFileReport.issues r = [] /\ MemoryFileReport.recommendations r = []).

(** The home directory [h] followed by [rest], as [expanduser] joins them:
    the slashes that end [h] are dropped, and the empty result is [/]. *)
Definition home_join (h rest : string) : string :=
  match (rstrip_slash h ++ rest)%string with
  | "" => "/"
  | r => r
  end.

(** The world [w] at another reading of the clock. *)
Definition with_clock (t : string) (w : World) : World := {|
  fs_root := fs_root w;
  getcwd := getcwd w;
  home := home w;
  getpwnam := getpwnam w;
  dir_st_size := dir_st_size w;
  subprocess_run := subprocess_run w;
  now_iso := t
|}.

(** The report [r] with another time stamp. *)
Definition set_generated_at (t : string) (r : AuditReport) : AuditReport :=
  mkAuditReport
    (mkMeta (tool (meta r)) t (root (meta r)))
    (repo_scale r) (claude_memory r) (claude_settings r) (mcp_configuration r)
    (skills r) (subagents r) (issues r) (recommendations r).

(** The result of a call with [f] applied to the value it returns. *)
Definition fmap {A B : Type} (f : A -> B) (m : result A) : result B :=
  match m with
  | Ok a => Ok (f a)
  | Raise e => Raise e
  end.

(** The line count in the words of the specification: the number of
    newline characters, plus one if the text is not empty. *)
Definition line_count (text : string) : nat :=
  count_char NL text + (if String.eqb text "" then 0 else 1).

(** The word count in the words of the specification: the number of
    whitespace-delimited tokens, counted where each one starts, at a
    character that is no whitespace and follows whitespace or nothing. *)
Fixpoint token_starts (after_space : bool) (s : string) : nat :=
  match s with
  | "" => 0
  | String c r =>
      (if after_space && negb (isspace c) then 1 else 0)
      + token_starts (isspace c) r
  end.

Definition token_count (text : string) : nat := token_starts true text.

Definition starts_token (s : string) : nat :=
  match s with
  | String c _ => if isspace c then 0 else 1
  | "" => 0
  end.

(** A heading prefix at the head of [s]: one to six [#] and then a
    whitespace character. *)
Definition is_heading (s : string) : bool :=
  let (n, t) := Regex.span_hash s in
  Nat.leb 1 n && Nat.leb n 6
  && match t with String c _ => isspace c | "" => false end.

(** The heading count in the words of the specification: the number of
    lines that start with a heading prefix.  A line starts at the start of
    the text and after each newline; [bol] tells whether one starts here. *)
Fixpoint heading_lines_from (bol : bool) (s : string) : nat :=
  match s with
  | "" => 0
  | String c r =>
      (if bol && is_heading s then 1 else 0) + heading_lines_from (Ascii.eqb c NL) r
  end.

Definition heading_lines (text : string) : nat := heading_lines_from true text.

(** No line among the first [k] characters of [s] starts with a heading
    prefix. *)
Fixpoint quiet (k : nat) (bol : bool) (s : string) : bool :=
  match k, s with
  | S k', String c r => negb (bol && is_heading s) && quiet k' (Ascii.eqb c NL) r
  | _, _ => true
  end.

(** [d.get(k, 0)] on a dictionary of counts *)
Definition dict_get (k : string) (d : list (string * nat)) : nat :=
  match Py.assoc k d with Some n => n | None => 0 end.

(** Every character of [s] satisfies [p]. *)
Fixpoint all_char (p : ascii -> bool) (s : string) : bool :=
  match s with
  | "" => true
  | String c r => p c && all_char p r
  end.

(** Some character of [s] satisfies [p]. *)
Fixpoint any_char (p : ascii -> bool) (s : string) : bool :=
  match s with
  | "" => false
  | String c r => p c || any_char p r
  end.

(** A text that is empty or holds whitespace only. *)
Definition blank (s : string) : bool := all_char isspace s.

(** [isinstance(v, dict)] *)
Definition is_dict (v : json) : bool :=
  match v with JObj _ => true | _ => false end.

(** A decimal digit. *)
Definition is_digit (c : ascii) : bool := between 48 57 (ord c).

(** The report of a skill directory that holds its SKILL.md. *)
Definition skill_report_ok (k : SkillReport.t) : Prop :=
  1 <= SkillReport.skill_md_lines k
  /\ (SkillReport.scope k = "user" \/ SkillReport.scope k = "project")
  /\ (In "Missing description in SKILL.md frontmatter" (SkillReport.issues k)
      <-> SkillReport.has_description k = false).

(** [leads n rel m]: the names [rel] lead from the node [n] to the node
    [m], each through an entry of the directory reached so far. *)
Fixpoint leads (n : node) (rel : list string) (m : node) : Prop :=
  match rel with
  | [] => n = m
  | p :: r =>
      match n with
      | Dir es => exists c, In (p, c) es /\ leads c r m
      | File _ => False
      end
  end.

(** A nested instance: an entry named CLAUDE.md with the scope
    project-nested, or one named CLAUDE.local.md with the scope
    local-nested, that the recursive search from the root finds and that
    lies at some depth below the root. *)
Definition nested_instance (w : World) (root : Path) (c : Path * string) : Prop :=
  exists nm,
    ((nm = "CLAUDE.md" /\ snd c = "project-nested")
     \/ (nm = "CLAUDE.local.md" /\ snd c = "local-nested"))
    /\ In (fst c) (FS.rglob_name w root nm)
    /\ exists n rel m,
         FS.stat w root = Some n /\ leads n (rel ++ [nm]) m
         /\ fst c = FS.under root (rel ++ [nm]).

(** Equality of sort keys. *)
Definition key_eqb (a b : string * string) : bool :=
  String.eqb (fst a) (fst b) && String.eqb (snd a) (snd b).

(** The entries of [l] that bear the sort key [k], in the order in which
    they arrived in [l]. *)
Definition keyed (k : string * string) (l : list Entry) : list Entry :=
  filter (fun e => key_eqb (entry_key e) k) l.

(** What the analyzers contribute to the issues of a report, one block
    for each: the entry for no memory document, then the issues of the
    memory documents, of the settings files, of the connector
    configurations and of the skills that the report lists, in the order
    in which [audit] appends them. *)
Definition issue_blocks (r : AuditReport) : list (list Entry) :=
  [ when (match discovered_files (claude_memory r) with [] => true | _ => false end)
         [no_memory_entry];
    flat_map (fun m => map (memory_issue m) (MemoryFileReport.issues m))
             (discovered_files (claude_memory r));
    flat_map (fun x => map (settings_issue x) (SettingsFileReport.issues x))
             (claude_settings r);
    flat_map (fun c => map (mcp_issue c) (MCPConfigReport.issues c))
             (mcp_discovered_files (mcp_configuration r));
    flat_map (fun k => map (skill_issue k) (SkillReport.issues k))
             (skills_discovered (skills r)) ].

(** The same for the recommendations: those of the memory documents, then
    the one on the scale of the repository. *)
Definition recommendation_blocks (r : AuditReport) : list (list Entry) :=
  [ flat_map (fun m => map (memory_recommendation m)
                           (MemoryFileReport.recommendations m))
             (discovered_files (claude_memory r));
    when (is_large_repo (repo_scale r)) [scale_entry (file_count (repo_scale r))] ].

(** The four issues that the memory analyzer can raise. *)
Definition deprecated_msg : string :=
  "CLAUDE.local.md is deprecated; prefer @imports in CLAUDE.md".

Definition very_large_msg (n : nat) : string :=
  ("Very large (" ++ str_of_nat n ++ " lines); consider splitting via @imports")%string.

Definition missing_imports_msg (l : list string) : string :=
  ("Missing @imports: " ++ join ", " l)%string.

Definition no_headings_msg : string :=
  "No markdown headings; structure may be hard for agents to parse".

Definition memory_issue_form (i : string) : Prop :=
  i = deprecated_msg \/ (exists n, i = very_large_msg n)
  \/ (exists l, i = missing_imports_msg l) \/ i = no_headings_msg.

(** ** Sample worlds *)

Module Samples.

Definition text_file (s : string) : node := File (list_byte_of_string s).

(** A runtime for files that hold plain ASCII text and no JSON other than
    the documents listed. *)
Definition rt0 : Runtime := {|
  utf8_decode := string_of_list_byte;
  json_loads := fun s =>
    if String.eqb s "[]" then Ok (JArr [])
    else if String.eqb s "{}" then Ok (JObj [])
    else Raise JSONDecodeError;
  py_str := fun _ => ""
|}.

Definition no_git (cmd : list string) (cwd : Path) : result (Z * string * string) :=
  Raise FileNotFoundError.

Definition mkWorld (tree : node) (git : list string -> Path -> result (Z * string * string))
  : World := {|
  fs_root := tree;
  getcwd := ["work"];
  home := "/home/u";
  getpwnam := fun _ => None;
  dir_st_size := fun _ => 4096;
  subprocess_run := git;
  now_iso := "2026-01-01T00:00:00+00:00"
|}.

Definition tree1 : node :=
  Dir [ ("home", Dir [ ("u", Dir []) ]);
        ("work", Dir
           [ ("CLAUDE.md", text_file "# Project
build with make
see @docs/x.md
");
             ("docs", Dir [ ("y.md", text_file "y") ]);
             ("node_modules", Dir [ ("pkg", Dir [ ("CLAUDE.md", text_file "vendored") ]) ]);
             (".claude", Dir
                [ ("skills", Dir [ ("s1", Dir [ ("SKILL.md", text_file "") ]) ]);
                  ("agents", Dir [ ("a.md", text_file "") ]);
                  ("settings.json", text_file "{}") ]);
             ("notes.txt", text_file "n") ]) ].

Definition w1 : World := mkWorld tree1 no_git.

(** [n] file names, one per line, as [git ls-files] prints them. *)
Fixpoint listing (n : nat) : string :=
  match n with
  | 0 => ""
  | S k => ("f" ++ str_of_nat k ++ String NL (listing k))%string
  end.

(** A [git] that lists [n] tracked files and knows one commit date. *)
Definition git_with (n : nat) (cmd : list string) (cwd : Path)
  : result (Z * string * string) :=
  match cmd with
  | [_; "ls-files"] => Ok (0%Z, listing n, "")
  | _ => Ok (0%Z, "2025-12-31T10:00:00+01:00", "")
  end.

(** A [git] that is installed but fails, as outside a work tree. *)
Definition git_failing (cmd : list string) (cwd : Path)
  : result (Z * string * string) :=
  Ok (128%Z, "", "fatal: not a git repository").

Definition tree2 : node :=
  Dir [ ("home", Dir [ ("u", Dir []) ]);
        ("work", Dir
           [ (".git", Dir []);
             ("CLAUDE.md", text_file "# Build
run make test
## Architecture
one module
") ]) ].

Definition w3000 : World := mkWorld tree2 (git_with 3000).
Definition w3001 : World := mkWorld tree2 (git_with 3001).
Definition w_git_failing : World := mkWorld tree2 git_failing.
Definition w_git_missing : World := mkWorld tree2 no_git.

Definition tree3 : node :=
  Dir [ ("home", Dir [ ("u", Dir []) ]);
        ("work", Dir
           [ ("CLAUDE.md", text_file "# Build
");
             (".claude", Dir [ ("settings.json", text_file "[]") ]) ]) ].

Definition w_list_settings : World := mkWorld tree3 no_git.

Definition dumps0 (r : AuditReport) : string := "{}".

End Samples.


(** ** Further sample worlds *)

Module MoreSamples.

(** A project directory that holds nothing. *)
Definition tree_empty : node :=
  Dir [ ("home", Dir [ ("u", Dir []) ]); ("work", Dir []) ].

Definition w_empty : World := Samples.mkWorld tree_empty Samples.no_git.

(** A project below a directory that is named like a build output. *)
Definition tree_build : node :=
  Dir [ ("home", Dir [ ("u", Dir []) ]);
        ("build", Dir
           [ ("proj", Dir [ ("a.txt", Samples.text_file "a");
                            ("src", Dir [ ("b.txt", Samples.text_file "b") ]) ]) ]) ].

Definition w_build : World := Samples.mkWorld tree_build Samples.no_git.

(** A runtime whose [json.loads] knows the documents of a table and
    rejects every other text. *)
Definition rt_table (table : list (string * json)) : Runtime := {|
  utf8_decode := string_of_list_byte;
  json_loads := fun s =>
    match Py.assoc s table with
    | Some v => Ok v
    | None => Raise JSONDecodeError
    end;
  py_str := fun _ => ""
|}.

(** The double quote, and a name between double quotes. *)
Definition dq : string := String "034"%char "".

Definition quoted (s : string) : string := (dq ++ s ++ dq)%string.

(** A settings document that allows every shell command, and what it
    parses to. *)
Definition settings_text : string :=
  ("{" ++ quoted "permissions" ++ ": {" ++ quoted "allow" ++ ": ["
   ++ quoted "Read" ++ ", " ++ quoted "Bash(*)" ++ "]}}")%string.

Definition settings_json : json :=
  JObj [ ("permissions", JObj [ ("allow", JArr [JStr "Read"; JStr "Bash(*)"]) ]) ].

(** A connector document with two servers, and what it parses to. *)
Definition mcp_text : string :=
  ("{" ++ quoted "mcpServers" ++ ": {" ++ quoted "db" ++ ": {}, "
   ++ quoted "web" ++ ": {}}}")%string.

Definition mcp_json : json :=
  JObj [ ("mcpServers", JObj [ ("db", JObj []); ("web", JObj []) ]) ].

Definition rt1 : Runtime :=
  rt_table [ (settings_text, settings_json); (mcp_text, mcp_json);
             ("null", JNull); ("[]", JArr []) ].

Definition tree_json : node :=
  Dir [ ("home", Dir [ ("u", Dir []) ]);
        ("work", Dir
           [ ("CLAUDE.md", Samples.text_file "# Build
");
             (".mcp.json", Samples.text_file mcp_text);
             ("null.json", Samples.text_file "null");
             ("list.json", Samples.text_file "[]");
             ("bad.json", Samples.text_file "{invalid");
             (".claude", Dir [ ("settings.json", Samples.text_file settings_text) ]) ]) ].

Definition w_json : World := Samples.mkWorld tree_json Samples.no_git.

(** A project whose skills and agents places are regular files, and a
    home directory whose settings file holds a JSON list. *)
Definition tree_odd : node :=
  Dir [ ("home", Dir
           [ ("u", Dir
                [ (".claude", Dir [ ("settings.json", Samples.text_file "[]") ]) ]) ]);
        ("work", Dir
           [ ("CLAUDE.md", Samples.text_file "# Build
");
             (".claude", Dir [ ("skills", Samples.text_file "x");
                               ("agents", Samples.text_file "y") ]) ]) ].

Definition w_odd : World := Samples.mkWorld tree_odd Samples.no_git.

End MoreSamples.

(** * Properties *)

(** ** The result monad *)

Lemma bind_Ok {A B : Type} (m : result A) (k : A -> result B) (b : B) :
  bind m k = Ok b -> exists a, m = Ok a /\ k a = Ok b.
Proof.
  destruct m as [a|e]; simpl; intros H.
  - exists a. split; [reflexivity | exact H].
  - discriminate H.
Qed.

Lemma mapM_Ok_Forall {A B : Type} (f : A -> result B) (P : B -> Prop) :
  (forall a b, f a = Ok b -> P b) ->
  forall l bs, mapM f l = Ok bs -> Forall P bs.
Proof.
  intros Hf l. induction l as [|x l IH]; simpl; intros bs H.
  - injection H as <-. constructor.
  - apply bind_Ok in H. destruct H as (y & Hy & H).
    apply bind_Ok in H. destruct H as (ys & Hys & H).
    injection H as <-. constructor; eauto.
Qed.

Ltac bind_inv H :=
  let a := fresh "v" in
  let E := fresh "E" in
  apply bind_Ok in H; destruct H as (a & E & H).

(** ** The stable sort *)

Section SortedFacts.
Context {A : Type} (le : A -> A -> bool).
Hypothesis le_total : forall x y, le x y = true \/ le y x = true.
Hypothesis le_trans : forall x y z, le x y = true -> le y z = true -> le x z = true.

Let R (x y : A) : Prop := le x y = true.

Lemma insert_perm (x : A) (l : list A) :
  Permutation (x :: l) (Builtins.insert le x l).
Proof.
  induction l as [|y l IH]; simpl.
  - apply Permutation_refl.
  - destruct (le x y).
    + apply Permutation_refl.
    + eapply perm_trans; [apply perm_swap | apply perm_skip, IH].
Qed.

Lemma sorted_perm (l : list A) : Permutation l (Builtins.sorted le l).
Proof.
  induction l as [|x l IH]; simpl.
  - constructor.
  - eapply perm_trans; [apply perm_skip, IH | apply insert_perm].
Qed.

Lemma insert_Forall (P : A -> Prop) (x : A) (l : list A) :
  P x -> Forall P l -> Forall P (Builtins.insert le x l).
Proof.
  intros Hx Hl. eapply Permutation_Forall; [apply insert_perm|].
  constructor; assumption.
Qed.

Lemma insert_sorted (x : A) (l : list A) :
  StronglySorted R l -> StronglySorted R (Builtins.insert le x l).
Proof.
  induction 1 as [|y l Hl IH Hy]; simpl.
  - repeat constructor.
  - destruct (le x y) eqn:Hxy.
    + constructor; [constructor; assumption|].
      constructor; [exact Hxy|].
      eapply Forall_impl; [|exact Hy].
      intros z Hz. eapply le_trans; eassumption.
    + constructor; [exact IH|].
      apply insert_Forall; [|exact Hy].
      destruct (le_total x y) as [H|H]; [congruence | exact H].
Qed.

Lemma sorted_sorted (l : list A) : StronglySorted R (Builtins.sorted le l).
Proof.
  induction l as [|x l IH]; simpl.
  - constructor.
  - apply insert_sorted, IH.
Qed.

Lemma sorted_In (x : A) (l : list A) : In x (Builtins.sorted le l) <-> In x l.
Proof.
  split; apply Permutation_in; [apply Permutation_sym|]; apply sorted_perm.
Qed.

End SortedFacts.

(** ** The order of the sort keys *)

Lemma ascii_compare_lt_trans (a b c : ascii) :
  Ascii.compare a b = Lt -> Ascii.compare b c = Lt -> Ascii.compare a c = Lt.
Proof.
  unfold Ascii.compare. rewrite !N.compare_lt_iff. apply N.lt_trans.
Qed.

Lemma compare_lt_trans (s1 : string) :
  forall s2 s3, String.compare s1 s2 = Lt -> String.compare s2 s3 = Lt ->
                String.compare s1 s3 = Lt.
Proof.
  induction s1 as [|a s1 IH]; intros [|b s2] [|c s3]; simpl; try congruence.
  destruct (Ascii.compare a b) eqn:Hab; try discriminate;
    destruct (Ascii.compare b c) eqn:Hbc; try discriminate; intros H12 H23.
  - apply Ascii.compare_eq_iff in Hab, Hbc. subst.
    replace (Ascii.compare c c) with Eq
      by (symmetry; unfold Ascii.compare; apply N.compare_refl).
    eapply IH; eassumption.
  - apply Ascii.compare_eq_iff in Hab. subst. rewrite Hbc. reflexivity.
  - apply Ascii.compare_eq_iff in Hbc. subst. rewrite Hab. reflexivity.
  - rewrite (ascii_compare_lt_trans _ _ _ Hab Hbc). reflexivity.
Qed.

Lemma compare_refl (s : string) : String.compare s s = Eq.
Proof.
  induction s as [|a s IH]; simpl; [reflexivity|].
  replace (Ascii.compare a a) with Eq
    by (symmetry; unfold Ascii.compare; apply N.compare_refl).
  exact IH.
Qed.

Lemma compare_Eq_eq (s1 s2 : string) : String.compare s1 s2 = Eq <-> s1 = s2.
Proof.
  split; [apply String.compare_eq_iff | intros ->; apply compare_refl].
Qed.

Lemma leb_trans (s1 s2 s3 : string) :
  String.leb s1 s2 = true -> String.leb s2 s3 = true -> String.leb s1 s3 = true.
Proof.
  unfold String.leb.
  destruct (String.compare s1 s2) eqn:H12; try discriminate;
    destruct (String.compare s2 s3) eqn:H23; try discriminate; intros _ _.
  - apply compare_Eq_eq in H12, H23. subst. rewrite compare_refl. reflexivity.
  - apply compare_Eq_eq in H12. subst. rewrite H23. reflexivity.
  - apply compare_Eq_eq in H23. subst. rewrite H12. reflexivity.
  - rewrite (compare_lt_trans _ _ _ H12 H23). reflexivity.
Qed.

Lemma key_le_spec (a b : string * string) : key_le a b = true <-> key_before a b.
Proof.
  unfold key_le, key_before, String.ltb.
  destruct (String.compare (fst a) (fst b)) eqn:H.
  - apply compare_Eq_eq in H. split; [intros; right; split; assumption|].
    intros [?|[_ ?]]; [discriminate | assumption].
  - split; [left; reflexivity | reflexivity].
  - split; [discriminate|]. intros [?|[E _]]; [discriminate|].
    apply compare_Eq_eq in E. congruence.
Qed.

Lemma key_le_total (a b : string * string) : key_le a b = true \/ key_le b a = true.
Proof.
  unfold key_le. rewrite (String.compare_antisym (fst b) (fst a)).
  destruct (String.compare (fst a) (fst b)); simpl; auto using String.leb_total.
Qed.

Lemma key_le_trans (a b c : string * string) :
  key_le a b = true -> key_le b c = true -> key_le a c = true.
Proof.
  unfold key_le.
  destruct (String.compare (fst a) (fst b)) eqn:Hab; try discriminate;
    destruct (String.compare (fst b) (fst c)) eqn:Hbc; try discriminate.
  - apply compare_Eq_eq in Hab, Hbc. rewrite Hab, Hbc, compare_refl. apply leb_trans.
  - apply compare_Eq_eq in Hab. rewrite Hab, Hbc. reflexivity.
  - apply compare_Eq_eq in Hbc. rewrite <- Hbc, Hab. reflexivity.
  - rewrite (compare_lt_trans _ _ _ Hab Hbc). reflexivity.
Qed.

Lemma entries_sorted (l : list Entry) :
  StronglySorted (fun x y => key_before (entry_key x) (entry_key y))
                 (Builtins.sorted entry_le l).
Proof.
  assert (H : StronglySorted (fun x y => entry_le x y = true)
                             (Builtins.sorted entry_le l)).
  { apply sorted_sorted; unfold entry_le; intros.
    - apply key_le_total.
    - eapply key_le_trans; eassumption. }
  induction H as [|x r Hr IH Hx]; constructor; [exact IH|].
  eapply Forall_impl; [|exact Hx]. intros y Hy. apply key_le_spec, Hy.
Qed.

(** ** What [audit] returns *)

Lemma audit_inv (rt : Runtime) (w : World) (root : Path) (inc : bool)
  (r : AuditReport) :
  audit rt w root inc = Ok r ->
  exists tracked memory_reports settings_reports mcp_reports skill_reports,
    let root' := FS.resolve w root in
    tracked_of w root' = Ok tracked
    /\ mapM (fun ps => _analyze_memory_file rt w (fst ps) (snd ps) root' tracked)
            (_discover_memory_files w root') = Ok memory_reports
    /\ file_count (repo_scale r) = file_count_of w root' tracked
    /\ is_large_repo (repo_scale r) = Nat.ltb 3000 (file_count (repo_scale r))
    /\ issues r =
       Builtins.sorted entry_le
         (all_issues memory_reports settings_reports mcp_reports skill_reports)
    /\ recommendations r =
       Builtins.sorted entry_le
         (all_recommendations memory_reports (is_large_repo (repo_scale r))
            (file_count (repo_scale r)))
    /\ discovered_files (claude_memory r)
       = filter MemoryFileReport.exists_ memory_reports
    /\ missing_standard_locations (claude_memory r)
       = filter (fun m => negb (MemoryFileReport.exists_ m)
                          && mem (MemoryFileReport.scope m) ["project"; "local"])
                memory_reports
    /\ generated_at (meta r) = now_iso w.
Proof.
  unfold audit. intros H.
  bind_inv H. exists v.
  destruct v as [t|]; bind_inv H; bind_inv H; bind_inv H; bind_inv H; bind_inv H;
    injection H as <-; simpl;
    eexists _, _, _, _; repeat split; try eassumption; reflexivity.
Qed.


(** ** Ordering of the two flat lists *)

(** C5.  In every report that [audit] returns, the issues list and the
    recommendations list are each sorted ascending by the pair (priority,
    category) in the literal string order, in which P0 < P1 < P2, and each
    is a rearrangement of the entries collected from the analyzers.  In
    particular the entries P2/settings, P0/memory, P1/mcp, given in this
    order, come out as P0/memory, P1/mcp, P2/settings. *)
Theorem audit_lists_sorted (rt : Runtime) (w : World) (root : Path) (inc : bool)
  (r : AuditReport) :
  audit rt w root inc = Ok r ->
  StronglySorted (fun x y => key_before (entry_key x) (entry_key y)) (issues r)
  /\ StronglySorted (fun x y => key_before (entry_key x) (entry_key y))
                    (recommendations r)
  /\ (exists mr sr cr kr, Permutation (all_issues mr sr cr kr) (issues r))
  /\ (exists mr, Permutation
                   (all_recommendations mr (is_large_repo (repo_scale r))
                      (file_count (repo_scale r)))
                   (recommendations r))
  /\ String.ltb "P0" "P1" = true /\ String.ltb "P1" "P2" = true
  /\ forall f1 m1 f2 m2 f3 m3,
       Builtins.sorted entry_le
         [ mkEntry "P2" "settings" f1 m1; mkEntry "P0" "memory" f2 m2;
           mkEntry "P1" "mcp" f3 m3 ]
       = [ mkEntry "P0" "memory" f2 m2; mkEntry "P1" "mcp" f3 m3;
           mkEntry "P2" "settings" f1 m1 ].
Proof.
  intros H. apply audit_inv in H.
  destruct H as (tracked & mr & sr & cr & kr & _ & _ & _ & _ & Hi & Hr & _).
  rewrite Hi, Hr. repeat split.
  - apply entries_sorted.
  - apply entries_sorted.
  - exists mr, sr, cr, kr. apply sorted_perm.
  - exists mr. apply sorted_perm.
Qed.

Lemma audit_lists_sorted_witness :
  exists r, audit Samples.rt0 Samples.w1 (PathLib.of_str ".") false = Ok r
            /\ StronglySorted (fun x y => key_before (entry_key x) (entry_key y))
                              (issues r)
            /\ map entry_key (issues r)
               = [("P1", "memory"); ("P2", "memory"); ("P2", "skills")].
Proof.
  assert (E : exists r, audit Samples.rt0 Samples.w1 (PathLib.of_str ".") false = Ok r
                        /\ map entry_key (issues r)
                           = [("P1", "memory"); ("P2", "memory"); ("P2", "skills")])
    by (vm_compute; eexists; split; reflexivity).
  destruct E as (r & E & K). exists r. split; [exact E|]. split; [|exact K].
  exact (proj1 (audit_lists_sorted _ _ _ _ _ E)).
Defined.

(** ** The large-repository flag *)

(** C7.  In every report that [audit] returns the large-repository flag
    is [file_count > 3000], where the count is the number of tracked files
    when the version-control listing is available: 3000 files give
    [false], 3001 give [true]; and whenever the flag is true the
    recommendations hold an entry of priority P1 and category scale. *)
Theorem large_repo_flag (rt : Runtime) (w : World) (root : Path) (inc : bool)
  (r : AuditReport) :
  audit rt w root inc = Ok r ->
  let n := file_count (repo_scale r) in
  is_large_repo (repo_scale r) = Nat.ltb 3000 n
  /\ (forall t, tracked_of w (FS.resolve w root) = Ok (Some t) -> n = List.length t)
  /\ (n = 3000 -> is_large_repo (repo_scale r) = false)
  /\ (n = 3001 -> is_large_repo (repo_scale r) = true)
  /\ (is_large_repo (repo_scale r) = true ->
      exists e, In e (recommendations r)
                /\ priority e = "P1" /\ category e = "scale").
Proof.
  intros H n. apply audit_inv in H.
  destruct H as (tracked & mr & sr & cr & kr & Ht & _ & Hn & Hl & _ & Hr & _).
  fold n in Hn, Hl, Hr. repeat split.
  - exact Hl.
  - intros t Ht'. rewrite Ht' in Ht. injection Ht as <-. exact Hn.
  - intros E. rewrite Hl, E. reflexivity.
  - intros E. rewrite Hl, E. reflexivity.
  - intros E. exists (scale_entry n). split; [|split; reflexivity].
    rewrite Hr. apply sorted_In. unfold all_recommendations.
    apply in_or_app. right. rewrite E. left. reflexivity.
Qed.

Lemma large_repo_flag_witness :
  (exists r, audit Samples.rt0 Samples.w3000 (PathLib.of_str ".") false = Ok r
             /\ is_large_repo (repo_scale r) = false)
  /\ (exists r, audit Samples.rt0 Samples.w3001 (PathLib.of_str ".") false = Ok r
                /\ is_large_repo (repo_scale r) = true
                /\ exists e, In e (recommendations r)
                             /\ priority e = "P1" /\ category e = "scale").
Proof.
  split.
  - assert (E : exists r,
               audit Samples.rt0 Samples.w3000 (PathLib.of_str ".") false = Ok r
               /\ file_count (repo_scale r) = 3000)
      by (vm_compute; eexists; split; reflexivity).
    destruct E as (r & E & N). exists r. split; [exact E|].
    destruct (large_repo_flag _ _ _ _ _ E) as (_ & _ & H3000 & _).
    exact (H3000 N).
  - assert (E : exists r,
               audit Samples.rt0 Samples.w3001 (PathLib.of_str ".") false = Ok r
               /\ file_count (repo_scale r) = 3001)
      by (vm_compute; eexists; split; reflexivity).
    destruct E as (r & E & N). exists r. split; [exact E|].
    destruct (large_repo_flag _ _ _ _ _ E) as (_ & _ & _ & H3001 & Hrec).
    split; [exact (H3001 N) | exact (Hrec (H3001 N))].
Defined.

(** ** Priorities by category *)

Lemma count_occ_no_file (l : list Entry) :
  Forall (fun e => file e <> None) l -> count_occ Entry_eq_dec l no_memory_entry = 0.
Proof.
  intros H. apply count_occ_not_In. intros Hin.
  rewrite Forall_forall in H. apply (H _ Hin). reflexivity.
Qed.

Lemma all_issues_In (mr : list MemoryFileReport.t) (sr : list SettingsFileReport.t)
  (cr : list MCPConfigReport.t) (kr : list SkillReport.t) (e : Entry) :
  In e (all_issues mr sr cr kr) ->
  e = no_memory_entry
  \/ (exists m i, e = memory_issue m i)
  \/ (exists s i, e = settings_issue s i)
  \/ (exists c i, e = mcp_issue c i)
  \/ (exists k i, e = skill_issue k i).
Proof.
  unfold all_issues, when. rewrite !in_app_iff, !in_flat_map.
  intros [H|[H|[H|[H|H]]]].
  - destruct (filter _ mr); simpl in H; [destruct H as [<-|[]]; auto | destruct H].
  - destruct H as (m & _ & H). apply in_map_iff in H. destruct H as (i & <- & _).
    right. left. eauto.
  - destruct H as (m & _ & H). apply in_map_iff in H. destruct H as (i & <- & _).
    right. right. left. eauto.
  - destruct H as (m & _ & H). apply in_map_iff in H. destruct H as (i & <- & _).
    right. right. right. left. eauto.
  - destruct H as (m & _ & H). apply in_map_iff in H. destruct H as (i & <- & _).
    right. right. right. right. eauto.
Qed.

Lemma all_issues_count (mr : list MemoryFileReport.t) (sr : list SettingsFileReport.t)
  (cr : list MCPConfigReport.t) (kr : list SkillReport.t) :
  count_occ Entry_eq_dec (all_issues mr sr cr kr) no_memory_entry <= 1.
Proof.
  unfold all_issues. rewrite count_occ_app.
  rewrite (count_occ_no_file (flat_map _ mr ++ _)).
  - unfold when. destruct (filter _ mr); simpl;
      repeat destruct (Entry_eq_dec _ _); lia.
  - rewrite !Forall_app. repeat split; apply Forall_forall; intros e He;
      apply in_flat_map in He; destruct He as (x & _ & He);
      apply in_map_iff in He; destruct He as (i & <- & _); discriminate.
Qed.

(** C10.  In every report that [audit] returns: an issue of category
    memory is either the entry telling that no memory document was found,
    which has priority P0 and occurs at most once, or has priority P1 when
    its message holds [missing] in any letter case and P2 otherwise; every
    recommendation of category memory has priority P2; every issue of
    category settings has priority P1; every issue of category mcp or
    skills has priority P2. *)
Theorem priorities_by_category (rt : Runtime) (w : World) (root : Path)
  (inc : bool) (r : AuditReport) :
  audit rt w root inc = Ok r ->
  (forall e, In e (issues r) -> category e = "memory" ->
             e = no_memory_entry
             \/ priority e = if contains "missing" (lower (message e))
                             then "P1" else "P2")
  /\ priority no_memory_entry = "P0"
  /\ count_occ Entry_eq_dec (issues r) no_memory_entry <= 1
  /\ (forall e, In e (recommendations r) -> category e = "memory" ->
                priority e = "P2")
  /\ (forall e, In e (issues r) -> category e = "settings" -> priority e = "P1")
  /\ (forall e, In e (issues r) -> category e = "mcp" \/ category e = "skills" ->
                priority e = "P2").
Proof.
  intros H. apply audit_inv in H.
  destruct H as (tracked & mr & sr & cr & kr & _ & _ & _ & _ & Hi & Hr & _).
  assert (Hin : forall e, In e (issues r) ->
            e = no_memory_entry
            \/ (exists m i, e = memory_issue m i)
            \/ (exists s i, e = settings_issue s i)
            \/ (exists c i, e = mcp_issue c i)
            \/ (exists k i, e = skill_issue k i)).
  { intros e He. rewrite Hi in He. apply sorted_In in He.
    eapply all_issues_In, He. }
  repeat split.
  - intros e He Hc. destruct (Hin e He) as [->|[(m & i & ->)|[(s & i & ->)|[(c & i & ->)|(k & i & ->)]]]];
      try discriminate Hc; [left; reflexivity | right; reflexivity].
  - rewrite Hi.
    rewrite <- (proj1 (Permutation_count_occ Entry_eq_dec _ _)
                      (sorted_perm entry_le (all_issues mr sr cr kr))).
    apply all_issues_count.
  - intros e He Hc. rewrite Hr in He. apply sorted_In in He.
    unfold all_recommendations in He. apply in_app_or in He. destruct He as [He|He].
    + apply in_flat_map in He. destruct He as (m & _ & He).
      apply in_map_iff in He. destruct He as (i & <- & _). reflexivity.
    + unfold when in He. destruct (is_large_repo _); simpl in He;
        [destruct He as [<-|[]]; discriminate Hc | destruct He].
  - intros e He Hc. destruct (Hin e He) as [->|[(m & i & ->)|[(s & i & ->)|[(c & i & ->)|(k & i & ->)]]]];
      try discriminate Hc; reflexivity.
  - intros e He Hc. destruct (Hin e He) as [->|[(m & i & ->)|[(s & i & ->)|[(c & i & ->)|(k & i & ->)]]]];
      destruct Hc as [Hc|Hc]; try discriminate Hc; reflexivity.
Qed.

Lemma priorities_by_category_witness :
  exists r, audit Samples.rt0 Samples.w1 (PathLib.of_str ".") false = Ok r
            /\ (forall e, In e (issues r) -> category e = "memory" ->
                          e = no_memory_entry
                          \/ priority e = if contains "missing" (lower (message e))
                                          then "P1" else "P2")
            /\ map priority (issues r) = ["P1"; "P2"; "P2"].
Proof.
  assert (E : exists r, audit Samples.rt0 Samples.w1 (PathLib.of_str ".") false = Ok r
                        /\ map priority (issues r) = ["P1"; "P2"; "P2"])
    by (vm_compute; eexists; split; reflexivity).
  destruct E as (r & E & K). exists r. split; [exact E|]. split; [|exact K].
  exact (proj1 (priorities_by_category _ _ _ _ _ E)).
Defined.

(** ** Memory-file reports *)

Lemma analyze_memory_invariant (rt : Runtime) (w : World) (path : Path)
  (scope : string) (root : Path) (tracked : option (list string))
  (r : MemoryFileReport.t) :
  _analyze_memory_file rt w path scope root tracked = Ok r -> memory_invariant r.
Proof.
  unfold _analyze_memory_file.
  destruct (FS.exists_ w path && FS.is_file w path) eqn:Ex; simpl; intros H.
  - bind_inv H. injection H as <-. split; simpl.
    + intros x Hx. apply filter_In in Hx. exact (proj1 Hx).
    + discriminate.
  - injection H as <-. split; simpl.
    + intros x [].
    + intros _. repeat split; reflexivity.
Qed.

(** C8.  Every memory-file report, as the analyzer returns it and as the
    audit report lists it, has its missing imports among its imports, and
    if it says the file does not exist then its byte, line, word and
    heading counts are zero and its imports, missing imports, issues and
    recommendations are empty. *)
Theorem memory_report_invariant (rt : Runtime) (w : World) :
  (forall path scope root tracked r,
      _analyze_memory_file rt w path scope root tracked = Ok r ->
      memory_invariant r)
  /\ (forall root inc rep,
         audit rt w root inc = Ok rep ->
         Forall memory_invariant
                (discovered_files (claude_memory rep)
                 ++ missing_standard_locations (claude_memory rep))).
Proof.
  split.
  - intros path scope root tracked r. apply analyze_memory_invariant.
  - intros root inc rep H. apply audit_inv in H.
    destruct H as (tracked & mr & sr & cr & kr & _ & Hm & _ & _ & _ & _ & Hd & Hs & _).
    assert (Hall : Forall memory_invariant mr).
    { eapply mapM_Ok_Forall; [|exact Hm].
      intros a b. apply analyze_memory_invariant. }
    rewrite Hd, Hs. apply Forall_app. rewrite !Forall_forall in *.
    split; intros x Hx; apply filter_In in Hx; apply Hall, Hx.
Qed.

Lemma memory_report_invariant_witness :
  exists r,
    _analyze_memory_file Samples.rt0 Samples.w1 (PathLib.of_str "/work/CLAUDE.md")
      "project" (PathLib.of_str "/work") None = Ok r
    /\ memory_invariant r
    /\ MemoryFileReport.imports r = ["docs/x.md"] /\ MemoryFileReport.missing_imports r = ["docs/x.md"].
Proof.
  assert (E : exists r,
             _analyze_memory_file Samples.rt0 Samples.w1
               (PathLib.of_str "/work/CLAUDE.md") "project"
               (PathLib.of_str "/work") None = Ok r
             /\ MemoryFileReport.imports r = ["docs/x.md"] /\ MemoryFileReport.missing_imports r = ["docs/x.md"])
    by (vm_compute; eexists; repeat split; reflexivity).
  destruct E as (r & E & K). exists r. split; [exact E|]. split; [|exact K].
  exact (proj1 (memory_report_invariant Samples.rt0 Samples.w1) _ _ _ _ _ E).
Defined.

(** ** The version-control bridge *)

(** What the query returns when the version-control tool runs: the
    non-blank lines of its stripped output after exit status zero, the
    absent value after any other exit status. *)
Lemma git_tracked_files_runs (w : World) (root : Path) (rc : Z) (out err : string) :
  subprocess_run w ["git"; "ls-files"] root = Ok (rc, out, err) ->
  (rc = 0%Z ->
   _git_tracked_files w root = Ok (Some (filter nonblank (splitlines (strip out)))))
  /\ (rc <> 0%Z -> _git_tracked_files w root = Ok None).
Proof.
  unfold _git_tracked_files, _run. intros ->. simpl. split.
  - intros ->. reflexivity.
  - intros Hrc. apply Z.eqb_neq in Hrc. rewrite Hrc. reflexivity.
Qed.

(** C2: the code where the version-control tool cannot be started.  The
    query maps a tool that fails to the absent value, on which [audit]
    falls back to the walk of the file system; but nothing catches the
    exception of a child that cannot be started, as when the tool is not
    installed: it leaves the query, the absent value is not returned, and
    the audit of a directory that holds [.git] ends in this exception
    instead of falling back. *)
Theorem git_tracked_files_raises (rt : Runtime) (w : World) (root : Path)
  (inc : bool) (e : exn) :
  subprocess_run w ["git"; "ls-files"] (FS.resolve w root) = Raise e ->
  _git_tracked_files w (FS.resolve w root) = Raise e
  /\ _git_tracked_files w (FS.resolve w root) <> Ok None
  /\ (_is_git_repo w (FS.resolve w root) = true ->
      audit rt w root inc = Raise e).
Proof.
  intros H.
  assert (Hq : _git_tracked_files w (FS.resolve w root) = Raise e).
  { unfold _git_tracked_files, _run. rewrite H. reflexivity. }
  split; [exact Hq|]. split; [rewrite Hq; discriminate|].
  intros Hg. unfold audit. rewrite Hg, Hq. reflexivity.
Qed.

Lemma git_tracked_files_raises_witness :
  _is_git_repo Samples.w_git_missing (PathLib.of_str "/work") = true
  /\ _git_tracked_files Samples.w_git_missing (PathLib.of_str "/work")
     = Raise FileNotFoundError
  /\ audit Samples.rt0 Samples.w_git_missing (PathLib.of_str "/work") false
     = Raise FileNotFoundError
  /\ _git_tracked_files Samples.w_git_failing (PathLib.of_str "/work") = Ok None.
Proof.
  destruct (git_tracked_files_raises Samples.rt0 Samples.w_git_missing
              (PathLib.of_str "/work") false FileNotFoundError eq_refl)
    as (H1 & _ & H3).
  split; [reflexivity|]. split; [exact H1|]. split; [apply H3; reflexivity|].
  reflexivity.
Defined.

(** ** Reference resolution *)

Lemma substring_all (s : string) : substring 0 (String.length s) s = s.
Proof.
  induction s as [|c s IH]; simpl; [reflexivity | rewrite IH; reflexivity].
Qed.

Lemma prefix_slash (s : string) :
  prefix "/" s = match s with String c _ => Ascii.eqb c "/" | "" => false end.
Proof.
  destruct s as [|c s]; [reflexivity|].
  change (prefix "/" (String c s))
    with (if ascii_dec "/" c then prefix "" s else false).
  destruct (ascii_dec "/" c) as [<-|N].
  - rewrite Ascii.eqb_refl. destruct s; reflexivity.
  - symmetry. apply Ascii.eqb_neq. congruence.
Qed.

Lemma of_str_absolute (s : string) :
  PathLib.is_absolute (PathLib.of_str s) = startswith "/" s.
Proof.
  unfold startswith. rewrite prefix_slash.
  destruct s as [|c s]; [reflexivity|].
  destruct (Ascii.eqb c "/") eqn:E.
  - apply Ascii.eqb_eq in E. subst c.
    destruct s as [|d s]; [reflexivity|].
    destruct (Ascii.eqb d "/") eqn:E2.
    + apply Ascii.eqb_eq in E2. subst d.
      destruct s as [|e s]; [reflexivity|].
      destruct (Ascii.eqb e "/") eqn:E3.
      * apply Ascii.eqb_eq in E3. subst e. reflexivity.
      * destruct e as [[] [] [] [] [] [] [] []]; try discriminate E3; reflexivity.
    + destruct d as [[] [] [] [] [] [] [] []]; try discriminate E2; reflexivity.
  - destruct c as [[] [] [] [] [] [] [] []]; try discriminate E; reflexivity.
Qed.

Lemma expanduser_home (w : World) (rest : string) :
  rest = "" \/ startswith "/" rest = true ->
  FS.expanduser w (String "~" rest) = home_join (home w) rest.
Proof.
  unfold startswith. rewrite prefix_slash. unfold FS.expanduser, home_join.
  intros [->|H].
  - reflexivity.
  - destruct rest as [|c rest]; [discriminate H|].
    apply Ascii.eqb_eq in H. subst c.
    cbn [PathLib.split_on]. rewrite Ascii.eqb_refl. cbn [hd String.eqb].
    change (String.length "") with 0. rewrite substring_all. reflexivity.
Qed.

(** C6, as the claim states it, fails for a token that names a user: with
    no such user the token is left as it is, a relative path that the home
    directory has no part in. *)
Lemma resolve_import_named_user :
  startswith "~" (strip "~bob/x.md") = true
  /\ home Samples.w1 = "/home/u"
  /\ _resolve_import Samples.w1 (PathLib.of_str "/work/docs") "~bob/x.md"
                     (PathLib.of_str "/work")
     = mkPath "" ["~bob"; "x.md"]
  /\ PathLib.is_absolute
       (_resolve_import Samples.w1 (PathLib.of_str "/work/docs") "~bob/x.md"
                        (PathLib.of_str "/work")) = false.
Proof.
  repeat split.
Qed.

(** C6, amended.  For every reference token, artifact directory and root
    directory, with the token stripped of surrounding whitespace: if it
    starts with [~] it is resolved by user expansion alone, whatever the
    artifact directory and the root are, and when it is [~] or starts
    with [~/] that is the home directory of the current user followed by
    the rest of the token; otherwise, if it is absolute, it is used as it
    is; otherwise it is resolved against the artifact directory, whatever
    the root is. *)
Theorem resolve_import_spec (w : World) (base_dir : Path) (raw : string)
  (repo_root : Path) :
  let tok := strip raw in
  (startswith "~" tok = true ->
   _resolve_import w base_dir raw repo_root = PathLib.of_str (FS.expanduser w tok)
   /\ (forall base_dir' repo_root',
          _resolve_import w base_dir' raw repo_root'
          = _resolve_import w base_dir raw repo_root)
   /\ (forall rest, tok = String "~" rest ->
          rest = "" \/ startswith "/" rest = true ->
          _resolve_import w base_dir raw repo_root
          = PathLib.of_str (home_join (home w) rest)))
  /\ (startswith "~" tok = false -> startswith "/" tok = true ->
      _resolve_import w base_dir raw repo_root = PathLib.of_str tok
      /\ PathLib.is_absolute (_resolve_import w base_dir raw repo_root) = true)
  /\ (startswith "~" tok = false -> startswith "/" tok = false ->
      _resolve_import w base_dir raw repo_root
      = FS.resolve w (PathLib.join base_dir (PathLib.of_str tok))
      /\ forall repo_root',
          _resolve_import w base_dir raw repo_root'
          = _resolve_import w base_dir raw repo_root).
Proof.
  intros tok. unfold _resolve_import. fold tok. split; [|split].
  - intros H. rewrite H. split; [reflexivity|]. split.
    + intros base_dir' repo_root'. reflexivity.
    + intros rest Htok Hrest. rewrite Htok, (expanduser_home w rest Hrest).
      reflexivity.
  - intros H H0. rewrite H, of_str_absolute, H0.
    split; [reflexivity | rewrite of_str_absolute; exact H0].
  - intros H H0. rewrite H, of_str_absolute, H0. split; [reflexivity|].
    intros repo_root'. reflexivity.
Qed.

Lemma resolve_import_spec_witness :
  _resolve_import Samples.w1 (PathLib.of_str "/work/docs") "~/shared.md"
                  (PathLib.of_str "/work")
  = mkPath "/" ["home"; "u"; "shared.md"]
  /\ _resolve_import Samples.w1 (PathLib.of_str "/work/docs") "/etc/x.md"
                     (PathLib.of_str "/work")
     = mkPath "/" ["etc"; "x.md"]
  /\ _resolve_import Samples.w1 (PathLib.of_str "/work/pkg") "docs/x.md"
                     (PathLib.of_str "/work")
     = mkPath "/" ["work"; "pkg"; "docs"; "x.md"].
Proof.
  pose proof (resolve_import_spec Samples.w1 (PathLib.of_str "/work/docs")
                "~/shared.md" (PathLib.of_str "/work")) as (H1 & _ & _).
  pose proof (resolve_import_spec Samples.w1 (PathLib.of_str "/work/docs")
                "/etc/x.md" (PathLib.of_str "/work")) as (_ & H2 & _).
  pose proof (resolve_import_spec Samples.w1 (PathLib.of_str "/work/pkg")
                "docs/x.md" (PathLib.of_str "/work")) as (_ & _ & H3).
  split; [|split].
  - exact (proj2 (proj2 (H1 eq_refl)) "/shared.md" eq_refl (or_intror eq_refl)).
  - exact (proj1 (H2 eq_refl eq_refl)).
  - exact (proj1 (H3 eq_refl eq_refl)).
Defined.

(** ** Discovery of memory documents *)

Lemma list_eqb_eq (l1 l2 : list string) : PathLib.list_eqb l1 l2 = true <-> l1 = l2.
Proof.
  unfold PathLib.list_eqb. destruct (list_eq_dec string_dec l1 l2); split;
    congruence.
Qed.

Lemma Path_eqb_eq (p q : Path) : PathLib.eqb p q = true <-> p = q.
Proof.
  unfold PathLib.eqb. rewrite andb_true_iff, String.eqb_eq, list_eqb_eq.
  destruct p, q; simpl; split; [intros [-> ->]; reflexivity|].
  intros E. injection E as -> ->. split; reflexivity.
Qed.

Lemma existsb_Path_In (p : Path) (l : list Path) :
  existsb (PathLib.eqb p) l = true <-> In p l.
Proof.
  rewrite existsb_exists. split.
  - intros (q & Hq & E). apply Path_eqb_eq in E. subst. exact Hq.
  - intros H. exists p. split; [exact H | apply Path_eqb_eq; reflexivity].
Qed.

(** The loop keeps what is there, adds each new path once, and adds it
    with the scope of the loop. *)
Lemma add_nested_spec (scope : string) (found : list Path) :
  forall cs,
    NoDup (map fst cs) ->
    exists extra,
      add_nested scope found cs = cs ++ extra
      /\ NoDup (map fst (cs ++ extra))
      /\ Forall (fun c => snd c = scope /\ In (fst c) found) extra
      /\ (forall p, In p found -> In p (map fst (cs ++ extra))).
Proof.
  unfold add_nested.
  induction found as [|p found IH]; simpl; intros cs Hcs.
  - exists []. rewrite app_nil_r. repeat split; [exact Hcs | constructor |].
    intros p [].
  - destruct (existsb (PathLib.eqb p) (map fst cs)) eqn:E.
    + destruct (IH cs Hcs) as (extra & -> & Hnd & Hsc & Hin).
      exists extra. repeat split; try assumption.
      { eapply Forall_impl; [|exact Hsc]. intros c (Hc & Hf).
        split; [exact Hc | right; exact Hf]. }
      intros q [<-|Hq]; [|apply Hin, Hq].
      apply existsb_Path_In in E. rewrite map_app. apply in_or_app. left. exact E.
    + assert (Hnew : NoDup (map fst (cs ++ [(p, scope)]))).
      { rewrite map_app. simpl. apply NoDup_app; [exact Hcs | repeat constructor; intros [] |].
        intros x Hx [<-|[]]. apply existsb_Path_In in Hx. congruence. }
      destruct (IH _ Hnew) as (extra & -> & Hnd & Hsc & Hin).
      exists ((p, scope) :: extra). rewrite <- app_assoc in *. simpl in *.
      repeat split; try assumption.
      * constructor; [split; [reflexivity | left; reflexivity]|].
        eapply Forall_impl; [|exact Hsc]. intros c (Hc & Hf).
        split; [exact Hc | right; exact Hf].
      * intros q [<-|Hq]; [|apply Hin, Hq].
        rewrite map_app. apply in_or_app. right. left. reflexivity.
Qed.

Lemma project_locations_paths (root : Path) :
  map fst (project_locations root)
  = [ FS.entry root "CLAUDE.md";
      FS.under root [".claude"; "CLAUDE.md"];
      FS.entry root "CLAUDE.local.md";
      FS.under root [".claude"; "CLAUDE.local.md"] ].
Proof.
  unfold project_locations, FS.entry, FS.under, PathLib.child, PathLib.join.
  simpl. rewrite <- !app_assoc. reflexivity.
Qed.

Lemma project_locations_NoDup (root : Path) :
  NoDup (map fst (project_locations root)).
Proof.
  rewrite project_locations_paths. unfold FS.entry, FS.under.
  repeat constructor; simpl; intros H;
    repeat match goal with
           | H : _ \/ _ |- _ => destruct H as [H|H]
           | H : False |- _ => destruct H
           | H : mkPath _ _ = mkPath _ _ |- _ =>
               injection H as H; apply app_inv_head in H; discriminate H
           end.
Qed.

Lemma find_app (n : node) (ps qs : list string) :
  FS.find n (ps ++ qs)
  = match FS.find n ps with Some m => FS.find m qs | None => None end.
Proof.
  revert n. induction ps as [|p ps IH]; simpl; intros n; [reflexivity|].
  destruct n as [data|es]; [reflexivity|].
  destruct (Py.assoc p es) as [c|]; [apply IH | reflexivity].
Qed.

Lemma assoc_In {A : Type} (k : string) (l : list (string * A)) (v : A) :
  Py.assoc k l = Some v -> In (k, v) l.
Proof.
  induction l as [|[k' v'] l IH]; simpl; [discriminate|].
  destruct (String.eqb k k') eqn:E.
  - apply String.eqb_eq in E. subst. intros [= ->]. left. reflexivity.
  - intros H. right. apply IH, H.
Qed.

(** The walk reaches every directory that a path of names leads to. *)
Lemma walk_dirs_complete (rel : list string) :
  forall n here es,
    FS.find n rel = Some (Dir es) -> In (here ++ rel, es) (FS.walk_dirs here n).
Proof.
  induction rel as [|p rel IH]; simpl; intros n here es H.
  - injection H as ->. rewrite app_nil_r. simpl. left. reflexivity.
  - destruct n as [data|es0]; [discriminate H|].
    destruct (Py.assoc p es0) as [c|] eqn:Hp; [|discriminate H].
    simpl. right. apply in_flat_map. exists (p, c). split.
    + apply assoc_In, Hp.
    + simpl. replace (here ++ p :: rel) with ((here ++ [p]) ++ rel)
        by (rewrite <- app_assoc; reflexivity).
      apply IH, H.
Qed.

(** Whatever directories lead to it, an entry of the name searched for is
    among the results of the recursive search. *)
Lemma rglob_name_complete (w : World) (root : Path) (n : node)
  (rel : list string) (nm : string) :
  FS.stat w root = Some n ->
  FS.find n (rel ++ [nm]) <> None ->
  In (FS.under root (rel ++ [nm])) (FS.rglob_name w root nm).
Proof.
  intros Hn Hf. unfold FS.rglob_name. rewrite Hn.
  rewrite find_app in Hf.
  destruct (FS.find n rel) as [[data|es]|] eqn:Hrel; simpl in Hf;
    try (exfalso; apply Hf; reflexivity).
  apply in_flat_map. exists (rel, es). split.
  - apply (walk_dirs_complete rel n [] es Hrel).
  - simpl. destruct (Py.assoc nm es); [left; reflexivity|].
    exfalso. apply Hf. reflexivity.
Qed.

(** Induction on a tree, with the property at hand for every entry of a
    directory. *)
Lemma node_tree_ind (P : node -> Prop) :
  (forall data, P (File data)) ->
  (forall es, Forall (fun e => P (snd e)) es -> P (Dir es)) ->
  forall n, P n.
Proof.
  intros Hf Hd. fix IH 1. intros [data|es]; [apply Hf|]. apply Hd.
  induction es as [|e es IHes]; constructor; [apply IH | exact IHes].
Qed.

Lemma leads_app (rel rel' : list string) (m k : node) :
  forall n, leads n rel m -> leads m rel' k -> leads n (rel ++ rel') k.
Proof.
  induction rel as [|p rel IH]; simpl; intros n H H'; [subst; exact H'|].
  destruct n as [data|es]; [destruct H|].
  destruct H as (c & Hc & H). exists c. split; [exact Hc | eapply IH; eassumption].
Qed.

(** The walk lists only directories that names lead to. *)
Lemma walk_dirs_sound (n : node) :
  forall here d es,
    In (d, es) (FS.walk_dirs here n) ->
    exists rel, d = here ++ rel /\ leads n rel (Dir es).
Proof.
  induction n as [data|es0 IH] using node_tree_ind; simpl; intros here d es H;
    [destruct H|].
  destruct H as [E|H].
  - injection E as <- <-. exists []. rewrite app_nil_r. split; reflexivity.
  - apply in_flat_map in H. destruct H as ([p c] & He & H). simpl in H.
    rewrite Forall_forall in IH. destruct (IH _ He _ _ _ H) as (rel & -> & Hl).
    exists (p :: rel). rewrite <- app_assoc. split; [reflexivity|].
    simpl. exists c. split; [exact He | exact Hl].
Qed.

(** What the recursive search finds is an entry of the name searched for,
    in a directory at or below the start. *)
Lemma rglob_name_sound (w : World) (root p : Path) (nm : string) :
  In p (FS.rglob_name w root nm) ->
  exists n rel m,
    FS.stat w root = Some n /\ leads n (rel ++ [nm]) m
    /\ p = FS.under root (rel ++ [nm]).
Proof.
  unfold FS.rglob_name. destruct (FS.stat w root) as [n|]; [|intros []].
  intros H. apply in_flat_map in H. destruct H as ([d es] & Hd & H). simpl in H.
  destruct (Py.assoc nm es) as [m|] eqn:Hm; [|destruct H].
  destruct H as [<-|[]].
  destruct (walk_dirs_sound n [] d es Hd) as (rel & -> & Hl). simpl.
  exists n, rel, m. split; [reflexivity|]. split; [|reflexivity].
  eapply leads_app; [exact Hl|]. simpl. exists m. split; [|reflexivity].
  apply assoc_In, Hm.
Qed.

(** C3: the code at a memory document below a housekeeping directory.
    Discovery lists the four well-known candidates first and then the
    nested instances, each found by the recursive search for its name and
    with the nested scope of that name, and skips paths already listed,
    so that no path occurs twice.  It excludes no directory: every entry
    named CLAUDE.md or CLAUDE.local.md at whatever depth below the root is
    in the list, also below a dependency cache, a build output, a virtual
    environment or the internals of the version control. *)
Theorem discover_memory_files_spec (w : World) (root : Path) :
  NoDup (map fst (_discover_memory_files w root))
  /\ (exists nested,
         _discover_memory_files w root = project_locations root ++ nested
         /\ Forall (nested_instance w root) nested)
  /\ (forall n rel nm,
         FS.stat w root = Some n ->
         nm = "CLAUDE.md" \/ nm = "CLAUDE.local.md" ->
         FS.find n (rel ++ [nm]) <> None ->
         In (FS.under root (rel ++ [nm])) (map fst (_discover_memory_files w root)))
  /\ (forall n rel nm d,
         FS.stat w root = Some n ->
         nm = "CLAUDE.md" \/ nm = "CLAUDE.local.md" ->
         FS.find n (rel ++ [nm]) <> None ->
         In d rel -> mem d housekeeping = true ->
         In d (parts_of (FS.under root (rel ++ [nm])))
         /\ exists scope,
              In (FS.under root (rel ++ [nm]), scope) (_discover_memory_files w root)).
Proof.
  unfold _discover_memory_files.
  destruct (add_nested_spec "project-nested" (FS.rglob_name w root "CLAUDE.md")
              (project_locations root) (project_locations_NoDup root))
    as (e1 & -> & Hnd1 & Hsc1 & Hin1).
  destruct (add_nested_spec "local-nested" (FS.rglob_name w root "CLAUDE.local.md")
              _ Hnd1)
    as (e2 & -> & Hnd2 & Hsc2 & Hin2).
  assert (Hall : forall n rel nm,
             FS.stat w root = Some n ->
             nm = "CLAUDE.md" \/ nm = "CLAUDE.local.md" ->
             FS.find n (rel ++ [nm]) <> None ->
             In (FS.under root (rel ++ [nm]))
                (map fst ((project_locations root ++ e1) ++ e2))).
  { intros n rel nm Hn [->| ->] Hf.
    - rewrite map_app. apply in_or_app. left.
      apply Hin1. eapply rglob_name_complete; eassumption.
    - apply Hin2. eapply rglob_name_complete; eassumption. }
  split; [exact Hnd2|]. split; [|split; [exact Hall|]].
  - exists (e1 ++ e2). rewrite app_assoc. split; [reflexivity|].
    apply Forall_app. split; eapply Forall_impl; try eassumption;
      intros c (Hc & Hf); unfold nested_instance.
    + exists "CLAUDE.md". split; [left; split; [reflexivity | exact Hc]|].
      split; [exact Hf | apply rglob_name_sound, Hf].
    + exists "CLAUDE.local.md". split; [right; split; [reflexivity | exact Hc]|].
      split; [exact Hf | apply rglob_name_sound, Hf].
  - intros n rel nm d Hn Hnm Hf Hd _. split.
    + unfold FS.under. simpl. apply in_or_app. right.
      apply in_or_app. left. exact Hd.
    + specialize (Hall n rel nm Hn Hnm Hf). apply in_map_iff in Hall.
      destruct Hall as ([q scope] & Hq & Hin). simpl in Hq. subst q.
      exists scope. exact Hin.
Qed.

Lemma discover_memory_files_spec_witness :
  In (mkPath "/" ["work"; "node_modules"; "pkg"; "CLAUDE.md"], "project-nested")
     (_discover_memory_files Samples.w1 (PathLib.of_str "/work"))
  /\ In "node_modules"
        (parts_of (mkPath "/" ["work"; "node_modules"; "pkg"; "CLAUDE.md"]))
  /\ mem "node_modules" housekeeping = true.
Proof.
  destruct (discover_memory_files_spec Samples.w1 (PathLib.of_str "/work"))
    as (_ & _ & _ & H).
  destruct (H _ ["node_modules"; "pkg"] "CLAUDE.md" "node_modules" eq_refl
              (or_introl eq_refl)) as (Hp & scope & Hin);
    [vm_compute; discriminate | left; reflexivity | reflexivity |].
  split; [|split; [exact Hp | reflexivity]].
  assert (E : _discover_memory_files Samples.w1 (PathLib.of_str "/work")
              = project_locations (PathLib.of_str "/work")
                ++ [(mkPath "/" ["work"; "node_modules"; "pkg"; "CLAUDE.md"],
                     "project-nested")]) by (vm_compute; reflexivity).
  rewrite E. apply in_or_app. right. left. reflexivity.
Defined.

(** ** Two runs on the same tree *)

Lemma bind_fmap {A B C : Type} (m : result A) (k1 : A -> result C)
  (k2 : A -> result B) (f : B -> C) :
  (forall a, k1 a = fmap f (k2 a)) -> bind m k1 = fmap f (bind m k2).
Proof.
  intros H. destruct m as [a|e]; simpl; [apply H | reflexivity].
Qed.

Lemma audit_clock (rt : Runtime) (w : World) (t : string) (root : Path) (inc : bool) :
  audit rt (with_clock t w) root inc
  = fmap (set_generated_at t) (audit rt w root inc).
Proof.
  unfold audit.
  change (FS.resolve (with_clock t w)) with (FS.resolve w).
  change (_is_git_repo (with_clock t w)) with (_is_git_repo w).
  change (_git_tracked_files (with_clock t w)) with (_git_tracked_files w).
  change (FS.rglob_all (with_clock t w)) with (FS.rglob_all w).
  change (counted (with_clock t w)) with (counted w).
  change (_discover_memory_files (with_clock t w)) with (_discover_memory_files w).
  change (_analyze_memory_file rt (with_clock t w)) with (_analyze_memory_file rt w).
  change (_discover_settings_files (with_clock t w)) with (_discover_settings_files w).
  change (_analyze_settings_file rt (with_clock t w)) with (_analyze_settings_file rt w).
  change (_discover_mcp_configs (with_clock t w)) with (_discover_mcp_configs w).
  change (_analyze_mcp_config rt (with_clock t w)) with (_analyze_mcp_config rt w).
  change (_discover_skills (with_clock t w)) with (_discover_skills w).
  change (_analyze_skill rt (with_clock t w)) with (_analyze_skill rt w).
  change (_discover_subagents (with_clock t w)) with (_discover_subagents w).
  change (_analyze_subagent rt (with_clock t w)) with (_analyze_subagent rt w).
  change (_get_directory_stats (with_clock t w)) with (_get_directory_stats w).
  change (now_iso (with_clock t w)) with t.
  apply bind_fmap. intros [tracked|];
    repeat (apply bind_fmap; intros ?); reflexivity.
Qed.

Lemma set_generated_at_twice (t t' : string) (r : AuditReport) :
  set_generated_at t (set_generated_at t' r) = set_generated_at t r.
Proof. reflexivity. Qed.

Lemma main_clock (rt : Runtime) (w : World) (dumps : AuditReport -> string)
  (t : string) (root_arg : string) (inc : bool) :
  main rt (with_clock t w) dumps root_arg inc
  = if negb (FS.exists_ w (PathLib.of_str root_arg)) then
      main rt w dumps root_arg inc
    else match audit rt w (PathLib.of_str root_arg) inc with
         | Ok r => Exit 0 (dumps (set_generated_at t r) ++ String NL "")%string ""
         | Raise e => Uncaught e
         end.
Proof.
  unfold main. rewrite audit_clock.
  change (FS.exists_ (with_clock t w)) with (FS.exists_ w).
  destruct (FS.exists_ w (PathLib.of_str root_arg)); simpl; [|reflexivity].
  destruct (audit rt w (PathLib.of_str root_arg) inc); reflexivity.
Qed.

(** ** The root path *)

Lemma not_In_removelast {A : Type} (x : A) (l : list A) :
  ~ In x l -> ~ In x (removelast l).
Proof.
  induction l as [|a [|b l] IH]; simpl; intros H; [exact H | intros [] |].
  intros [E|Hin]; [apply H; left; exact E|].
  apply IH; [|exact Hin]. intros Hx. apply H. right. exact Hx.
Qed.

Lemma normalize_no_dotdot (ps : list string) :
  forall acc, ~ In ".." acc -> ~ In ".." (PathLib.normalize acc ps).
Proof.
  induction ps as [|p ps IH]; simpl; intros acc H; [exact H|].
  destruct (String.eqb p "..") eqn:E.
  - apply IH, not_In_removelast, H.
  - apply IH. intros Hin. apply in_app_or in Hin. destruct Hin as [Hin|[E'|[]]].
    + exact (H Hin).
    + apply String.eqb_neq in E. exact (E E').
Qed.

Lemma lookup_plain (root : node) (ps : list string) :
  forall cur, ~ In ".." ps -> FS.lookup root cur ps = FS.find root (cur ++ ps).
Proof.
  induction ps as [|p ps IH]; simpl; intros cur H.
  - rewrite app_nil_r. reflexivity.
  - destruct (String.eqb p "..") eqn:E.
    + apply String.eqb_eq in E. exfalso. apply H. left. exact E.
    + rewrite IH by (intros Hin; apply H; right; exact Hin).
      rewrite <- app_assoc. reflexivity.
Qed.

(** What the kernel finds at a path is what the tree holds at the path
    with its [..] removed. *)
Lemma lookup_normalize (root : node) (ps : list string) :
  forall cur n,
    FS.lookup root cur ps = Some n ->
    FS.find root (PathLib.normalize cur ps) = Some n.
Proof.
  induction ps as [|p ps IH]; simpl; intros cur n H; [exact H|].
  destruct (String.eqb p "..").
  - destruct (FS.find root cur) as [[d|es]|]; try discriminate H. apply IH, H.
  - apply IH, H.
Qed.

Lemma stat_resolved (w : World) (p : Path) :
  FS.stat w (FS.resolve w p)
  = FS.find (fs_root w) (PathLib.normalize [] (FS.from_root w p)).
Proof.
  unfold FS.stat, FS.resolve, FS.from_root at 1. simpl.
  apply lookup_plain, normalize_no_dotdot. intros [].
Qed.

Lemma stat_resolve (w : World) (p : Path) (n : node) :
  FS.stat w p = Some n -> FS.stat w (FS.resolve w p) = Some n.
Proof.
  intros H. rewrite stat_resolved. apply lookup_normalize, H.
Qed.

Lemma stat_below_resolved (w : World) (p : Path) (nm : string) :
  nm <> ".." ->
  FS.stat w (mkPath "/" (parts_of (FS.resolve w p) ++ [nm]))
  = match FS.stat w (FS.resolve w p) with
    | Some n => FS.find n [nm]
    | None => None
    end.
Proof.
  intros Hnm. rewrite stat_resolved. unfold FS.stat, FS.from_root. simpl.
  rewrite lookup_plain.
  - simpl. apply find_app.
  - intros Hin. apply in_app_or in Hin. destruct Hin as [Hin|[E|[]]].
    + revert Hin. apply normalize_no_dotdot. intros [].
    + exact (Hnm E).
Qed.

Lemma not_git_repo_below_file (w : World) (p : Path) (data : list byte) :
  FS.stat w p = Some (File data) -> _is_git_repo w (FS.resolve w p) = false.
Proof.
  intros H. unfold _is_git_repo, FS.exists_.
  change (PathLib.child (FS.resolve w p) ".git")
    with (mkPath "/" (parts_of (FS.resolve w p) ++ [".git"])).
  rewrite stat_below_resolved by discriminate.
  rewrite (stat_resolve w p _ H). reflexivity.
Qed.

Lemma bind_raises {A B : Type} (m : result A) (k : A -> result B) :
  (forall a, exists e, k a = Raise e) -> exists e, bind m k = Raise e.
Proof.
  intros H. destruct m as [a|e]; simpl; [apply H | exists e; reflexivity].
Qed.

(** On a root that is a regular file the audit cannot return: whatever
    happens before, listing the root for the directory statistics raises. *)
Lemma audit_root_regular_file (rt : Runtime) (w : World) (root : Path)
  (inc : bool) (data : list byte) :
  FS.stat w root = Some (File data) -> exists e, audit rt w root inc = Raise e.
Proof.
  intros H. unfold audit.
  rewrite (not_git_repo_below_file w root data H). cbn [bind].
  do 4 (apply bind_raises; intros ?).
  unfold _get_directory_stats, FS.iterdir.
  rewrite (stat_resolve w root _ H). cbn [bind].
  exists NotADirectoryError. reflexivity.
Qed.

(** C1: the code at a root path that names a regular file.  [main] tests
    only whether the path exists, so the diagnostic exit is not taken; the
    audit is run on the file and ends in an exception that nothing
    catches, after the analysis has begun. *)
Theorem main_root_regular_file (rt : Runtime) (w : World)
  (dumps : AuditReport -> string) (root_arg : string) (inc : bool) :
  FS.is_file w (PathLib.of_str root_arg) = true ->
  FS.is_dir w (PathLib.of_str root_arg) = false
  /\ exists e, main rt w dumps root_arg inc = Uncaught e
               /\ audit rt w (PathLib.of_str root_arg) inc = Raise e.
Proof.
  unfold FS.is_file, FS.is_dir, main, FS.exists_.
  destruct (FS.stat w (PathLib.of_str root_arg)) as [[data|es]|] eqn:H;
    try discriminate. intros _. split; [reflexivity|].
  destruct (audit_root_regular_file rt w _ inc data H) as (e & He).
  exists e. rewrite He. split; reflexivity.
Qed.

Lemma main_root_regular_file_witness :
  FS.is_file Samples.w1 (PathLib.of_str "notes.txt") = true
  /\ main Samples.rt0 Samples.w1 Samples.dumps0 "notes.txt" false
     = Uncaught NotADirectoryError.
Proof.
  split; [reflexivity|].
  destruct (main_root_regular_file Samples.rt0 Samples.w1 Samples.dumps0
              "notes.txt" false eq_refl) as (_ & e & -> & He).
  assert (E : audit Samples.rt0 Samples.w1 (PathLib.of_str "notes.txt") false
              = Raise NotADirectoryError) by (vm_compute; reflexivity).
  rewrite E in He. injection He as <-. reflexivity.
Defined.

(** A root that is a directory does not make the process succeed either:
    a settings file that holds a JSON list, or a repository on a machine
    without the version-control tool, ends the audit in an exception. *)
Lemma main_directory_root_can_fail :
  FS.is_dir Samples.w_list_settings (PathLib.of_str ".") = true
  /\ main Samples.rt0 Samples.w_list_settings Samples.dumps0 "." false
     = Uncaught AttributeError
  /\ FS.is_dir Samples.w_git_missing (PathLib.of_str ".") = true
  /\ main Samples.rt0 Samples.w_git_missing Samples.dumps0 "." false
     = Uncaught FileNotFoundError.
Proof.
  vm_compute. repeat split.
Qed.

(** When the root path does not exist the diagnostic goes to the error
    stream and the status is 1, whatever the tree holds otherwise. *)
Lemma main_root_missing (rt : Runtime) (w : World) (dumps : AuditReport -> string)
  (root_arg : string) (inc : bool) :
  FS.exists_ w (PathLib.of_str root_arg) = false ->
  main rt w dumps root_arg inc
  = Exit 1 "" ("Error: " ++ PathLib.to_str (PathLib.of_str root_arg)
               ++ " does not exist" ++ String NL "")%string.
Proof.
  intros E. unfold main. rewrite E. reflexivity.
Qed.

(** When the audit returns, the status is 0, whatever the report holds. *)
Lemma main_audit_returns (rt : Runtime) (w : World) (dumps : AuditReport -> string)
  (root_arg : string) (inc : bool) (r : AuditReport) :
  FS.exists_ w (PathLib.of_str root_arg) = true ->
  audit rt w (PathLib.of_str root_arg) inc = Ok r ->
  main rt w dumps root_arg inc = Exit 0 (dumps r ++ String NL "")%string "".
Proof.
  intros E H. unfold main. rewrite E, H. reflexivity.
Qed.

(** ** Metrics of a file *)

(** C4: the code at an empty file.  The skill analyzer and the subagent
    analyzer add one to the number of newlines whether or not the text is
    empty, and so report one line for an empty file, where the line count
    of the empty text is zero.  (The memory analyzer reports the three
    metrics as stated: lemma [memory_metrics] below.) *)
Theorem line_count_of_empty_file (rt : Runtime) (w : World) (skill_dir agent : Path)
  (scope : string) (root : Path) :
  (FS.exists_ w (PathLib.child skill_dir "SKILL.md") = true ->
   _safe_read_text rt w (PathLib.child skill_dir "SKILL.md") = "" ->
   SkillReport.skill_md_lines (_analyze_skill rt w skill_dir scope root) = 1)
  /\ (FS.exists_ w agent = true ->
      _safe_read_text rt w agent = "" ->
      SubagentReport.agent_md_lines (_analyze_subagent rt w agent scope root) = 1)
  /\ line_count "" = 0.
Proof.
  unfold _analyze_skill, _analyze_subagent. repeat split.
  - intros -> ->. reflexivity.
  - intros -> ->. reflexivity.
Qed.

Lemma line_count_of_empty_file_witness :
  _safe_read_text Samples.rt0 Samples.w1
    (PathLib.of_str "/work/.claude/skills/s1/SKILL.md") = ""
  /\ SkillReport.skill_md_lines
       (_analyze_skill Samples.rt0 Samples.w1
          (PathLib.of_str "/work/.claude/skills/s1") "project"
          (PathLib.of_str "/work")) = 1
  /\ SubagentReport.agent_md_lines
       (_analyze_subagent Samples.rt0 Samples.w1
          (PathLib.of_str "/work/.claude/agents/a.md") "project"
          (PathLib.of_str "/work")) = 1.
Proof.
  split; [reflexivity|].
  pose proof (line_count_of_empty_file Samples.rt0 Samples.w1
                (PathLib.of_str "/work/.claude/skills/s1")
                (PathLib.of_str "/work/.claude/agents/a.md") "project"
                (PathLib.of_str "/work")) as (Hs & Ha & _).
  split; [apply Hs | apply Ha]; reflexivity.
Defined.

Lemma split_nonempty (c : ascii) (r : string) :
  isspace c = false -> split (String c r) <> [].
Proof.
  intros H. cbn [split]. rewrite H.
  destruct r as [|d r]; [discriminate|].
  destruct (isspace d); [discriminate|].
  destruct (split (String d r)); discriminate.
Qed.

Lemma token_starts_split (s : string) :
  token_starts true s = List.length (split s)
  /\ token_starts false s + starts_token s = List.length (split s).
Proof.
  induction s as [|c r [IHt IHf]]; [split; reflexivity|].
  cbn [token_starts split starts_token].
  destruct (isspace c) eqn:Hc; cbn [andb negb].
  - rewrite IHt. split; lia.
  - destruct r as [|d r]; [split; reflexivity|].
    cbn [starts_token] in IHf.
    destruct (isspace d) eqn:Hd.
    + cbn [List.length]. lia.
    + pose proof (split_nonempty d r Hd) as Hne.
      destruct (split (String d r)) as [|x xs]; [congruence|].
      cbn [List.length] in *. lia.
Qed.

Lemma word_count_refines (text : string) :
  List.length (split text) = token_count text.
Proof.
  symmetry. apply token_starts_split.
Qed.

Lemma span_space_head (t : string) :
  Nat.leb 1 (Regex.span_space t)
  = match t with String c _ => isspace c | "" => false end.
Proof.
  destruct t as [|c t]; [reflexivity|]. simpl. destruct (isspace c); reflexivity.
Qed.

Lemma match_heading_is_heading (s : string) :
  is_heading s = match Regex.match_heading s with Some _ => true | None => false end.
Proof.
  unfold is_heading, Regex.match_heading.
  destruct (Regex.span_hash s) as [n t]. rewrite span_space_head.
  destruct (Nat.leb 1 n && Nat.leb n 6 && _); reflexivity.
Qed.

Lemma is_heading_space (c : ascii) (r : string) :
  isspace c = true -> is_heading (String c r) = false.
Proof.
  intros H. unfold is_heading. cbn [Regex.span_hash].
  destruct (Ascii.eqb c "#") eqn:E; [|reflexivity].
  apply Ascii.eqb_eq in E. subst c. discriminate H.
Qed.

Lemma quiet_spaces (k : nat) :
  forall t bol, k <= Regex.span_space t -> quiet k bol t = true.
Proof.
  induction k as [|k IH]; intros t bol H; [reflexivity|].
  destruct t as [|c t]; [reflexivity|]. cbn [Regex.span_space] in H.
  destruct (isspace c) eqn:Hc; [|lia].
  cbn [quiet]. rewrite (is_heading_space c t Hc), andb_false_r.
  apply IH. lia.
Qed.

(** After the first [#] of a match, the rest of the match is quiet. *)
Lemma quiet_after_hash (s : string) :
  forall n t k,
    Regex.span_hash s = (n, t) -> k <= Regex.span_space t ->
    quiet (n + k) false s = true.
Proof.
  induction s as [|c r IH]; intros n t k Hs Hk.
  - destruct (n + k); reflexivity.
  - cbn [Regex.span_hash] in Hs. destruct (Ascii.eqb c "#") eqn:Ec.
    + destruct (Regex.span_hash r) as [n' t'] eqn:Hr. injection Hs as <- <-.
      apply Ascii.eqb_eq in Ec. subst c.
      change (S n' + k) with (S (n' + k)). cbn [quiet andb negb].
      change (Ascii.eqb "#" NL) with false. eapply IH; [reflexivity | exact Hk].
    + injection Hs as <- <-. apply quiet_spaces. exact Hk.
Qed.

Lemma quiet_after_match (c : ascii) (r : string) (len : nat) :
  Regex.match_heading (String c r) = Some len ->
  quiet (pred len) (Ascii.eqb c NL) r = true.
Proof.
  unfold Regex.match_heading. cbn [Regex.span_hash].
  destruct (Ascii.eqb c "#") eqn:Ec.
  - destruct (Regex.span_hash r) as [n t] eqn:Hr.
    destruct (Nat.leb 1 (S n) && Nat.leb (S n) 6 && Nat.leb 1 (Regex.span_space t));
      [|discriminate].
    intros [= <-]. apply Ascii.eqb_eq in Ec. subst c.
    change (Ascii.eqb "#" NL) with false. cbn [pred plus].
    eapply quiet_after_hash; [exact Hr | apply Nat.le_refl].
  - cbn [Nat.leb andb]. discriminate.
Qed.

(** The count of non-overlapping matches is the count of lines that start
    with a heading prefix: no line starts with one inside a match. *)
Lemma heading_scan_refines (s : string) :
  forall skip bol,
    quiet skip bol s = true ->
    Regex.heading_scan skip bol s = heading_lines_from bol s.
Proof.
  induction s as [|c r IH]; intros skip bol Hq; [reflexivity|].
  cbn [Regex.heading_scan heading_lines_from].
  destruct skip as [|k].
  - rewrite match_heading_is_heading.
    destruct bol; cbn [andb].
    + destruct (Regex.match_heading (String c r)) as [len|] eqn:Hm.
      * rewrite (IH _ _ (quiet_after_match c r len Hm)). reflexivity.
      * rewrite (IH 0 _ eq_refl). reflexivity.
    + rewrite (IH 0 _ eq_refl). reflexivity.
  - cbn [quiet] in Hq. apply andb_true_iff in Hq. destruct Hq as [Hh Hq].
    apply negb_true_iff in Hh. rewrite Hh. apply IH, Hq.
Qed.

Lemma count_headings_refines (text : string) :
  _count_headings text = heading_lines text.
Proof.
  apply heading_scan_refines. reflexivity.
Qed.

(** X12.  The three metrics of a memory document that exists are, on the
    text that the safe reader returns: the number of newlines plus one if
    the text is not empty; the number of whitespace-delimited tokens; and
    the number of lines that start with one to six [#] and a whitespace
    character, which is what the count of non-overlapping matches of the
    heading pattern comes to. *)
Lemma memory_metrics (rt : Runtime) (w : World) (path : Path) (scope : string)
  (root : Path) (tracked : option (list string)) (r : MemoryFileReport.t) :
  _analyze_memory_file rt w path scope root tracked = Ok r ->
  MemoryFileReport.exists_ r = true ->
  let text := _safe_read_text rt w path in
  MemoryFileReport.lines r = line_count text
  /\ MemoryFileReport.word_count r = token_count text
  /\ MemoryFileReport.heading_count r = heading_lines text.
Proof.
  unfold _analyze_memory_file.
  destruct (FS.exists_ w path && FS.is_file w path); simpl; intros H.
  - bind_inv H. injection H as <-. intros _. simpl.
    rewrite word_count_refines, count_headings_refines. repeat split.
  - injection H as <-. discriminate.
Qed.

(** * Further properties of the script *)

(** ** The parts of the audit report *)

Lemma audit_parts (rt : Runtime) (w : World) (root : Path) (inc : bool)
  (r : AuditReport) :
  audit rt w root inc = Ok r ->
  exists tracked mr sr cr sk ds,
    let root' := FS.resolve w root in
    tracked_of w root' = Ok tracked
    /\ mapM (fun ps => _analyze_memory_file rt w (fst ps) (snd ps) root' tracked)
            (_discover_memory_files w root') = Ok mr
    /\ mapM (fun ps => _analyze_settings_file rt w (fst ps) (snd ps))
            (_discover_settings_files w root') = Ok sr
    /\ mapM (fun ps => _analyze_mcp_config rt w (fst ps) (snd ps))
            (_discover_mcp_configs w root') = Ok cr
    /\ _discover_skills w root' = Ok sk
    /\ _get_directory_stats w root' tracked = Ok ds
    /\ file_count (repo_scale r) = file_count_of w root' tracked
    /\ top_level_dirs_by_file_count (repo_scale r) = ds
    /\ discovered_files (claude_memory r) = filter MemoryFileReport.exists_ mr
    /\ claude_settings r
       = filter SettingsFileReport.exists_ (scoped inc SettingsFileReport.scope sr)
    /\ mcp_discovered_files (mcp_configuration r)
       = filter MCPConfigReport.exists_ (scoped inc MCPConfigReport.scope cr)
    /\ skills_discovered (skills r)
       = scoped inc SkillReport.scope
           (map (fun ps => _analyze_skill rt w (fst ps) (snd ps) root') sk)
    /\ subagents_discovered (subagents r)
       = scoped inc SubagentReport.scope
           (map (fun ps => _analyze_subagent rt w (fst ps) (snd ps) root')
                (_discover_subagents w root'))
    /\ issues r
       = Builtins.sorted entry_le
           (all_issues mr (scoped inc SettingsFileReport.scope sr)
              (scoped inc MCPConfigReport.scope cr)
              (scoped inc SkillReport.scope
                 (map (fun ps => _analyze_skill rt w (fst ps) (snd ps) root') sk)))
    /\ recommendations r
       = Builtins.sorted entry_le
           (all_recommendations mr (is_large_repo (repo_scale r))
              (file_count (repo_scale r))).
Proof.
  unfold audit. intros H.
  bind_inv H. exists v.
  destruct v as [t|]; bind_inv H; bind_inv H; bind_inv H; bind_inv H; bind_inv H;
    injection H as <-; cbv zeta;
    eexists _, _, _, _, _;
    repeat match goal with |- _ /\ _ => split end; try eassumption; reflexivity.
Qed.

(** ** What the report lists *)

Lemma all_issues_no_memory (mr : list MemoryFileReport.t)
  (sr : list SettingsFileReport.t) (cr : list MCPConfigReport.t)
  (kr : list SkillReport.t) :
  In no_memory_entry (all_issues mr sr cr kr)
  <-> filter MemoryFileReport.exists_ mr = [].
Proof.
  split.
  - intros H. destruct (filter MemoryFileReport.exists_ mr) eqn:E; [reflexivity|].
    exfalso. unfold all_issues in H. rewrite E in H. simpl in H.
    rewrite !in_app_iff, !in_flat_map in H.
    destruct H as [H|[H|[H|H]]]; destruct H as (x & _ & H);
      apply in_map_iff in H; destruct H as (i & H & _); discriminate H.
  - intros E. unfold all_issues. rewrite E. left. reflexivity.
Qed.

(** X1.  In every report that [audit] returns, the entry that tells that
    no memory document was found is among the issues exactly when the list
    of discovered memory files is empty. *)
Theorem no_memory_entry_iff (rt : Runtime) (w : World) (root : Path) (inc : bool)
  (r : AuditReport) :
  audit rt w root inc = Ok r ->
  (In no_memory_entry (issues r) <-> discovered_files (claude_memory r) = []).
Proof.
  intros H. apply audit_parts in H.
  destruct H as (tracked & mr & sr & cr & sk & ds & H). cbv zeta in H.
  destruct H as (_ & _ & _ & _ & _ & _ & _ & _ & Hd & _ & _ & _ & _ & Hi & _).
  rewrite Hi, Hd, sorted_In. apply all_issues_no_memory.
Qed.

Lemma no_memory_entry_iff_witness :
  exists r, audit Samples.rt0 MoreSamples.w_empty (PathLib.of_str ".") false = Ok r
            /\ discovered_files (claude_memory r) = []
            /\ In no_memory_entry (issues r).
Proof.
  assert (E : exists r,
             audit Samples.rt0 MoreSamples.w_empty (PathLib.of_str ".") false = Ok r
             /\ discovered_files (claude_memory r) = [])
    by (vm_compute; eexists; split; reflexivity).
  destruct E as (r & E & D). exists r. split; [exact E|]. split; [exact D|].
  exact (proj2 (no_memory_entry_iff _ _ _ _ _ E) D).
Defined.

Lemma scoped_not_user {R : Type} (scope : R -> string) (l : list R) :
  Forall (fun x => scope x <> "user") (scoped false scope l).
Proof.
  unfold scoped. simpl. apply Forall_forall. intros x Hx.
  apply filter_In in Hx. destruct Hx as [_ Hx]. unfold not_user in Hx.
  apply negb_true_iff, String.eqb_neq in Hx. exact Hx.
Qed.

Lemma Forall_filter {A : Type} (P : A -> Prop) (f : A -> bool) (l : list A) :
  Forall P l -> Forall P (filter f l).
Proof.
  rewrite !Forall_forall. intros H x Hx. apply filter_In in Hx. apply H, Hx.
Qed.

(** X2.  When user scope is not included, the report that [audit] returns
    lists no settings file, no MCP configuration, no skill and no subagent
    of scope user. *)
Theorem no_user_scope_reports (rt : Runtime) (w : World) (root : Path)
  (r : AuditReport) :
  audit rt w root false = Ok r ->
  Forall (fun x => SettingsFileReport.scope x <> "user") (claude_settings r)
  /\ Forall (fun x => MCPConfigReport.scope x <> "user")
            (mcp_discovered_files (mcp_configuration r))
  /\ Forall (fun x => SkillReport.scope x <> "user") (skills_discovered (skills r))
  /\ Forall (fun x => SubagentReport.scope x <> "user")
            (subagents_discovered (subagents r)).
Proof.
  intros H. apply audit_parts in H.
  destruct H as (tracked & mr & sr & cr & sk & ds & H). cbv zeta in H.
  destruct H as (_ & _ & _ & _ & _ & _ & _ & _ & _ & Hs & Hc & Hk & Ha & _).
  rewrite Hs, Hc, Hk, Ha. split; [|split; [|split]].
  - apply Forall_filter, scoped_not_user.
  - apply Forall_filter, scoped_not_user.
  - apply scoped_not_user.
  - apply scoped_not_user.
Qed.

Lemma no_user_scope_reports_witness :
  exists r, audit Samples.rt0 Samples.w1 (PathLib.of_str ".") false = Ok r
            /\ Forall (fun x => SkillReport.scope x <> "user")
                      (skills_discovered (skills r))
            /\ List.length (skills_discovered (skills r)) = 1.
Proof.
  assert (E : exists r,
             audit Samples.rt0 Samples.w1 (PathLib.of_str ".") false = Ok r
             /\ List.length (skills_discovered (skills r)) = 1)
    by (vm_compute; eexists; split; reflexivity).
  destruct E as (r & E & K). exists r. split; [exact E|]. split; [|exact K].
  exact (proj1 (proj2 (proj2 (no_user_scope_reports _ _ _ _ E)))).
Defined.

(** X4.  No issue and no recommendation of an analyzer is lost: in every
    report that [audit] returns, each issue and each recommendation of a
    listed memory file, and each issue of a listed settings file, MCP
    configuration or skill, is an entry of the flat list, with the path of
    its report. *)
Theorem entries_complete (rt : Runtime) (w : World) (root : Path) (inc : bool)
  (r : AuditReport) :
  audit rt w root inc = Ok r ->
  (forall m i, In m (discovered_files (claude_memory r)) ->
               In i (MemoryFileReport.issues m) -> In (memory_issue m i) (issues r))
  /\ (forall m i, In m (discovered_files (claude_memory r)) ->
                  In i (MemoryFileReport.recommendations m) ->
                  In (memory_recommendation m i) (recommendations r))
  /\ (forall s i, In s (claude_settings r) ->
                  In i (SettingsFileReport.issues s) ->
                  In (settings_issue s i) (issues r))
  /\ (forall c i, In c (mcp_discovered_files (mcp_configuration r)) ->
                  In i (MCPConfigReport.issues c) -> In (mcp_issue c i) (issues r))
  /\ (forall k i, In k (skills_discovered (skills r)) ->
                  In i (SkillReport.issues k) -> In (skill_issue k i) (issues r)).
Proof.
  intros H. apply audit_parts in H.
  destruct H as (tracked & mr & sr & cr & sk & ds & H). cbv zeta in H.
  destruct H as (_ & _ & _ & _ & _ & _ & _ & _ & Hd & Hs & Hc & Hk & _ & Hi & Hr).
  rewrite Hd, Hs, Hc, Hk, Hi, Hr. unfold all_issues, all_recommendations.
  repeat split; intros x i Hx Hin; apply sorted_In;
    try apply filter_In in Hx; rewrite !in_app_iff, !in_flat_map.
  - right. left. exists x. split; [apply Hx | apply in_map, Hin].
  - left. exists x. split; [apply Hx | apply in_map, Hin].
  - right. right. left. exists x. split; [apply Hx | apply in_map, Hin].
  - right. right. right. left. exists x. split; [apply Hx | apply in_map, Hin].
  - right. right. right. right. exists x. split; [apply Hx | apply in_map, Hin].
Qed.

Lemma entries_complete_witness :
  exists r, audit Samples.rt0 Samples.w1 (PathLib.of_str ".") false = Ok r
            /\ In (mkEntry "P2" "skills" (Some ".claude/skills/s1")
                           "Missing description in SKILL.md frontmatter")
                  (issues r).
Proof.
  assert (E : exists r,
             audit Samples.rt0 Samples.w1 (PathLib.of_str ".") false = Ok r
             /\ exists k, In k (skills_discovered (skills r))
                          /\ SkillReport.path k = ".claude/skills/s1"
                          /\ In "Missing description in SKILL.md frontmatter"
                                (SkillReport.issues k)).
  { vm_compute. eexists. split; [reflexivity|]. eexists. split; [left; reflexivity|].
    split; [reflexivity | left; reflexivity]. }
  destruct E as (r & E & k & Hk & Hp & Hi). exists r. split; [exact E|].
  pose proof (proj2 (proj2 (proj2 (proj2 (entries_complete _ _ _ _ _ E)))) k _ Hk Hi)
    as H.
  unfold skill_issue in H. rewrite Hp in H. exact H.
Defined.

(** ** The file count of the walk *)

Lemma rglob_all_under (w : World) (root p : Path) :
  In p (FS.rglob_all w root) -> exists rel, p = FS.under root rel.
Proof.
  unfold FS.rglob_all. destruct (FS.stat w root) as [n|]; [|intros []].
  intros H. apply in_flat_map in H. destruct H as (d & _ & H).
  apply in_map_iff in H. destruct H as (e & <- & _). eexists. reflexivity.
Qed.

Lemma counted_below_housekeeping (w : World) (root : Path) (rel : list string)
  (part : string) :
  In part (parts_of root) -> mem part housekeeping = true ->
  counted w (FS.under root rel) = false.
Proof.
  intros Hin Hm. unfold counted. apply andb_false_iff. right.
  apply negb_false_iff, existsb_exists. exists part. split; [|exact Hm].
  unfold PathLib.parts, FS.under. simpl.
  destruct (PathLib.is_absolute _); [right|]; apply in_or_app; left; exact Hin.
Qed.

Lemma filter_none {A : Type} (f : A -> bool) (l : list A) :
  (forall x, In x l -> f x = false) -> filter f l = [].
Proof.
  induction l as [|x l IH]; simpl; intros H; [reflexivity|].
  rewrite (H x (or_introl eq_refl)). apply IH. intros y Hy. apply H. right. exact Hy.
Qed.

(** X5.  When no version-control listing is available and a component of
    the resolved root path itself bears a housekeeping name (a project
    kept below a directory called build, say), the walk counts no file at
    all: the reported file count is 0 and the repository is not large,
    whatever the tree holds. *)
Theorem file_count_zero_below_housekeeping (rt : Runtime) (w : World) (root : Path)
  (inc : bool) (r : AuditReport) :
  audit rt w root inc = Ok r ->
  tracked_of w (FS.resolve w root) = Ok None ->
  (exists part, In part (parts_of (FS.resolve w root))
                /\ mem part housekeeping = true) ->
  file_count (repo_scale r) = 0 /\ is_large_repo (repo_scale r) = false.
Proof.
  intros H Ht (part & Hin & Hm). apply audit_inv in H.
  destruct H as (tracked & mr & sr & cr & kr & Ht' & _ & Hn & Hl & _).
  cbv zeta in Ht'. rewrite Ht in Ht'. injection Ht' as <-.
  assert (Z : file_count (repo_scale r) = 0).
  { rewrite Hn. unfold file_count_of. rewrite filter_none; [reflexivity|].
    intros p Hp. apply rglob_all_under in Hp. destruct Hp as (rel & ->).
    eapply counted_below_housekeeping; eassumption. }
  split; [exact Z | rewrite Hl, Z; reflexivity].
Qed.

Lemma file_count_zero_below_housekeeping_witness :
  exists r,
    audit Samples.rt0 MoreSamples.w_build (PathLib.of_str "/build/proj") false = Ok r
    /\ FS.is_file MoreSamples.w_build (PathLib.of_str "/build/proj/a.txt") = true
    /\ file_count (repo_scale r) = 0.
Proof.
  assert (E : exists r,
             audit Samples.rt0 MoreSamples.w_build (PathLib.of_str "/build/proj")
                   false = Ok r)
    by (vm_compute; eexists; reflexivity).
  destruct E as (r & E). exists r. split; [exact E|]. split; [reflexivity|].
  refine (proj1 (file_count_zero_below_housekeeping _ _ _ _ _ E eq_refl _)).
  exists "build". split; [left; reflexivity | reflexivity].
Defined.

(** ** Directory statistics *)

Lemma assoc_In_NoDup {A : Type} (l : list (string * A)) (k : string) (v : A) :
  NoDup (map fst l) -> In (k, v) l -> Py.assoc k l = Some v.
Proof.
  induction l as [|[k' v'] l IH]; simpl; intros Hnd Hin; [destruct Hin|].
  inversion Hnd as [|? ? Hk Hnd']; subst.
  destruct Hin as [E|Hin].
  - injection E as -> ->. rewrite String.eqb_refl. reflexivity.
  - destruct (String.eqb k k') eqn:E.
    + apply String.eqb_eq in E. subst k'. exfalso. apply Hk.
      apply (in_map fst) in Hin. exact Hin.
    + apply IH; assumption.
Qed.

Lemma dict_incr_keys (k : string) (d : list (string * nat)) (x : string) :
  In x (map fst (dict_incr k d)) <-> x = k \/ In x (map fst d).
Proof.
  induction d as [|[k' n] d IH]; simpl.
  - split; [intros [<-|[]]; auto | intros [->|[]]; auto].
  - destruct (String.eqb k k') eqn:E; simpl.
    + apply String.eqb_eq in E. subst k'. split; [tauto|]. intros [->|H]; auto.
    + rewrite IH. tauto.
Qed.

Lemma dict_incr_NoDup (k : string) (d : list (string * nat)) :
  NoDup (map fst d) -> NoDup (map fst (dict_incr k d)).
Proof.
  induction d as [|[k' n] d IH]; simpl; intros H.
  - repeat constructor. intros [].
  - inversion H as [|? ? Hk Hnd]; subst.
    destruct (String.eqb k k') eqn:E; simpl.
    + constructor; assumption.
    + constructor; [|apply IH, Hnd].
      rewrite dict_incr_keys. intros [->|Hin]; [|exact (Hk Hin)].
      rewrite String.eqb_refl in E. discriminate E.
Qed.

(** The count kept for a key, zero for a key that is not there. *)
Lemma dict_incr_get (k : string) (d : list (string * nat)) (x : string) :
  dict_get x (dict_incr k d)
  = dict_get x d + (if String.eqb x k then 1 else 0).
Proof.
  unfold dict_get. induction d as [|[k' n] d IH]; simpl.
  - destruct (String.eqb x k); reflexivity.
  - destruct (String.eqb k k') eqn:E; simpl.
    + apply String.eqb_eq in E. subst k'.
      destruct (String.eqb x k); lia.
    + destruct (String.eqb x k') eqn:E'.
      * apply String.eqb_eq in E'. subst k'.
        rewrite String.eqb_sym, E. lia.
      * exact IH.
Qed.

Lemma dict_incr_positive (k : string) (d : list (string * nat)) :
  Forall (fun e => 1 <= snd e) d -> Forall (fun e => 1 <= snd e) (dict_incr k d).
Proof.
  induction d as [|[k' n] d IH]; simpl; intros H.
  - repeat constructor.
  - inversion H; subst. destruct (String.eqb k k'); constructor; simpl in *; auto; lia.
Qed.

(** The dictionary that the loop over the tracked files builds. *)
Lemma top_dirs_spec (fs : list string) :
  forall d,
    NoDup (map fst d) -> Forall (fun e => 1 <= snd e) d ->
    let d' := fold_left (fun d f => dict_incr (top_of f) d) fs d in
    NoDup (map fst d')
    /\ Forall (fun e => 1 <= snd e) d'
    /\ forall x, dict_get x d' = dict_get x d + count_occ string_dec (map top_of fs) x.
Proof.
  induction fs as [|f fs IH]; simpl; intros d Hnd Hpos.
  - repeat split; try assumption. intros x. lia.
  - destruct (IH (dict_incr (top_of f) d) (dict_incr_NoDup _ _ Hnd)
                 (dict_incr_positive _ _ Hpos)) as (H1 & H2 & H3).
    repeat split; try assumption. intros x. rewrite H3, dict_incr_get.
    destruct (string_dec (top_of f) x) as [->|N].
    + rewrite String.eqb_refl. lia.
    + replace (String.eqb x (top_of f)) with false; [lia|].
      symmetry. apply String.eqb_neq. congruence.
Qed.

Lemma firstn_In_list {A : Type} (n : nat) (l : list A) (x : A) :
  In x (firstn n l) -> In x l.
Proof.
  revert n. induction l as [|y l IH]; intros [|n]; simpl; try tauto.
  intros [E|H]; [left; exact E | right; eapply IH, H].
Qed.

Lemma firstn_StronglySorted {A : Type} (R : A -> A -> Prop) (n : nat) (l : list A) :
  StronglySorted R l -> StronglySorted R (firstn n l).
Proof.
  intros H. revert n. induction H as [|x l Hl IH Hx]; intros [|n]; simpl;
    try constructor; [apply IH|].
  rewrite Forall_forall in *. intros y Hy. eapply Hx, firstn_In_list, Hy.
Qed.

Lemma firstn_NoDup {A : Type} (n : nat) (l : list A) :
  NoDup l -> NoDup (firstn n l).
Proof.
  intros H. revert n. induction H as [|x l Hx Hl IH]; intros [|n]; simpl;
    try constructor; [|apply IH].
  intros Hin. apply Hx. eapply firstn_In_list, Hin.
Qed.

Lemma count_le_total (a b : string * nat) :
  Nat.leb (snd b) (snd a) = true \/ Nat.leb (snd a) (snd b) = true.
Proof.
  destruct (Nat.le_ge_cases (snd a) (snd b)) as [H|H];
    apply Nat.leb_le in H; auto.
Qed.

Lemma count_le_trans (a b c : string * nat) :
  Nat.leb (snd b) (snd a) = true -> Nat.leb (snd c) (snd b) = true ->
  Nat.leb (snd c) (snd a) = true.
Proof.
  rewrite !Nat.leb_le. lia.
Qed.

(** X6.  With a version-control listing, the directory statistics never
    fail and hold at most 20 rows, in descending order of the count, no
    directory twice; the count of a row is the number of tracked paths
    whose first component is that directory (the number of paths without
    a separator, for the row of the dot), and is at least 1. *)
Theorem directory_stats_tracked (w : World) (root : Path) (fs : list string) :
  exists rows,
    _get_directory_stats w root (Some fs) = Ok rows
    /\ List.length rows <= 20
    /\ StronglySorted (fun a b => snd b <= snd a) rows
    /\ NoDup (map fst rows)
    /\ forall d n, In (d, n) rows ->
                   n = count_occ string_dec (map top_of fs) d /\ 1 <= n.
Proof.
  unfold _get_directory_stats. cbn [bind]. eexists. split; [reflexivity|].
  set (dict := fold_left (fun d f => dict_incr (top_of f) d) fs []).
  set (le := fun a b : string * nat => Nat.leb (snd b) (snd a)).
  destruct (top_dirs_spec fs [] (NoDup_nil _) (Forall_nil _)) as (Hnd & Hpos & Hget).
  fold dict in Hnd, Hpos, Hget.
  assert (Hperm : Permutation dict (Builtins.sorted le dict)) by apply sorted_perm.
  assert (Hnd' : NoDup (map fst (Builtins.sorted le dict))).
  { eapply Permutation_NoDup; [apply Permutation_map, Hperm | exact Hnd]. }
  split; [apply firstn_le_length|]. split; [|split].
  - apply firstn_StronglySorted.
    assert (S : StronglySorted (fun x y => le x y = true) (Builtins.sorted le dict)).
    { apply sorted_sorted; unfold le; intros.
      - apply count_le_total.
      - eapply count_le_trans; eassumption. }
    clear -S. induction S as [|x l Sl IH Hx]; constructor; [exact IH|].
    eapply Forall_impl; [|exact Hx]. intros y Hy. apply Nat.leb_le, Hy.
  - rewrite <- firstn_map. apply firstn_NoDup, Hnd'.
  - intros d n Hin. apply firstn_In_list in Hin.
    apply (Permutation_in _ (Permutation_sym Hperm)) in Hin.
    split.
    + pose proof (Hget d) as Hd. change (dict_get d []) with 0 in Hd.
      rewrite Nat.add_0_l in Hd. rewrite <- Hd. unfold dict_get.
      rewrite (assoc_In_NoDup _ _ _ Hnd Hin). reflexivity.
    + rewrite Forall_forall in Hpos. apply (Hpos _ Hin).
Qed.

Lemma dict_set_keys (k : string) (v : nat) (d : list (string * nat)) (x : string) :
  In x (map fst (dict_set k v d)) -> x = k \/ In x (map fst d).
Proof.
  induction d as [|[k' n] d IH]; simpl.
  - intros [<-|[]]. left. reflexivity.
  - destruct (String.eqb k k') eqn:E; simpl.
    + apply String.eqb_eq in E. subst k'. tauto.
    + intros [<-|H]; [tauto|]. destruct (IH H); tauto.
Qed.

Lemma name_entry (p : Path) (nm : string) : PathLib.name (FS.entry p nm) = nm.
Proof.
  unfold PathLib.name, FS.entry. simpl. apply last_last.
Qed.

(** The keys of the dictionary that the loop over the entries of the root
    builds are names of directories that are no housekeeping names. *)
Lemma walk_dirs_keys (w : World) (root : Path) (names : list string) :
  forall d x,
    Forall (fun k => FS.is_dir w (FS.entry root k) = true
                     /\ mem k housekeeping = false) (map fst d) ->
    In x (map fst
            (fold_left
               (fun d p =>
                  if FS.is_dir w p && negb (mem (PathLib.name p) housekeeping)
                  then dict_set (PathLib.name p)
                         (List.length (filter (FS.is_file w) (FS.rglob_all w p))) d
                  else d)
               (map (FS.entry root) names) d)) ->
    FS.is_dir w (FS.entry root x) = true /\ mem x housekeeping = false.
Proof.
  induction names as [|nm names IH]; cbn [map fold_left]; intros d x Hd Hx.
  - rewrite Forall_forall in Hd. apply Hd, Hx.
  - eapply IH; [|exact Hx]. rewrite name_entry.
    destruct (FS.is_dir w (FS.entry root nm)) eqn:Edir; cbn [andb]; [|exact Hd].
    destruct (mem nm housekeeping) eqn:Ehk; cbn [negb]; [exact Hd|].
    apply Forall_forall. intros k Hk. apply dict_set_keys in Hk.
    destruct Hk as [->|Hk]; [split; assumption|].
    rewrite Forall_forall in Hd. apply Hd, Hk.
Qed.

(** *** The error of a failed lookup *)

Lemma find_errno_app (ps qs : list string) :
  forall n,
    FS.find_errno n (ps ++ qs)
    = match FS.find n ps with
      | Some m => FS.find_errno m qs
      | None => FS.find_errno n ps
      end.
Proof.
  induction ps as [|p ps IH]; simpl; intros n; [reflexivity|].
  destruct n as [data|es]; [reflexivity|].
  destruct (Py.assoc p es) as [c|]; [apply IH | reflexivity].
Qed.

Lemma find_errno_cases (ps : list string) :
  forall n, FS.find_errno n ps = FileNotFoundError
            \/ FS.find_errno n ps = NotADirectoryError.
Proof.
  induction ps as [|p ps IH]; simpl; intros n; [left; reflexivity|].
  destruct n as [data|es]; [right; reflexivity|].
  destruct (Py.assoc p es) as [c|]; [apply IH | left; reflexivity].
Qed.

Lemma lookup_errno_cases (root : node) (ps : list string) :
  forall cur, FS.lookup_errno root cur ps = FileNotFoundError
              \/ FS.lookup_errno root cur ps = NotADirectoryError.
Proof.
  induction ps as [|p ps IH]; simpl; intros cur; [apply find_errno_cases|].
  destruct (String.eqb p ".."); [|apply IH].
  destruct (FS.find root cur) as [[data|es]|];
    [right; reflexivity | apply IH | apply find_errno_cases].
Qed.

(** Below a regular file nothing is found, and the error says so. *)
Lemma find_below_file (n : node) (ps qs : list string) (data : list byte) :
  FS.find n ps = Some (File data) -> qs <> [] ->
  FS.find n (ps ++ qs) = None
  /\ FS.find_errno n (ps ++ qs) = NotADirectoryError.
Proof.
  intros H Hq. rewrite find_app, find_errno_app, H.
  destruct qs as [|q qs]; [congruence|]. split; reflexivity.
Qed.

Lemma lookup_below_file (root : node) (data : list byte) (r : list string) :
  forall cur q,
    FS.find root cur = Some (File data) -> q <> [] ->
    FS.lookup root (cur ++ q) r = None
    /\ FS.lookup_errno root (cur ++ q) r = NotADirectoryError.
Proof.
  induction r as [|p r IH]; intros cur q H Hq.
  - apply (find_below_file root cur q data H Hq).
  - simpl. destruct (find_below_file root cur q data H Hq) as (F & E).
    destruct (String.eqb p "..").
    + rewrite F. split; [reflexivity | exact E].
    + rewrite <- app_assoc. apply IH; [exact H|]. destruct q; discriminate.
Qed.

(** A path that leads through a regular file fails with [ENOTDIR]. *)
Lemma lookup_through_file (root : node) (data : list byte) (pre suf : list string) :
  forall cur,
    FS.lookup root cur pre = Some (File data) -> suf <> [] ->
    FS.lookup root cur (pre ++ suf) = None
    /\ FS.lookup_errno root cur (pre ++ suf) = NotADirectoryError.
Proof.
  induction pre as [|p pre IH]; intros cur H Hs.
  - simpl in H. destruct suf as [|q r]; [congruence|]. simpl.
    destruct (String.eqb q "..").
    + rewrite H. split; reflexivity.
    + apply (lookup_below_file root data r cur [q] H). discriminate.
  - simpl in *. destruct (String.eqb p "..").
    + destruct (FS.find root cur) as [[d|es]|]; try discriminate H.
      apply IH; assumption.
    + apply IH; assumption.
Qed.

(** A walk fails with [ENOTDIR] only at a regular file on its way. *)
Lemma find_errno_notdir (ps : list string) :
  forall n,
    FS.find_errno n ps = NotADirectoryError ->
    exists c t data, ps = c ++ t /\ FS.find n c = Some (File data).
Proof.
  induction ps as [|p ps IH]; simpl; intros n H; [discriminate H|].
  destruct n as [data|es].
  - exists [], (p :: ps), data. split; reflexivity.
  - destruct (Py.assoc p es) as [c0|] eqn:Hp; [|discriminate H].
    destruct (IH c0 H) as (c & t & data & -> & Hc).
    exists (p :: c), t, data. split; [reflexivity|]. simpl. rewrite Hp. exact Hc.
Qed.

Lemma exists_last_or_nil {A : Type} (l : list A) :
  l = [] \/ exists l' a, l = l' ++ [a].
Proof.
  induction l as [|a l _] using rev_ind; [left; reflexivity | right; eauto].
Qed.

Lemma prefix_of_snoc {A : Type} (cur c t : list A) (p : A) :
  cur ++ [p] = c ++ t -> c = cur ++ [p] \/ exists t0, cur = c ++ t0.
Proof.
  destruct (exists_last_or_nil t) as [->|(t0 & q & ->)].
  - rewrite app_nil_r. intros <-. left. reflexivity.
  - rewrite app_assoc. intros H. apply app_inj_tail in H. destruct H as (-> & _).
    right. exists t0. reflexivity.
Qed.

Lemma prefix_of_removelast {A : Type} (cur c t : list A) :
  removelast cur = c ++ t -> exists t0, cur = c ++ t0.
Proof.
  destruct (exists_last_or_nil cur) as [->|(l & q & ->)].
  - simpl. intros H. symmetry in H. apply app_eq_nil in H. destruct H as (-> & _).
    exists []. reflexivity.
  - rewrite removelast_last. intros ->. exists (t ++ [q]).
    rewrite app_assoc. reflexivity.
Qed.

(** A lookup fails with [ENOTDIR] only when a leading part of the path
    names a regular file. *)
Lemma lookup_errno_notdir (root : node) (ps : list string) :
  forall done cur,
    (forall x, FS.lookup root [] (done ++ x) = FS.lookup root cur x) ->
    (forall c t, cur = c ++ t ->
                 exists pre suf, done = pre ++ suf
                                 /\ FS.lookup root [] pre = FS.find root c) ->
    FS.lookup_errno root cur ps = NotADirectoryError ->
    exists pre suf data,
      done ++ ps = pre ++ suf /\ FS.lookup root [] pre = Some (File data).
Proof.
  assert (Hfind : forall done cur suf0,
             (forall c t, cur = c ++ t ->
                          exists pre suf, done = pre ++ suf
                                          /\ FS.lookup root [] pre = FS.find root c) ->
             FS.find_errno root cur = NotADirectoryError ->
             exists pre suf data,
               done ++ suf0 = pre ++ suf
               /\ FS.lookup root [] pre = Some (File data)).
  { intros done cur suf0 B E.
    destruct (find_errno_notdir _ _ E) as (c & t & data & Hc & Hf).
    destruct (B c t Hc) as (pre & suf & -> & Hl).
    exists pre, (suf ++ suf0), data. rewrite <- app_assoc.
    split; [reflexivity | congruence]. }
  induction ps as [|p ps IH]; intros done cur A B E.
  - simpl in E. apply (Hfind done cur [] B E).
  - simpl in E. destruct (String.eqb p "..") eqn:Hp.
    + apply String.eqb_eq in Hp. subst p.
      destruct (FS.find root cur) as [[data|es]|] eqn:Hc.
      * exists done, (".." :: ps), data. split; [reflexivity|].
        rewrite <- (app_nil_r done), A. exact Hc.
      * replace (done ++ ".." :: ps) with ((done ++ [".."]) ++ ps)
          by (rewrite <- app_assoc; reflexivity).
        apply (IH (done ++ [".."]) (removelast cur)); [| |exact E].
        -- intros x. rewrite <- app_assoc. simpl. rewrite A. simpl.
           rewrite Hc. reflexivity.
        -- intros c t Hct. destruct (prefix_of_removelast _ _ _ Hct) as (t0 & Ht0).
           destruct (B c t0 Ht0) as (pre & suf & -> & Hl).
           exists pre, (suf ++ [".."]). rewrite <- app_assoc.
           split; [reflexivity | exact Hl].
      * apply (Hfind done cur (".." :: ps) B E).
    + replace (done ++ p :: ps) with ((done ++ [p]) ++ ps)
        by (rewrite <- app_assoc; reflexivity).
      apply (IH (done ++ [p]) (cur ++ [p])); [| |exact E].
      * intros x. rewrite <- app_assoc. simpl. rewrite A. simpl.
        rewrite Hp. reflexivity.
      * intros c t Hct. destruct (prefix_of_snoc _ _ _ _ Hct) as [->|(t0 & Ht0)].
        -- exists (done ++ [p]), []. rewrite app_nil_r. split; [reflexivity|].
           rewrite A. simpl. rewrite Hp. reflexivity.
        -- destruct (B c t0 Ht0) as (pre & suf & -> & Hl).
           exists pre, (suf ++ [p]). rewrite <- app_assoc.
           split; [reflexivity | exact Hl].
Qed.

(** The exception of listing a path that [os.stat] does not find. *)
Lemma iterdir_absent (w : World) (p : Path) :
  FS.stat w p = None ->
  (forall pre suf data,
      FS.from_root w p = pre ++ suf -> suf <> [] ->
      FS.lookup (fs_root w) [] pre = Some (File data) ->
      FS.iterdir w p = Raise NotADirectoryError)
  /\ ((forall pre suf data,
          FS.from_root w p = pre ++ suf ->
          FS.lookup (fs_root w) [] pre <> Some (File data)) ->
      FS.iterdir w p = Raise FileNotFoundError).
Proof.
  intros H. unfold FS.iterdir, FS.stat_errno. rewrite H. split.
  - intros pre suf data -> Hs Hl.
    rewrite (proj2 (lookup_through_file _ _ _ _ _ Hl Hs)). reflexivity.
  - intros Hno.
    destruct (lookup_errno_cases (fs_root w) (FS.from_root w p) []) as [->|E];
      [reflexivity|]. exfalso.
    destruct (lookup_errno_notdir (fs_root w) (FS.from_root w p) [] [])
      as (pre & suf & data & Hps & Hl); [reflexivity | | exact E |].
    + intros c t Hct. symmetry in Hct. apply app_eq_nil in Hct.
      destruct Hct as (-> & _). exists [], []. split; reflexivity.
    + exact (Hno pre suf data Hps Hl).
Qed.

(** X7.  Without a version-control listing, the directory statistics
    raise NotADirectoryError for a root that is a regular file, and also
    for a root that does not exist because a leading part of its path is
    a regular file; they raise FileNotFoundError for a root that does not
    exist and no leading part of whose path is a regular file; for a root
    that is a directory they hold at most 20 rows in descending order of
    the count, each for a directory directly below the root whose name is
    no housekeeping name. *)
Theorem directory_stats_walk (w : World) (root : Path) :
  (forall data, FS.stat w root = Some (File data) ->
                _get_directory_stats w root None = Raise NotADirectoryError)
  /\ (forall pre suf data,
         FS.from_root w root = pre ++ suf -> suf <> [] ->
         FS.lookup (fs_root w) [] pre = Some (File data) ->
         _get_directory_stats w root None = Raise NotADirectoryError)
  /\ (FS.stat w root = None ->
      (forall pre suf data,
          FS.from_root w root = pre ++ suf ->
          FS.lookup (fs_root w) [] pre <> Some (File data)) ->
      _get_directory_stats w root None = Raise FileNotFoundError)
  /\ (forall es, FS.stat w root = Some (Dir es) ->
      exists rows,
        _get_directory_stats w root None = Ok rows
        /\ List.length rows <= 20
        /\ StronglySorted (fun a b => snd b <= snd a) rows
        /\ forall d n, In (d, n) rows ->
                       FS.is_dir w (FS.entry root d) = true
                       /\ mem d housekeeping = false).
Proof.
  unfold _get_directory_stats. split; [|split; [|split]].
  - intros data H. unfold FS.iterdir. rewrite H. reflexivity.
  - intros pre suf data Hps Hs Hl.
    assert (Hn : FS.stat w root = None).
    { unfold FS.stat. rewrite Hps.
      apply (proj1 (lookup_through_file _ _ _ _ _ Hl Hs)). }
    rewrite (proj1 (iterdir_absent w root Hn) pre suf data Hps Hs Hl).
    reflexivity.
  - intros Hn Hno. rewrite (proj2 (iterdir_absent w root Hn) Hno). reflexivity.
  - unfold FS.iterdir. intros es ->. cbn [bind]. eexists. split; [reflexivity|].
    rewrite <- (map_map fst (FS.entry root)).
    set (dict := fold_left _ _ []).
    set (le := fun a b : string * nat => Nat.leb (snd b) (snd a)).
    assert (Hperm : Permutation dict (Builtins.sorted le dict)) by apply sorted_perm.
    split; [apply firstn_le_length|]. split.
    + apply firstn_StronglySorted.
      assert (S : StronglySorted (fun x y => le x y = true) (Builtins.sorted le dict)).
      { apply sorted_sorted; unfold le; intros.
        - apply count_le_total.
        - eapply count_le_trans; eassumption. }
      clear -S. induction S as [|x l Sl IH Hx]; constructor; [exact IH|].
      eapply Forall_impl; [|exact Hx]. intros y Hy. apply Nat.leb_le, Hy.
    + intros d n Hin. apply firstn_In_list in Hin.
      apply (Permutation_in _ (Permutation_sym Hperm)) in Hin.
      apply (in_map fst) in Hin. simpl in Hin.
      eapply walk_dirs_keys; [|exact Hin]. constructor.
Qed.

Lemma directory_stats_walk_witness :
  _get_directory_stats Samples.w1 (PathLib.of_str "/work/notes.txt") None
  = Raise NotADirectoryError
  /\ _get_directory_stats Samples.w1 (PathLib.of_str "/work/notes.txt/sub") None
     = Raise NotADirectoryError
  /\ _get_directory_stats Samples.w1 (PathLib.of_str "/absent") None
     = Raise FileNotFoundError
  /\ exists rows,
       _get_directory_stats Samples.w1 (PathLib.of_str "/work") None = Ok rows
       /\ map fst rows = [".claude"; "docs"].
Proof.
  pose proof (directory_stats_walk Samples.w1 (PathLib.of_str "/work/notes.txt"))
    as (H1 & _ & _ & _).
  pose proof (directory_stats_walk Samples.w1 (PathLib.of_str "/work/notes.txt/sub"))
    as (_ & H2 & _ & _).
  pose proof (directory_stats_walk Samples.w1 (PathLib.of_str "/absent"))
    as (_ & _ & H3 & _).
  pose proof (directory_stats_walk Samples.w1 (PathLib.of_str "/work"))
    as (_ & _ & _ & H4).
  split; [eapply H1; reflexivity|].
  split; [apply (H2 ["work"; "notes.txt"] ["sub"] (list_byte_of_string "n"));
          [reflexivity | discriminate | reflexivity]|].
  split.
  - apply H3; [reflexivity|].
    intros [|a [|b pre]] suf data E; try discriminate.
    injection E as <- _. discriminate.
  - destruct (H4 _ eq_refl) as (rows & Hr & _).
    exists rows. split; [exact Hr|].
    assert (E : _get_directory_stats Samples.w1 (PathLib.of_str "/work") None
                = Ok [(".claude", 3); ("docs", 1)]) by (vm_compute; reflexivity).
    rewrite E in Hr. injection Hr as <-. reflexivity.
Defined.

(** ** Facts on strings *)

Lemma lstrip_blank (s : string) : blank (lstrip s) = blank s.
Proof.
  unfold blank. induction s as [|c r IH]; [reflexivity|].
  cbn [lstrip all_char]. destruct (isspace c) eqn:E; [exact IH|].
  cbn [all_char]. rewrite E. reflexivity.
Qed.

Lemma rstrip_empty_iff (s : string) : rstrip s = "" <-> blank s = true.
Proof.
  unfold blank. induction s as [|c r IH]; [split; reflexivity|].
  cbn [rstrip all_char]. rewrite andb_true_iff, <- IH.
  destruct (rstrip r); destruct (isspace c); split; intros H;
    try discriminate H; try (destruct H; discriminate); auto.
Qed.

Lemma strip_empty_iff (s : string) : strip s = "" <-> blank s = true.
Proof.
  unfold strip. rewrite rstrip_empty_iff, lstrip_blank. reflexivity.
Qed.

Lemma strip_eqb_blank (s : string) : String.eqb (strip s) "" = blank s.
Proof.
  destruct (blank s) eqn:E.
  - apply String.eqb_eq, strip_empty_iff, E.
  - apply String.eqb_neq. intros H. apply strip_empty_iff in H. congruence.
Qed.

Lemma any_nonspace_not_blank (s : string) :
  any_char (fun c => negb (isspace c)) s = negb (blank s).
Proof.
  unfold blank. induction s as [|c r IH]; [reflexivity|].
  cbn [any_char all_char]. rewrite IH. destruct (isspace c); reflexivity.
Qed.

Lemma prefix_head (a b : ascii) (r s : string) :
  prefix (String a r) (String b s) = true -> a = b.
Proof.
  cbn [prefix]. destruct (ascii_dec a b); [auto | discriminate].
Qed.

(** A text that holds [sub] holds the first character of [sub]. *)
Lemma contains_first (a : ascii) (r s : string) :
  contains (String a r) s = true -> any_char (Ascii.eqb a) s = true.
Proof.
  induction s as [|b s IH]; cbn [contains any_char].
  - rewrite orb_false_r. destruct r; discriminate.
  - intros H. apply orb_true_iff in H. destruct H as [H|H].
    + apply prefix_head in H. subst. rewrite Ascii.eqb_refl. reflexivity.
    + rewrite (IH H). apply orb_true_r.
Qed.

Lemma lower_char_space (c : ascii) : isspace c = true -> lower_char c = c.
Proof.
  destruct c as [[] [] [] [] [] [] [] []]; intros H; try discriminate H; reflexivity.
Qed.

Lemma any_lower_letter (a : ascii) (s : string) :
  isspace a = false ->
  any_char (Ascii.eqb a) (lower s) = true ->
  any_char (fun c => negb (isspace c)) s = true.
Proof.
  intros Ha. induction s as [|c s IH]; cbn [lower any_char]; [discriminate|].
  intros H. apply orb_true_iff in H. destruct H as [H|H].
  - apply Ascii.eqb_eq in H. destruct (isspace c) eqn:Ec; [|reflexivity].
    rewrite (lower_char_space c Ec) in H. congruence.
  - rewrite (IH H). apply orb_true_r.
Qed.

(** ** Subagent definitions *)

(** X8.  For an agent file that exists, the description flag is set
    exactly when the text holds a character that is no whitespace: the
    test for the key [description:] adds nothing, and any file that is
    not blank counts as having a description. *)
Theorem subagent_description_iff_not_blank (rt : Runtime) (w : World)
  (agent_path : Path) (scope : string) (root : Path) :
  FS.exists_ w agent_path = true ->
  SubagentReport.has_description (_analyze_subagent rt w agent_path scope root)
  = negb (blank (_safe_read_text rt w agent_path)).
Proof.
  intros E. unfold _analyze_subagent. rewrite E. cbn [SubagentReport.has_description].
  rewrite strip_eqb_blank.
  destruct (blank (_safe_read_text rt w agent_path)) eqn:B; [|apply orb_true_r].
  rewrite orb_false_r.
  destruct (contains "description:" (lower (_safe_read_text rt w agent_path)))
    eqn:C; [|reflexivity].
  apply contains_first in C. apply any_lower_letter in C; [|reflexivity].
  rewrite any_nonspace_not_blank, B in C. discriminate C.
Qed.

Lemma subagent_description_iff_not_blank_witness :
  SubagentReport.has_description
    (_analyze_subagent Samples.rt0 Samples.w1
       (PathLib.of_str "/work/.claude/agents/a.md") "project"
       (PathLib.of_str "/work")) = false
  /\ SubagentReport.has_description
       (_analyze_subagent Samples.rt0 Samples.w1
          (PathLib.of_str "/work/notes.txt") "project"
          (PathLib.of_str "/work")) = true.
Proof.
  split.
  - exact (subagent_description_iff_not_blank Samples.rt0 Samples.w1
             (PathLib.of_str "/work/.claude/agents/a.md") "project"
             (PathLib.of_str "/work") eq_refl).
  - exact (subagent_description_iff_not_blank Samples.rt0 Samples.w1
             (PathLib.of_str "/work/notes.txt") "project"
             (PathLib.of_str "/work") eq_refl).
Defined.

(** ** The commit date *)

Lemma linebreak_is_space (c : ascii) : islinebreak c = true -> isspace c = true.
Proof.
  destruct c as [[] [] [] [] [] [] [] []]; intros H; try discriminate H; reflexivity.
Qed.

Lemma append_assoc_str (a b c : string) : ((a ++ b) ++ c = a ++ (b ++ c))%string.
Proof.
  induction a as [|x a IH]; simpl; [reflexivity | rewrite IH; reflexivity].
Qed.

(** The line that is open when the scan goes on is the head of the first
    line returned. *)
Lemma splitlines_open (s : string) :
  forall cur b, exists l rest,
    splitlines_aux (Some cur) b s = (cur ++ l)%string :: rest.
Proof.
  induction s as [|c r IH]; intros cur b; cbn [splitlines_aux].
  - exists "", []. f_equal. induction cur; simpl; congruence.
  - destruct (b && Ascii.eqb c NL); [apply IH|].
    destruct (islinebreak c).
    + exists "", (splitlines_aux None (Ascii.eqb c CR) r). cbn [open_line]. f_equal.
      induction cur; simpl; congruence.
    + cbn [open_line]. destruct (IH (cur ++ String c "")%string false) as (l & rest & E).
      exists (String c l), rest. rewrite E, append_assoc_str. reflexivity.
Qed.

Lemma rstrip_head (c : ascii) (r : string) :
  isspace c = false -> exists t, rstrip (String c r) = String c t.
Proof.
  intros H. cbn [rstrip]. rewrite H. destruct (rstrip r); eexists; reflexivity.
Qed.

Lemma rstrip_idem (s : string) : rstrip (rstrip s) = rstrip s.
Proof.
  induction s as [|c r IH]; [reflexivity|]. cbn [rstrip].
  destruct (rstrip r) as [|d t] eqn:E.
  - destruct (isspace c) eqn:Ec; [reflexivity|]. cbn [rstrip]. rewrite Ec. reflexivity.
  - change (rstrip (String c (String d t)))
      with (match rstrip (String d t) with
            | "" => if isspace c then "" else String c ""
            | r' => String c r'
            end).
    rewrite IH. reflexivity.
Qed.

Lemma lstrip_head (s : string) :
  lstrip s = "" \/ exists c t, lstrip s = String c t /\ isspace c = false.
Proof.
  induction s as [|c r IH]; [left; reflexivity|]. cbn [lstrip].
  destruct (isspace c) eqn:E; [exact IH|]. right. exists c, r. split; [reflexivity | exact E].
Qed.

(** A stripped text is empty or starts with a character that is no
    whitespace, and stripping it again changes nothing. *)
Lemma strip_shape (s : string) :
  strip s = "" \/ exists c t, strip s = String c t /\ isspace c = false.
Proof.
  unfold strip. destruct (lstrip_head s) as [->|(c & t & -> & Hc)]; [left; reflexivity|].
  right. destruct (rstrip_head c t Hc) as (t' & E). exists c, t'. split; assumption.
Qed.

Lemma strip_idem (s : string) : strip (strip s) = strip s.
Proof.
  destruct (strip_shape s) as [E|(c & t & E & Hc)]; rewrite E; [reflexivity|].
  unfold strip at 1. cbn [lstrip]. rewrite Hc. rewrite <- E. unfold strip.
  apply rstrip_idem.
Qed.

(** X9.  The query for the last commit date never raises when the
    version-control tool can be started (the first line of a stripped
    output that is not empty always exists); it returns the absent value
    for a non-zero exit and for an output that is blank, and otherwise a
    text that is not empty and has no whitespace at either end.  When the
    tool cannot be started, the exception leaves the query. *)
Theorem git_last_commit_iso_spec (w : World) (root : Path) (rel_path : string) :
  let cmd := ["git"; "log"; "-1"; "--format=%cI"; "--"; rel_path] in
  (forall rc out err,
      subprocess_run w cmd root = Ok (rc, out, err) ->
      (rc <> 0%Z \/ blank out = true ->
       _git_last_commit_iso w root rel_path = Ok None)
      /\ (rc = 0%Z -> blank out = false ->
          exists ts, _git_last_commit_iso w root rel_path = Ok (Some ts)
                     /\ ts <> "" /\ strip ts = ts))
  /\ (forall e, subprocess_run w cmd root = Raise e ->
                _git_last_commit_iso w root rel_path = Raise e).
Proof.
  intros cmd. unfold _git_last_commit_iso, _run. fold cmd. split.
  - intros rc out err ->. cbn [bind]. rewrite strip_eqb_blank. split.
    + intros [H|H].
      * apply Z.eqb_neq in H. rewrite H. reflexivity.
      * rewrite H, orb_true_r. reflexivity.
    + intros -> B. rewrite B. cbn [Z.eqb negb orb].
      destruct (strip_shape out) as [E|(c & t & E & Hc)].
      * apply strip_empty_iff in E. congruence.
      * rewrite E. unfold splitlines. cbn [splitlines_aux andb].
        destruct (islinebreak c) eqn:L;
          [apply linebreak_is_space in L; congruence|].
        cbn [open_line append].
        destruct (splitlines_open t (String c "") false) as (l & rest & ->).
        cbn [append]. exists (strip (String c l)). split; [reflexivity|].
        split; [|apply strip_idem].
        unfold strip. cbn [lstrip]. rewrite Hc.
        destruct (rstrip_head c l Hc) as (t' & ->). discriminate.
  - intros e ->. reflexivity.
Qed.

Lemma git_last_commit_iso_spec_witness :
  _git_last_commit_iso Samples.w3000 (PathLib.of_str "/work") "CLAUDE.md"
  = Ok (Some "2025-12-31T10:00:00+01:00")
  /\ _git_last_commit_iso Samples.w_git_failing (PathLib.of_str "/work") "CLAUDE.md"
     = Ok None
  /\ _git_last_commit_iso Samples.w_git_missing (PathLib.of_str "/work") "CLAUDE.md"
     = Raise FileNotFoundError.
Proof.
  pose proof (git_last_commit_iso_spec Samples.w3000 (PathLib.of_str "/work")
                "CLAUDE.md") as (H1 & _).
  pose proof (git_last_commit_iso_spec Samples.w_git_failing (PathLib.of_str "/work")
                "CLAUDE.md") as (H2 & _).
  pose proof (git_last_commit_iso_spec Samples.w_git_missing (PathLib.of_str "/work")
                "CLAUDE.md") as (_ & H3).
  split; [|split].
  - destruct (proj2 (H1 _ _ _ eq_refl) eq_refl eq_refl) as (ts & E & _).
    rewrite E. assert (E' : _git_last_commit_iso Samples.w3000
                              (PathLib.of_str "/work") "CLAUDE.md"
                            = Ok (Some "2025-12-31T10:00:00+01:00"))
      by (vm_compute; reflexivity).
    rewrite E' in E. symmetry. exact E.
  - apply (proj1 (H2 _ _ _ eq_refl)). left. discriminate.
  - apply H3. reflexivity.
Defined.

(** ** Reference tokens *)

Lemma span_token_chars (s : string) :
  all_char Regex.token_char (Regex.span_token s) = true.
Proof.
  induction s as [|c r IH]; [reflexivity|]. cbn [Regex.span_token].
  destruct (Regex.token_char c) eqn:E; [|reflexivity].
  cbn [all_char]. rewrite E. exact IH.
Qed.

Lemma backtrack_chars (p : ascii -> bool) (run : string) :
  forall tok, Regex.backtrack run = Some tok ->
              all_char p run = true -> all_char p tok = true.
Proof.
  induction run as [|c r IH]; cbn [Regex.backtrack all_char]; [discriminate|].
  intros tok H Hall. apply andb_true_iff in Hall. destruct Hall as [Hc Hr].
  destruct (Regex.backtrack r) as [q|].
  - injection H as <-. cbn [all_char]. rewrite Hc. apply IH; [reflexivity | exact Hr].
  - destruct (Regex.token_last c); [|discriminate]. injection H as <-.
    cbn [all_char]. rewrite Hc. reflexivity.
Qed.

Lemma match_token_chars (s tok : string) :
  Regex.match_token s = Some tok -> all_char Regex.token_char tok = true.
Proof.
  unfold Regex.match_token. pose proof (span_token_chars s) as H.
  destruct (Regex.span_token s) as [|c r]; [discriminate|].
  cbn [all_char] in H. apply andb_true_iff in H. destruct H as [Hc Hr].
  destruct (Regex.backtrack r) as [q|] eqn:E; [|discriminate].
  intros [= <-]. cbn [all_char]. rewrite Hc.
  eapply backtrack_chars; eassumption.
Qed.

Lemma import_scan_chars (s : string) :
  forall skip prev,
    Forall (fun tok => all_char Regex.token_char tok = true)
           (Regex.import_scan skip prev s).
Proof.
  induction s as [|c r IH]; intros skip prev; cbn [Regex.import_scan];
    [constructor|].
  destruct skip; [|apply IH].
  destruct (Ascii.eqb c "@" && Regex.before_at prev); [|apply IH].
  destruct (Regex.match_token r) as [tok|] eqn:E; [|apply IH].
  constructor; [eapply match_token_chars, E | apply IH].
Qed.

Lemma lstrip_chars (p : ascii -> bool) (s : string) :
  all_char p s = true -> all_char p (lstrip s) = true.
Proof.
  induction s as [|c r IH]; [reflexivity|]. cbn [lstrip]. intros H.
  destruct (isspace c); [|exact H].
  cbn [all_char] in H. apply andb_true_iff in H. apply IH, H.
Qed.

Lemma rstrip_chars (p : ascii -> bool) (s : string) :
  all_char p s = true -> all_char p (rstrip s) = true.
Proof.
  induction s as [|c r IH]; [reflexivity|]. cbn [rstrip all_char]. intros H.
  apply andb_true_iff in H. destruct H as [Hc Hr]. specialize (IH Hr).
  destruct (rstrip r).
  - destruct (isspace c); [reflexivity|]. cbn [all_char]. rewrite Hc. reflexivity.
  - cbn [all_char] in *. rewrite Hc. exact IH.
Qed.

Lemma strip_chars (p : ascii -> bool) (s : string) :
  all_char p s = true -> all_char p (strip s) = true.
Proof.
  intros H. unfold strip. apply rstrip_chars, lstrip_chars, H.
Qed.

Lemma token_chars_no_at (x : string) :
  all_char Regex.token_char x = true -> contains "@" x = false.
Proof.
  intros H. destruct (contains "@" x) eqn:C; [|reflexivity].
  apply contains_first in C. exfalso.
  induction x as [|c r IH]; cbn [all_char any_char] in *; [discriminate C|].
  apply andb_true_iff in H. destruct H as [Hc Hr].
  apply orb_true_iff in C. destruct C as [C|C]; [|exact (IH Hr C)].
  apply Ascii.eqb_eq in C. subst c. discriminate Hc.
Qed.

Lemma filter_all {A : Type} (f : A -> bool) (l : list A) :
  Forall (fun x => f x = true) l -> filter f l = l.
Proof.
  induction 1 as [|x l Hx Hl IH]; simpl; [reflexivity|].
  rewrite Hx, IH. reflexivity.
Qed.

(** X10.  The filter of [_extract_imports] that drops tokens holding an
    at-sign never drops anything: the pattern admits no at-sign inside a
    token, so the result is the stripped tokens of all matches, in order.
    Every token returned is made of the characters of the pattern's class
    only, holds no at-sign and has no whitespace at either end. *)
Theorem extract_imports_spec (text : string) :
  _extract_imports text = map strip (Regex.import_scan 0 None text)
  /\ Forall (fun x => all_char Regex.token_char x = true
                      /\ contains "@" x = false /\ strip x = x)
            (_extract_imports text).
Proof.
  assert (H : Forall (fun x => all_char Regex.token_char x = true)
                     (map strip (Regex.import_scan 0 None text))).
  { apply Forall_map. eapply Forall_impl; [|apply import_scan_chars].
    intros tok. apply strip_chars. }
  assert (E : _extract_imports text = map strip (Regex.import_scan 0 None text)).
  { unfold _extract_imports. apply filter_all.
    eapply Forall_impl; [|exact H]. intros x Hx. cbv beta.
    rewrite (token_chars_no_at x Hx). reflexivity. }
  split; [exact E|]. rewrite E. rewrite Forall_forall in *. intros x Hx.
  split; [apply H, Hx|]. split; [apply token_chars_no_at, H, Hx|].
  apply in_map_iff in Hx. destruct Hx as (tok & <- & _). apply strip_idem.
Qed.

(** ** Headings of a memory document *)

Lemma heading_search_lines (s : string) :
  forall bol,
    Regex.heading_search bol s = negb (Nat.eqb (heading_lines_from bol s) 0).
Proof.
  induction s as [|c r IH]; intros bol; [reflexivity|].
  cbn [Regex.heading_search heading_lines_from].
  rewrite match_heading_is_heading. destruct bol; cbn [andb].
  - destruct (Regex.match_heading (String c r)); [reflexivity | apply IH].
  - apply IH.
Qed.

(** X11.  In every memory-file report the headings flag is set exactly
    when the heading count is not zero (the search and the count use the
    same pattern and agree), and for a file that exists the issue about
    missing headings is raised exactly when the heading count is zero. *)
Theorem headings_flag_and_count (rt : Runtime) (w : World) (path : Path)
  (scope : string) (root : Path) (tracked : option (list string))
  (r : MemoryFileReport.t) :
  _analyze_memory_file rt w path scope root tracked = Ok r ->
  MemoryFileReport.has_headings r = negb (Nat.eqb (MemoryFileReport.heading_count r) 0)
  /\ (MemoryFileReport.exists_ r = true ->
      (In "No markdown headings; structure may be hard for agents to parse"
          (MemoryFileReport.issues r)
       <-> MemoryFileReport.heading_count r = 0)).
Proof.
  unfold _analyze_memory_file.
  destruct (FS.exists_ w path && FS.is_file w path); cbn [negb]; intros H.
  - bind_inv H. injection H as <-.
    cbn [MemoryFileReport.has_headings MemoryFileReport.heading_count
         MemoryFileReport.issues MemoryFileReport.exists_].
    unfold _count_headings. rewrite (heading_scan_refines _ 0 true eq_refl).
    rewrite heading_search_lines. split; [reflexivity|]. intros _.
    rewrite !in_app_iff. unfold when.
    destruct (heading_lines_from true (_safe_read_text rt w path)) as [|n];
      cbn [Nat.eqb negb]; split.
    + reflexivity.
    + intros _. right. right. right. left. reflexivity.
    + intros [H|[H|[H|H]]];
        repeat match goal with
               | H : In _ (if ?b then _ else _) |- _ => destruct b
               | H : In _ [_] |- _ => destruct H as [H|H]
               | H : In _ [] |- _ => destruct H
               end; discriminate H.
    + discriminate.
  - injection H as <-. split; [reflexivity | discriminate].
Qed.

Lemma headings_flag_and_count_witness :
  exists r,
    _analyze_memory_file Samples.rt0 Samples.w1
      (PathLib.of_str "/work/node_modules/pkg/CLAUDE.md") "project-nested"
      (PathLib.of_str "/work") None = Ok r
    /\ MemoryFileReport.heading_count r = 0
    /\ In "No markdown headings; structure may be hard for agents to parse"
          (MemoryFileReport.issues r).
Proof.
  assert (E : exists r,
             _analyze_memory_file Samples.rt0 Samples.w1
               (PathLib.of_str "/work/node_modules/pkg/CLAUDE.md") "project-nested"
               (PathLib.of_str "/work") None = Ok r
             /\ MemoryFileReport.heading_count r = 0
             /\ MemoryFileReport.exists_ r = true)
    by (vm_compute; eexists; repeat split; reflexivity).
  destruct E as (r & E & Hc & Hx). exists r. split; [exact E|]. split; [exact Hc|].
  exact (proj2 (proj2 (headings_flag_and_count _ _ _ _ _ _ _ E) Hx) Hc).
Defined.

Lemma memory_metrics_witness :
  exists r,
    _analyze_memory_file Samples.rt0 Samples.w3000
      (PathLib.of_str "/work/CLAUDE.md") "project" (PathLib.of_str "/work") None
    = Ok r
    /\ MemoryFileReport.lines r = 5
    /\ MemoryFileReport.word_count r = 9
    /\ MemoryFileReport.heading_count r = 2.
Proof.
  assert (E : exists r,
             _analyze_memory_file Samples.rt0 Samples.w3000
               (PathLib.of_str "/work/CLAUDE.md") "project" (PathLib.of_str "/work")
               None = Ok r
             /\ MemoryFileReport.exists_ r = true)
    by (vm_compute; eexists; split; reflexivity).
  destruct E as (r & E & Hx). exists r. split; [exact E|].
  destruct (memory_metrics _ _ _ _ _ _ _ E Hx) as (H1 & H2 & H3).
  rewrite H1, H2, H3. repeat split.
Defined.

(** ** The safe readers *)

(** X13.  The safe text reader returns the empty text for every path
    that is no regular file (absent, or a directory), and for a regular
    file the decoding of its first 2,000,000 bytes, which is the whole
    file when it is not longer. *)
Theorem safe_read_text_spec (rt : Runtime) (w : World) (path : Path) :
  (FS.is_file w path = false -> _safe_read_text rt w path = "")
  /\ (forall data,
         FS.stat w path = Some (File data) ->
         _safe_read_text rt w path
         = utf8_decode rt (firstn (N.to_nat max_bytes) data)
         /\ ((N.of_nat (List.length data) <= max_bytes)%N ->
             _safe_read_text rt w path = utf8_decode rt data)).
Proof.
  unfold _safe_read_text, FS.read_bytes, FS.is_file. split.
  - destruct (FS.stat w path) as [[data|es]|]; [discriminate | reflexivity..].
  - intros data ->.
    destruct (N.ltb max_bytes (N.of_nat (List.length data))) eqn:E.
    + split; [reflexivity|]. intros H. apply N.ltb_lt in E. lia.
    + apply N.ltb_ge in E. split; [|reflexivity].
      rewrite firstn_all2; [reflexivity|]. lia.
Qed.

Lemma safe_read_text_spec_witness :
  _safe_read_text Samples.rt0 Samples.w1 (PathLib.of_str "/work/docs") = ""
  /\ _safe_read_text Samples.rt0 Samples.w1 (PathLib.of_str "/work/absent") = ""
  /\ _safe_read_text Samples.rt0 Samples.w1 (PathLib.of_str "/work/notes.txt") = "n".
Proof.
  split; [|split].
  - exact (proj1 (safe_read_text_spec Samples.rt0 Samples.w1
                    (PathLib.of_str "/work/docs")) eq_refl).
  - exact (proj1 (safe_read_text_spec Samples.rt0 Samples.w1
                    (PathLib.of_str "/work/absent")) eq_refl).
  - refine (proj2 (proj2 (safe_read_text_spec Samples.rt0 Samples.w1
                            (PathLib.of_str "/work/notes.txt")) _ eq_refl) _).
    vm_compute. discriminate.
Defined.

(** ** Settings files and connector configurations *)

Lemma safe_read_json_None (rt : Runtime) (w : World) (path : Path) :
  (exists e, json_loads rt (_safe_read_text rt w path) = Raise e)
  \/ json_loads rt (_safe_read_text rt w path) = Ok JNull ->
  _safe_read_json rt w path = None.
Proof.
  unfold _safe_read_json. intros [(e & ->)| ->]; reflexivity.
Qed.

Lemma safe_read_json_Some (rt : Runtime) (w : World) (path : Path) (v : json) :
  json_loads rt (_safe_read_text rt w path) = Ok v -> v <> JNull ->
  _safe_read_json rt w path = Some v.
Proof.
  unfold _safe_read_json. intros -> H. destruct v; congruence.
Qed.

(** X14.  A settings file or connector configuration that exists and
    whose text does not parse, or parses to the JSON value null, is
    reported with the single issue that tells of invalid JSON, with every
    flag unset and every count zero, and the analysis does not raise. *)
Theorem invalid_json_reported (rt : Runtime) (w : World) (path : Path)
  (scope : string) :
  FS.exists_ w path = true ->
  (exists e, json_loads rt (_safe_read_text rt w path) = Raise e)
  \/ json_loads rt (_safe_read_text rt w path) = Ok JNull ->
  _analyze_settings_file rt w path scope
  = Ok (SettingsFileReport.mk (PathLib.to_str path) true scope (FS.st_size w path)
          false false false false 0 ["Invalid JSON format"])
  /\ _analyze_mcp_config rt w path scope
     = Ok (MCPConfigReport.mk (PathLib.to_str path) true scope 0 []
             ["Invalid JSON format"]).
Proof.
  intros E H. apply safe_read_json_None in H.
  unfold _analyze_settings_file, _analyze_mcp_config. rewrite E, H.
  split; reflexivity.
Qed.

Lemma invalid_json_reported_witness :
  SettingsFileReport.issues
    (match _analyze_settings_file MoreSamples.rt1 MoreSamples.w_json
             (PathLib.of_str "/work/bad.json") "project" with
     | Ok r => r
     | Raise _ => SettingsFileReport.init "" false ""
     end) = ["Invalid JSON format"]
  /\ MCPConfigReport.issues
       (match _analyze_mcp_config MoreSamples.rt1 MoreSamples.w_json
                (PathLib.of_str "/work/null.json") "project" with
        | Ok r => r
        | Raise _ => MCPConfigReport.init "" false ""
        end) = ["Invalid JSON format"].
Proof.
  split.
  - rewrite (proj1 (invalid_json_reported MoreSamples.rt1 MoreSamples.w_json
                      (PathLib.of_str "/work/bad.json") "project" eq_refl
                      (or_introl (ex_intro _ JSONDecodeError eq_refl)))).
    reflexivity.
  - rewrite (proj2 (invalid_json_reported MoreSamples.rt1 MoreSamples.w_json
                      (PathLib.of_str "/work/null.json") "project" eq_refl
                      (or_intror eq_refl))).
    reflexivity.
Defined.

(** X15.  A settings file or connector configuration that exists and
    parses to a JSON value that is neither an object nor null (a list, a
    string, a number, a boolean) makes the analysis raise AttributeError:
    the first [get] on the parsed value fails. *)
Theorem non_object_json_raises (rt : Runtime) (w : World) (path : Path)
  (scope : string) (v : json) :
  FS.exists_ w path = true ->
  json_loads rt (_safe_read_text rt w path) = Ok v ->
  is_dict v = false -> v <> JNull ->
  _analyze_settings_file rt w path scope = Raise AttributeError
  /\ _analyze_mcp_config rt w path scope = Raise AttributeError.
Proof.
  intros E H Hd Hn. pose proof (safe_read_json_Some rt w path v H Hn) as Hj.
  unfold _analyze_settings_file, _analyze_mcp_config. rewrite E, Hj.
  destruct v; try discriminate Hd; try congruence; split; reflexivity.
Qed.

Lemma non_object_json_raises_witness :
  _analyze_settings_file MoreSamples.rt1 MoreSamples.w_json
    (PathLib.of_str "/work/list.json") "project" = Raise AttributeError
  /\ _analyze_mcp_config MoreSamples.rt1 MoreSamples.w_json
       (PathLib.of_str "/work/list.json") "project" = Raise AttributeError.
Proof.
  refine (non_object_json_raises MoreSamples.rt1 MoreSamples.w_json
            (PathLib.of_str "/work/list.json") "project" (JArr []) eq_refl eq_refl
            eq_refl _).
  discriminate.
Defined.

(** X16.  In every report of a connector configuration that the analyzer
    returns, the server count is the number of server names listed; a
    count of at most 10 leaves the report without an issue, unless it is
    the one for invalid JSON, and a count above 10 gives exactly the
    issue that tells of many servers. *)
Theorem mcp_report_invariant (rt : Runtime) (w : World) (path : Path)
  (scope : string) (r : MCPConfigReport.t) :
  _analyze_mcp_config rt w path scope = Ok r ->
  MCPConfigReport.server_count r = List.length (MCPConfigReport.servers r)
  /\ (MCPConfigReport.server_count r <= 10 ->
      MCPConfigReport.issues r = []
      \/ MCPConfigReport.issues r = ["Invalid JSON format"])
  /\ (10 < MCPConfigReport.server_count r ->
      MCPConfigReport.issues r
      = [("Many MCP servers (" ++ str_of_nat (MCPConfigReport.server_count r)
          ++ "); may impact context with lazy loading disabled")%string]).
Proof.
  unfold _analyze_mcp_config.
  destruct (FS.exists_ w path); cbn [negb].
  - destruct (_safe_read_json rt w path) as [data|].
    + intros H. bind_inv H. bind_inv H. bind_inv H. injection H as <-.
      cbn [MCPConfigReport.server_count MCPConfigReport.servers
           MCPConfigReport.issues].
      destruct v as [| | | | | |fs]; try discriminate E1.
      injection E0 as <-. injection E1 as <-. rewrite length_map.
      split; [reflexivity|]. unfold when. split; intros Hn.
      * apply Nat.ltb_ge in Hn. rewrite Hn. left. reflexivity.
      * apply Nat.ltb_lt in Hn. rewrite Hn. reflexivity.
    + intros [= <-]. cbn. split; [reflexivity|]. split; [auto | lia].
  - intros [= <-]. cbn. split; [reflexivity|]. split; [auto | lia].
Qed.

Lemma mcp_report_invariant_witness :
  exists r,
    _analyze_mcp_config MoreSamples.rt1 MoreSamples.w_json
      (PathLib.of_str "/work/.mcp.json") "project" = Ok r
    /\ MCPConfigReport.servers r = ["db"; "web"]
    /\ MCPConfigReport.server_count r = 2.
Proof.
  assert (E : exists r,
             _analyze_mcp_config MoreSamples.rt1 MoreSamples.w_json
               (PathLib.of_str "/work/.mcp.json") "project" = Ok r
             /\ MCPConfigReport.servers r = ["db"; "web"])
    by (vm_compute; eexists; split; reflexivity).
  destruct E as (r & E & K). exists r. split; [exact E|]. split; [exact K|].
  rewrite (proj1 (mcp_report_invariant _ _ _ _ _ E)), K. reflexivity.
Defined.

Lemma get_present (d : json) (k : string) (default v : json) :
  Py.get_none d k = Ok v -> v <> JNull -> Py.get d k default = Ok v.
Proof.
  unfold Py.get_none, Py.get. destruct d; try discriminate.
  destruct (Py.assoc k fields); [auto|]. intros [= <-] H. congruence.
Qed.

Lemma existsb_is_str (x : string) (l : list json) :
  In (JStr x) l -> existsb (Py.is_str x) l = true.
Proof.
  intros H. apply existsb_exists. exists (JStr x). split; [exact H|].
  apply String.eqb_refl.
Qed.

(** X17.  When the allow-list of a settings file is a list that holds the
    entry for every shell command, every report that the analyzer returns
    for the file has the allow-list flag set and exactly the issue that
    tells of the overly permissive entry. *)
Theorem bash_wildcard_flagged (rt : Runtime) (w : World) (path : Path)
  (scope : string) (data perms : json) (allowed : list json)
  (r : SettingsFileReport.t) :
  FS.exists_ w path = true ->
  _safe_read_json rt w path = Some data ->
  Py.get data "permissions" empty_dict = Ok perms ->
  Py.get_none perms "allow" = Ok (JArr allowed) ->
  In (JStr "Bash(*)") allowed ->
  _analyze_settings_file rt w path scope = Ok r ->
  SettingsFileReport.has_allowed_tools r = true
  /\ SettingsFileReport.issues r
     = ["Overly permissive Bash(*) in allowed tools - security risk"].
Proof.
  intros E Hj Hp Ha Hin. unfold _analyze_settings_file. rewrite E, Hj.
  cbn [negb]. rewrite Hp. cbn [bind]. rewrite Ha. cbn [bind].
  assert (T : Py.truthy (JArr allowed) = true)
    by (destruct allowed; [destruct Hin | reflexivity]).
  rewrite T. rewrite (get_present perms "allow" (JArr []) (JArr allowed) Ha)
    by discriminate.
  cbn [bind Py.str_in]. rewrite (existsb_is_str _ _ Hin). cbn [orb when].
  intros H. do 4 bind_inv H. injection H as <-. split; reflexivity.
Qed.

Lemma bash_wildcard_flagged_witness :
  exists r,
    _analyze_settings_file MoreSamples.rt1 MoreSamples.w_json
      (PathLib.of_str "/work/.claude/settings.json") "project" = Ok r
    /\ SettingsFileReport.issues r
       = ["Overly permissive Bash(*) in allowed tools - security risk"].
Proof.
  assert (E : exists r,
             _analyze_settings_file MoreSamples.rt1 MoreSamples.w_json
               (PathLib.of_str "/work/.claude/settings.json") "project" = Ok r)
    by (vm_compute; eexists; reflexivity).
  destruct E as (r & E). exists r. split; [exact E|].
  refine (proj2 (bash_wildcard_flagged MoreSamples.rt1 MoreSamples.w_json
                   (PathLib.of_str "/work/.claude/settings.json") "project"
                   MoreSamples.settings_json
                   (JObj [("allow", JArr [JStr "Read"; JStr "Bash(*)"])])
                   [JStr "Read"; JStr "Bash(*)"] r eq_refl _ eq_refl eq_refl _ E)).
  - vm_compute. reflexivity.
  - right. left. reflexivity.
Defined.

(** ** Skills *)

Lemma skills_in_spec (w : World) (dir : Path) (scope : string)
  (l : list (Path * string)) :
  skills_in w dir scope = Ok l ->
  Forall (fun ds => snd ds = scope
                    /\ FS.is_dir w (fst ds) = true
                    /\ FS.exists_ w (PathLib.child (fst ds) "SKILL.md") = true) l.
Proof.
  unfold skills_in. destruct (FS.exists_ w dir).
  - intros H. bind_inv H. injection H as <-. apply Forall_forall.
    intros ds Hds. apply in_map_iff in Hds. destruct Hds as (d & <- & Hd).
    apply filter_In in Hd. destruct Hd as [_ Hd]. apply andb_true_iff in Hd.
    split; [reflexivity | exact Hd].
  - intros [= <-]. constructor.
Qed.

Lemma discover_skills_spec (w : World) (root : Path) (sk : list (Path * string)) :
  _discover_skills w root = Ok sk ->
  Forall (fun ds => (snd ds = "user" \/ snd ds = "project")
                    /\ FS.is_dir w (fst ds) = true
                    /\ FS.exists_ w (PathLib.child (fst ds) "SKILL.md") = true) sk.
Proof.
  unfold _discover_skills. intros H. bind_inv H. bind_inv H. injection H as <-.
  apply skills_in_spec in E, E0. apply Forall_app. split.
  - eapply Forall_impl; [|exact E]. intros ds (Hs & Hd). split; [left; exact Hs | exact Hd].
  - eapply Forall_impl; [|exact E0]. intros ds (Hs & Hd). split; [right; exact Hs | exact Hd].
Qed.

Lemma scoped_Forall {R : Type} (P : R -> Prop) (inc : bool) (scope : R -> string)
  (l : list R) :
  Forall P l -> Forall P (scoped inc scope l).
Proof.
  unfold scoped. destruct (negb inc); [apply Forall_filter | auto].
Qed.

(** X18.  Every skill in the report that [audit] returns was found as a
    directory that holds a SKILL.md, so: its line count is at least 1,
    its scope is user or project, and it carries the issue about the
    missing description exactly when its description flag is unset. *)
Theorem skills_reported (rt : Runtime) (w : World) (root : Path) (inc : bool)
  (r : AuditReport) :
  audit rt w root inc = Ok r ->
  Forall skill_report_ok (skills_discovered (skills r)).
Proof.
  intros H. apply audit_parts in H.
  destruct H as (tracked & mr & sr & cr & sk & ds & H). cbv zeta in H.
  destruct H as (_ & _ & _ & _ & Hsk & _ & _ & _ & _ & _ & _ & Hk & _).
  rewrite Hk. apply scoped_Forall, Forall_map.
  eapply Forall_impl; [|apply (discover_skills_spec _ _ _ Hsk)].
  intros [d s] (Hs & _ & Hmd). cbn [fst snd] in *.
  unfold skill_report_ok, _analyze_skill. rewrite Hmd.
  cbn [SkillReport.skill_md_lines SkillReport.scope SkillReport.issues
       SkillReport.has_description].
  split; [lia|]. split; [exact Hs|].
  rewrite in_app_iff. unfold when.
  destruct (contains "description:" _); cbn [negb]; split.
  - intros [[]|H]. destruct (Nat.ltb 500 _); [|destruct H].
    destruct H as [H|[]]. discriminate H.
  - discriminate.
  - reflexivity.
  - intros _. left. left. reflexivity.
Qed.

Lemma skills_reported_witness :
  exists r, audit Samples.rt0 Samples.w1 (PathLib.of_str ".") false = Ok r
            /\ Forall skill_report_ok (skills_discovered (skills r))
            /\ map SkillReport.name (skills_discovered (skills r)) = ["s1"].
Proof.
  assert (E : exists r,
             audit Samples.rt0 Samples.w1 (PathLib.of_str ".") false = Ok r
             /\ map SkillReport.name (skills_discovered (skills r)) = ["s1"])
    by (vm_compute; eexists; split; reflexivity).
  destruct E as (r & E & K). exists r. split; [exact E|]. split; [|exact K].
  exact (skills_reported _ _ _ _ _ E).
Defined.

(** ** Relative reference tokens *)

Lemma normalize_plain (ps : list string) :
  forall acc, ~ In ".." ps -> PathLib.normalize acc ps = acc ++ ps.
Proof.
  induction ps as [|p ps IH]; intros acc H; cbn [PathLib.normalize].
  - rewrite app_nil_r. reflexivity.
  - destruct (String.eqb p "..") eqn:E.
    + apply String.eqb_eq in E. exfalso. apply H. left. exact E.
    + rewrite IH by (intros Hin; apply H; right; exact Hin).
      rewrite <- app_assoc. reflexivity.
Qed.

Lemma resolve_resolved (w : World) (p : Path) :
  FS.resolve w (FS.resolve w p) = FS.resolve w p.
Proof.
  unfold FS.resolve at 1. f_equal.
  change (FS.from_root w (FS.resolve w p)) with (parts_of (FS.resolve w p)).
  rewrite normalize_plain; [reflexivity|].
  apply normalize_no_dotdot. intros [].
Qed.

(** X19.  A reference token that starts neither with a tilde nor with a
    slash resolves to an absolute path without any [..] component: the
    parent steps of the token are removed lexically, against the
    artifact directory, before the path is looked up; resolving the
    result again changes nothing, and whether it exists is decided by
    the tree at exactly these components. *)
Theorem relative_import_normalized (w : World) (base_dir : Path) (raw : string)
  (repo_root : Path) :
  startswith "~" (strip raw) = false ->
  startswith "/" (strip raw) = false ->
  let p := _resolve_import w base_dir raw repo_root in
  anchor p = "/"
  /\ ~ In ".." (parts_of p)
  /\ FS.resolve w p = p
  /\ FS.stat w p = FS.find (fs_root w) (parts_of p).
Proof.
  intros H1 H2 p. unfold p, _resolve_import.
  rewrite H1, of_str_absolute, H2.
  split; [reflexivity|]. split; [apply normalize_no_dotdot; intros []|].
  split; [apply resolve_resolved|]. apply stat_resolved.
Qed.

Lemma relative_import_normalized_witness :
  _resolve_import Samples.w1 (PathLib.of_str "/work/pkg") "../docs/./y.md"
                  (PathLib.of_str "/work")
  = mkPath "/" ["work"; "docs"; "y.md"]
  /\ FS.exists_ Samples.w1
       (_resolve_import Samples.w1 (PathLib.of_str "/work/pkg") "../docs/./y.md"
                        (PathLib.of_str "/work")) = true.
Proof.
  pose proof (relative_import_normalized Samples.w1 (PathLib.of_str "/work/pkg")
                "../docs/./y.md" (PathLib.of_str "/work") eq_refl eq_refl)
    as (_ & _ & _ & H).
  split; [reflexivity|]. unfold FS.exists_. rewrite H. reflexivity.
Defined.

(** ** Discovery of skills and subagents *)

(** X20.  When the place of the skills, in the home directory or, with
    none there, in the project, is a regular file, the discovery of
    skills raises NotADirectoryError; the discovery of subagents is empty
    whenever neither place of the agents is a directory, regular files
    included. *)
Theorem discovery_on_regular_files (w : World) (root : Path) :
  let home := FS.Path_home w in
  let user_skills := PathLib.child (PathLib.child home ".claude") "skills" in
  let project_skills := PathLib.child (PathLib.child root ".claude") "skills" in
  let user_agents := PathLib.child (PathLib.child home ".claude") "agents" in
  let project_agents := PathLib.child (PathLib.child root ".claude") "agents" in
  (FS.is_file w user_skills = true ->
   _discover_skills w root = Raise NotADirectoryError)
  /\ (FS.exists_ w user_skills = false -> FS.is_file w project_skills = true ->
      _discover_skills w root = Raise NotADirectoryError)
  /\ (FS.is_dir w user_agents = false -> FS.is_dir w project_agents = false ->
      _discover_subagents w root = []).
Proof.
  cbv zeta. unfold _discover_skills, _discover_subagents, skills_in, agents_in,
    FS.iterdir, FS.glob_md, FS.is_file, FS.is_dir, FS.exists_.
  split; [|split].
  - destruct (FS.stat w _) as [[d|es]|]; try discriminate. reflexivity.
  - destruct (FS.stat w (PathLib.child (PathLib.child (FS.Path_home w) ".claude")
                                       "skills")) as [n|]; [discriminate|].
    intros _. cbn [bind].
    destruct (FS.stat w _) as [[d|es]|]; try discriminate. reflexivity.
  - destruct (FS.stat w (PathLib.child (PathLib.child (FS.Path_home w) ".claude")
                                       "agents")) as [[d|es]|]; try discriminate;
      intros _;
      destruct (FS.stat w (PathLib.child (PathLib.child root ".claude") "agents"))
        as [[d'|es']|]; try discriminate; reflexivity.
Qed.

Lemma discovery_on_regular_files_witness :
  _discover_skills MoreSamples.w_odd (PathLib.of_str "/work")
  = Raise NotADirectoryError
  /\ _discover_subagents MoreSamples.w_odd (PathLib.of_str "/work") = [].
Proof.
  pose proof (discovery_on_regular_files MoreSamples.w_odd (PathLib.of_str "/work"))
    as (_ & H2 & H3).
  split; [apply H2 | apply H3]; reflexivity.
Defined.

(** ** User-scope files when user scope is left out *)

Lemma settings_non_object (rt : Runtime) (w : World) (path : Path)
  (scope : string) (v : json) :
  FS.exists_ w path = true ->
  json_loads rt (_safe_read_text rt w path) = Ok v ->
  is_dict v = false -> v <> JNull ->
  _analyze_settings_file rt w path scope = Raise AttributeError.
Proof.
  intros E H Hd Hn. pose proof (safe_read_json_Some rt w path v H Hn) as Hj.
  unfold _analyze_settings_file. rewrite E, Hj.
  destruct v; try discriminate Hd; try congruence; reflexivity.
Qed.

(** X21.  The settings file of the user is analyzed whether or not user
    scope is included, and only its report is left out afterwards: when
    that file exists and parses to a JSON value that is neither an object
    nor null, [audit] raises for every root and for either value of the
    flag. *)
Theorem user_settings_always_analyzed (rt : Runtime) (w : World) (root : Path)
  (inc : bool) (v : json) :
  let p := PathLib.child (PathLib.child (FS.Path_home w) ".claude") "settings.json" in
  FS.exists_ w p = true ->
  json_loads rt (_safe_read_text rt w p) = Ok v ->
  is_dict v = false -> v <> JNull ->
  exists e, audit rt w root inc = Raise e.
Proof.
  intros p E H Hd Hn. unfold audit.
  apply bind_raises. intros tracked. destruct tracked as [t|];
    (apply bind_raises; intros mr;
     unfold _discover_settings_files; cbn [app mapM fst snd];
     fold p; rewrite (settings_non_object rt w p "user" v E H Hd Hn);
     exists AttributeError; reflexivity).
Qed.

Lemma user_settings_always_analyzed_witness :
  audit MoreSamples.rt1 MoreSamples.w_odd (PathLib.of_str "/work") false
  = Raise AttributeError.
Proof.
  destruct (user_settings_always_analyzed MoreSamples.rt1 MoreSamples.w_odd
              (PathLib.of_str "/work") false (JArr []) eq_refl eq_refl eq_refl)
    as (e & He); [discriminate|].
  assert (E : audit MoreSamples.rt1 MoreSamples.w_odd (PathLib.of_str "/work") false
              = Raise AttributeError) by (vm_compute; reflexivity).
  rewrite He in E. rewrite He. exact E.
Defined.

(** ** The priority of memory issues *)

Lemma lower_app (a b : string) : lower (a ++ b) = (lower a ++ lower b)%string.
Proof.
  induction a as [|c a IH]; simpl; [reflexivity | rewrite IH; reflexivity].
Qed.

Lemma all_char_app (p : ascii -> bool) (a b : string) :
  all_char p (a ++ b) = all_char p a && all_char p b.
Proof.
  induction a as [|c a IH]; simpl; [reflexivity|].
  rewrite IH, andb_assoc. reflexivity.
Qed.

Lemma digits_of_uint (d : Decimal.uint) :
  all_char is_digit (NilEmpty.string_of_uint d) = true.
Proof.
  induction d; simpl; try exact IHd; reflexivity.
Qed.

Lemma str_of_nat_digits (n : nat) : all_char is_digit (str_of_nat n) = true.
Proof.
  unfold str_of_nat, NilZero.string_of_uint.
  destruct (Nat.to_uint n) eqn:E; try (rewrite <- E; apply digits_of_uint).
  reflexivity.
Qed.

Lemma lower_digits (s : string) : all_char is_digit s = true -> lower s = s.
Proof.
  induction s as [|c s IH]; [reflexivity|]. cbn [all_char lower]. intros H.
  apply andb_true_iff in H. destruct H as [Hc Hs]. rewrite (IH Hs). f_equal.
  destruct c as [[] [] [] [] [] [] [] []]; try discriminate Hc; reflexivity.
Qed.

(** A word that starts with a letter is not found before the end of a
    run of digits. *)
Lemma contains_after_digits (sub d rest : string) :
  match sub with String a _ => is_digit a = false | "" => False end ->
  all_char is_digit d = true ->
  contains sub (d ++ rest) = contains sub rest.
Proof.
  destruct sub as [|a sub]; [intros []|]. intros Ha.
  induction d as [|c d IH]; [reflexivity|]. cbn [all_char]. intros H.
  apply andb_true_iff in H. destruct H as [Hc Hd].
  change (String c d ++ rest)%string with (String c (d ++ rest)%string).
  cbn [contains prefix]. destruct (ascii_dec a c) as [->|N]; [congruence|].
  cbn [orb]. apply IH, Hd.
Qed.

Lemma contains_skip (a : ascii) (sub pre rest : string) :
  all_char (fun c => negb (Ascii.eqb a c)) pre = true ->
  contains (String a sub) (pre ++ rest) = contains (String a sub) rest.
Proof.
  induction pre as [|c pre IH]; [reflexivity|]. cbn [all_char]. intros H.
  apply andb_true_iff in H. destruct H as [Hc Hp].
  change (String c pre ++ rest)%string with (String c (pre ++ rest)%string).
  cbn [contains prefix]. destruct (ascii_dec a c) as [->|N].
  - rewrite Ascii.eqb_refl in Hc. discriminate Hc.
  - cbn [orb]. apply IH, Hp.
Qed.

Lemma prefix_append (s t : string) : prefix s (s ++ t) = true.
Proof.
  induction s as [|c s IH]; [destruct t; reflexivity|].
  change (String c s ++ t)%string with (String c (s ++ t)%string).
  cbn [prefix]. destruct (ascii_dec c c); [exact IH | congruence].
Qed.

Lemma contains_prefix (sub s : string) : prefix sub s = true -> contains sub s = true.
Proof.
  intros H. destruct s; cbn [contains]; rewrite H; reflexivity.
Qed.

Lemma very_large_no_missing (n : nat) :
  contains "missing" (lower (very_large_msg n)) = false.
Proof.
  unfold very_large_msg. rewrite !lower_app.
  rewrite (lower_digits _ (str_of_nat_digits n)).
  rewrite contains_skip by reflexivity.
  rewrite contains_after_digits;
    [reflexivity | reflexivity | apply str_of_nat_digits].
Qed.

Lemma missing_imports_has_missing (l : list string) :
  contains "missing" (lower (missing_imports_msg l)) = true.
Proof.
  unfold missing_imports_msg. rewrite lower_app.
  apply contains_prefix.
  change (lower "Missing @imports: ")
    with ("missing" ++ " @imports: ")%string.
  rewrite append_assoc_str. apply prefix_append.
Qed.

Lemma analyze_memory_issue_forms (rt : Runtime) (w : World) (path : Path)
  (scope : string) (root : Path) (tracked : option (list string))
  (r : MemoryFileReport.t) :
  _analyze_memory_file rt w path scope root tracked = Ok r ->
  Forall memory_issue_form (MemoryFileReport.issues r).
Proof.
  unfold _analyze_memory_file, memory_issue_form.
  destruct (FS.exists_ w path && FS.is_file w path); cbn [negb]; intros H.
  - bind_inv H. injection H as <-. cbn [MemoryFileReport.issues]. unfold when.
    repeat (apply Forall_app; split);
      match goal with |- Forall _ (if ?b then _ else _) => destruct b end;
      try apply Forall_nil; (apply Forall_cons; [|apply Forall_nil]).
    + left. reflexivity.
    + right. left. eexists. reflexivity.
    + right. right. left. eexists. reflexivity.
    + right. right. right. reflexivity.
  - injection H as <-. constructor.
Qed.

Lemma all_issues_memory (mr : list MemoryFileReport.t)
  (sr : list SettingsFileReport.t) (cr : list MCPConfigReport.t)
  (kr : list SkillReport.t) (e : Entry) :
  In e (all_issues mr sr cr kr) -> category e = "memory" ->
  e = no_memory_entry
  \/ exists m i, In m mr /\ In i (MemoryFileReport.issues m) /\ e = memory_issue m i.
Proof.
  unfold all_issues, when. rewrite !in_app_iff, !in_flat_map.
  intros [H|[H|[H|[H|H]]]] Hc.
  - destruct (filter _ mr); simpl in H; [destruct H as [<-|[]]; auto | destruct H].
  - destruct H as (m & Hm & H). apply in_map_iff in H. destruct H as (i & <- & Hi).
    right. eauto.
  - destruct H as (m & _ & H). apply in_map_iff in H. destruct H as (i & <- & _).
    discriminate Hc.
  - destruct H as (m & _ & H). apply in_map_iff in H. destruct H as (i & <- & _).
    discriminate Hc.
  - destruct H as (m & _ & H). apply in_map_iff in H. destruct H as (i & <- & _).
    discriminate Hc.
Qed.

(** X22.  The test for the word missing that sets the priority of memory
    issues singles out exactly one kind of issue: in every report that
    [audit] returns, an issue of category memory has priority P1 exactly
    when its message starts with the words of the issue about missing
    imports; the other memory issues, whatever the line count they name,
    have priority P2, and the entry for no memory document has P0. *)
Theorem memory_priority_exact (rt : Runtime) (w : World) (root : Path) (inc : bool)
  (r : AuditReport) :
  audit rt w root inc = Ok r ->
  forall e, In e (issues r) -> category e = "memory" ->
            (priority e = "P1" <-> prefix "Missing @imports: " (message e) = true)
            /\ (priority e = "P0" <-> e = no_memory_entry).
Proof.
  intros H e He Hc. apply audit_inv in H.
  destruct H as (tracked & mr & sr & cr & kr & _ & Hm & _ & _ & Hi & _).
  cbv zeta in Hm. rewrite Hi in He. apply sorted_In in He.
  destruct (all_issues_memory _ _ _ _ _ He Hc) as [->|(m & i & Hin & Hii & ->)].
  - split; split; try discriminate; reflexivity.
  - assert (F : memory_issue_form i).
    { assert (A : Forall (fun m => Forall memory_issue_form (MemoryFileReport.issues m))
                         mr).
      { eapply mapM_Ok_Forall; [|exact Hm].
        intros a b. apply analyze_memory_issue_forms. }
      rewrite Forall_forall in A. specialize (A m Hin).
      rewrite Forall_forall in A. exact (A i Hii). }
    unfold memory_issue. cbn [priority message].
    destruct F as [->|[(n & ->)|[(l & ->)| ->]]].
    + split; split; try discriminate; intros H; discriminate H.
    + rewrite very_large_no_missing.
      split; split; try discriminate; intros H; discriminate H.
    + rewrite missing_imports_has_missing. split; split; intros H;
        try discriminate H; try reflexivity.
      apply prefix_append.
    + split; split; try discriminate; intros H; discriminate H.
Qed.

Lemma memory_priority_exact_witness :
  exists r, audit Samples.rt0 Samples.w1 (PathLib.of_str ".") false = Ok r
            /\ In (mkEntry "P1" "memory" (Some "CLAUDE.md")
                           "Missing @imports: docs/x.md") (issues r).
Proof.
  assert (E : exists r,
             audit Samples.rt0 Samples.w1 (PathLib.of_str ".") false = Ok r
             /\ exists p, In (mkEntry p "memory" (Some "CLAUDE.md")
                                      "Missing @imports: docs/x.md") (issues r)).
  { vm_compute. eexists. split; [reflexivity|]. eexists. left. reflexivity. }
  destruct E as (r & E & p & Hp). exists r. split; [exact E|].
  pose proof (proj2 (proj1 (memory_priority_exact _ _ _ _ _ E _ Hp eq_refl)) eq_refl)
    as P.
  cbn [priority] in P. subst p. exact Hp.
Defined.

(** ** The order in which entries arrive *)

Section StableFacts.
Context {A : Type} (le : A -> A -> bool).
Hypothesis le_total : forall x y, le x y = true \/ le y x = true.
Hypothesis le_trans : forall x y z, le x y = true -> le y z = true -> le x z = true.

(** The elements that compare equal to [z]. *)
Let class (z : A) (l : list A) : list A := filter (fun y => le z y && le y z) l.

Lemma insert_class (z x : A) (l : list A) :
  class z (Builtins.insert le x l) = class z (x :: l).
Proof.
  unfold class. induction l as [|y l IH]; [reflexivity|].
  cbn [Builtins.insert]. destruct (le x y) eqn:Hxy; [reflexivity|].
  cbn [filter] in *. rewrite IH.
  destruct (le z x && le x z) eqn:Hx; [|reflexivity].
  destruct (le z y && le y z) eqn:Hy; [|reflexivity].
  apply andb_true_iff in Hx, Hy.
  rewrite (le_trans x z y (proj2 Hx) (proj1 Hy)) in Hxy. discriminate Hxy.
Qed.

(** The sort is stable: elements that compare equal keep their order. *)
Lemma sorted_class (z : A) (l : list A) :
  class z (Builtins.sorted le l) = class z l.
Proof.
  induction l as [|x l IH]; [reflexivity|].
  cbn [Builtins.sorted]. rewrite insert_class. unfold class in *.
  cbn [filter]. rewrite IH. reflexivity.
Qed.

Lemma class_head (x : A) (l : list A) : class x (x :: l) = x :: class x l.
Proof.
  unfold class. cbn [filter].
  destruct (le_total x x) as [H|H]; rewrite H; reflexivity.
Qed.

(** Two sorted lists with the same elements in each class, in the same
    order, are the same list. *)
Lemma sorted_unique (l1 : list A) :
  forall l2,
    StronglySorted (fun x y => le x y = true) l1 ->
    StronglySorted (fun x y => le x y = true) l2 ->
    (forall z, class z l1 = class z l2) -> l1 = l2.
Proof.
  induction l1 as [|x t1 IH]; intros [|y t2] S1 S2 H.
  - reflexivity.
  - specialize (H y). rewrite class_head in H. discriminate H.
  - specialize (H x). rewrite class_head in H. discriminate H.
  - inversion S1 as [|? ? S1' F1]; subst. inversion S2 as [|? ? S2' F2]; subst.
    assert (Hxy : le y x = true).
    { assert (Hin : In x (class x (y :: t2))).
      { rewrite <- H, class_head. left. reflexivity. }
      apply filter_In in Hin. destruct Hin as ([->|Hin] & Hc).
      - apply andb_true_iff in Hc. exact (proj1 Hc).
      - rewrite Forall_forall in F2. exact (F2 x Hin). }
    assert (Hyx : le x y = true).
    { assert (Hin : In y (class y (x :: t1))).
      { rewrite H, class_head. left. reflexivity. }
      apply filter_In in Hin. destruct Hin as ([->|Hin] & Hc).
      - apply andb_true_iff in Hc. exact (proj1 Hc).
      - rewrite Forall_forall in F1. exact (F1 y Hin). }
    assert (E : x = y).
    { pose proof (H x) as Hx. rewrite class_head in Hx. unfold class in Hx.
      cbn [filter] in Hx. rewrite Hyx, Hxy in Hx. injection Hx as Hx _. exact Hx. }
    subst y. f_equal. apply IH; [exact S1' | exact S2'|].
    intros z. specialize (H z). unfold class in *. cbn [filter] in H.
    destruct (le z x && le x z); [injection H as H|]; exact H.
Qed.

(** The stable sort depends only on what arrived in each class and in
    which order. *)
Lemma sorted_by_class (l1 l2 : list A) :
  (forall z, class z l1 = class z l2) ->
  Builtins.sorted le l1 = Builtins.sorted le l2.
Proof.
  intros H. apply sorted_unique.
  - apply sorted_sorted; assumption.
  - apply sorted_sorted; assumption.
  - intros z. rewrite !sorted_class. apply H.
Qed.

End StableFacts.

Lemma leb_both (a b : string) : String.leb a b && String.leb b a = String.eqb a b.
Proof.
  destruct (String.eqb_spec a b) as [->|N].
  - unfold String.leb. rewrite compare_refl. reflexivity.
  - destruct (String.leb a b) eqn:H1; [|reflexivity].
    destruct (String.leb b a) eqn:H2; [|reflexivity].
    exfalso. apply N. apply String.leb_antisym; assumption.
Qed.

Lemma key_le_both (a b : string * string) : key_le a b && key_le b a = key_eqb a b.
Proof.
  unfold key_le, key_eqb. rewrite (String.compare_antisym (fst b) (fst a)).
  destruct (String.compare (fst a) (fst b)) eqn:H; cbn [CompOpp].
  - apply compare_Eq_eq in H. rewrite H, String.eqb_refl. apply leb_both.
  - destruct (String.eqb_spec (fst a) (fst b)) as [E|_]; [|reflexivity].
    rewrite E, compare_refl in H. discriminate H.
  - destruct (String.eqb_spec (fst a) (fst b)) as [E|_]; [|reflexivity].
    rewrite E, compare_refl in H. discriminate H.
Qed.

(** The sorted list is the same for every order of arrival that keeps,
    for each sort key, the entries of that key in the same order. *)
Lemma sorted_keyed (l1 l2 : list Entry) :
  (forall k, keyed k l1 = keyed k l2) ->
  Builtins.sorted entry_le l1 = Builtins.sorted entry_le l2.
Proof.
  intros H. apply sorted_by_class.
  - intros x y. apply key_le_total.
  - intros x y z. apply key_le_trans.
  - intros z.
    assert (E : forall l,
               filter (fun y => entry_le z y && entry_le y z) l
               = keyed (entry_key z) l).
    { intros l. apply filter_ext. intros y. unfold entry_le.
      rewrite andb_comm. apply key_le_both. }
    rewrite !E. apply H.
Qed.

Lemma keyed_app (k : string * string) (l1 l2 : list Entry) :
  keyed k (l1 ++ l2) = keyed k l1 ++ keyed k l2.
Proof. apply filter_app. Qed.

Lemma keyed_concat (k : string * string) (bs : list (list Entry)) :
  keyed k (concat bs) = concat (map (keyed k) bs).
Proof.
  induction bs as [|b bs IH]; [reflexivity|].
  cbn [concat map]. rewrite keyed_app, IH. reflexivity.
Qed.

(** A list of lists of which one at most is not empty is concatenated to
    the same list in whatever order. *)
Lemma concat_one {A : Type} (ls ls' : list (list A)) :
  Permutation ls ls' ->
  forall b, Forall (fun x => x = [] \/ x = b) ls -> concat ls = b -> concat ls' = b.
Proof.
  induction 1 as [|x l l' Hp IH|x y l|l l' l'' H1 IH1 H2 IH2]; intros b F E.
  - exact E.
  - pose proof (Forall_inv F) as Hx. pose proof (Forall_inv_tail F) as Fl.
    cbn [concat] in *. destruct Hx as [Hx|Hx].
    + rewrite Hx in *. simpl in *. apply IH; assumption.
    + assert (Hn : concat l = []).
      { apply (app_inv_head x). rewrite app_nil_r. congruence. }
      rewrite (IH []); [rewrite app_nil_r; exact Hx| |exact Hn].
      apply concat_nil_Forall in Hn. eapply Forall_impl; [|exact Hn].
      intros a Ha. left. exact Ha.
  - pose proof (Forall_inv F) as Hy.
    pose proof (Forall_inv (Forall_inv_tail F)) as Hx.
    cbn [concat] in *.
    destruct Hx as [Hx|Hx]; [rewrite Hx in *; exact E|].
    destruct Hy as [Hy|Hy]; [rewrite Hy in *; exact E|].
    assert (Hb : b = []).
    { rewrite Hx, Hy in E. apply (f_equal (@List.length A)) in E.
      rewrite !length_app in E. destruct b; [reflexivity|]. simpl in E. lia. }
    rewrite Hx, Hy, Hb in *. exact E.
  - apply IH2; [|apply IH1; assumption].
    eapply Permutation_Forall; eassumption.
Qed.

(** Blocks are separated when no sort key occurs in two of them. *)
Lemma sorted_blocks (bs bs' : list (list Entry)) :
  (forall k, Forall (fun b => keyed k b = [] \/ keyed k b = keyed k (concat bs)) bs) ->
  Permutation bs' bs ->
  Builtins.sorted entry_le (concat bs') = Builtins.sorted entry_le (concat bs).
Proof.
  intros Hs Hp. apply sorted_keyed. intros k. rewrite (keyed_concat k bs').
  apply (concat_one (map (keyed k) bs)).
  - apply Permutation_map, Permutation_sym, Hp.
  - apply Forall_map, Hs.
  - symmetry. apply keyed_concat.
Qed.

Lemma keyed_not (P : string * string -> Prop) (k : string * string)
  (b : list Entry) :
  Forall (fun e => P (entry_key e)) b -> ~ P k -> keyed k b = [].
Proof.
  intros F N. apply filter_none. intros e He.
  rewrite Forall_forall in F. specialize (F e He).
  unfold key_eqb. destruct (String.eqb_spec (fst (entry_key e)) (fst k)) as [E1|];
    [|reflexivity].
  destruct (String.eqb_spec (snd (entry_key e)) (snd k)) as [E2|]; [|reflexivity].
  exfalso. apply N. replace k with (entry_key e); [exact F|].
  destruct k, (entry_key e). simpl in *. congruence.
Qed.

Lemma flat_map_keys {R : Type} (P : string * string -> Prop)
  (f : R -> string -> Entry) (g : R -> list string) (l : list R) :
  (forall x i, P (entry_key (f x i))) ->
  Forall (fun e => P (entry_key e)) (flat_map (fun x => map (f x) (g x)) l).
Proof.
  intros H. apply Forall_forall. intros e He. apply in_flat_map in He.
  destruct He as (x & _ & He). apply in_map_iff in He.
  destruct He as (i & <- & _). apply H.
Qed.

Lemma when_keys (P : string * string -> Prop) (b : bool) (e : Entry) :
  P (entry_key e) -> Forall (fun e => P (entry_key e)) (when b [e]).
Proof.
  intros H. destruct b; repeat constructor. exact H.
Qed.

(** No sort key occurs in the blocks of two analyzers. *)
Ltac blocks_done :=
  rewrite ?app_nil_r; cbn [app];
  repeat (apply Forall_cons;
          [first [right; reflexivity
                 | left; match goal with
                         | N : _ -> keyed ?k ?b = [] |- keyed ?k ?b = [] =>
                             apply N;
                             first [discriminate | congruence | assumption
                                   | intros (_ & H); apply H; reflexivity
                                   | intros (H & _); congruence]
                         end]|]);
  apply Forall_nil.

Lemma issue_blocks_separated (r : AuditReport) (k : string * string) :
  Forall (fun b => keyed k b = [] \/ keyed k b = keyed k (concat (issue_blocks r)))
         (issue_blocks r).
Proof.
  unfold issue_blocks. cbn [concat]. rewrite !keyed_app.
  set (B0 := when _ [no_memory_entry]).
  set (B1 := flat_map _ (discovered_files _)).
  set (B2 := flat_map _ (claude_settings r)).
  set (B3 := flat_map _ (mcp_discovered_files _)).
  set (B4 := flat_map _ (skills_discovered _)).
  assert (F0 : Forall (fun e => (fun k => k = ("P0", "memory")) (entry_key e)) B0)
    by (unfold B0; apply (when_keys (fun k => k = ("P0", "memory"))); reflexivity).
  assert (F1 : Forall (fun e => (fun k => snd k = "memory" /\ fst k <> "P0")
                                  (entry_key e)) B1).
  { unfold B1.
    apply (flat_map_keys (fun k => snd k = "memory" /\ fst k <> "P0")).
    intros x i. unfold memory_issue.
    cbn [entry_key priority category fst snd].
    destruct (contains _ _); split; [reflexivity | discriminate
                                    | reflexivity | discriminate]. }
  assert (F2 : Forall (fun e => (fun k => snd k = "settings") (entry_key e)) B2)
    by (unfold B2; apply (flat_map_keys (fun k => snd k = "settings")); reflexivity).
  assert (F3 : Forall (fun e => (fun k => snd k = "mcp") (entry_key e)) B3)
    by (unfold B3; apply (flat_map_keys (fun k => snd k = "mcp")); reflexivity).
  assert (F4 : Forall (fun e => (fun k => snd k = "skills") (entry_key e)) B4)
    by (unfold B4; apply (flat_map_keys (fun k => snd k = "skills")); reflexivity).
  assert (N0 : k <> ("P0", "memory") -> keyed k B0 = [])
    by (intros N; exact (keyed_not _ k B0 F0 N)).
  assert (N1 : ~ (snd k = "memory" /\ fst k <> "P0") -> keyed k B1 = [])
    by (intros N; exact (keyed_not _ k B1 F1 N)).
  assert (N2 : snd k <> "settings" -> keyed k B2 = [])
    by (intros N; exact (keyed_not _ k B2 F2 N)).
  assert (N3 : snd k <> "mcp" -> keyed k B3 = [])
    by (intros N; exact (keyed_not _ k B3 F3 N)).
  assert (N4 : snd k <> "skills" -> keyed k B4 = [])
    by (intros N; exact (keyed_not _ k B4 F4 N)).
  clearbody B0 B1 B2 B3 B4. clear F0 F1 F2 F3 F4.
  destruct k as [p c]. cbn [fst snd] in *.
  destruct (string_dec c "memory") as [->|Hm].
  - rewrite N2, N3, N4 by discriminate.
    destruct (string_dec p "P0") as [->|Hp].
    + rewrite N1 by (intros (_ & H); apply H; reflexivity).
      rewrite !app_nil_r. blocks_done.
    + rewrite N0 by congruence. rewrite !app_nil_r. blocks_done.
  - rewrite N0, N1 by (try intros (H & _); congruence).
    destruct (string_dec c "settings") as [->|Hs].
    + rewrite N3, N4 by discriminate. rewrite !app_nil_r.
      blocks_done.
    + rewrite N2 by exact Hs.
      destruct (string_dec c "mcp") as [->|Hc].
      * rewrite N4 by discriminate. rewrite !app_nil_r. blocks_done.
      * rewrite N3 by exact Hc. rewrite !app_nil_r. blocks_done.
Qed.

Lemma recommendation_blocks_separated (r : AuditReport) (k : string * string) :
  Forall (fun b => keyed k b = []
                   \/ keyed k b = keyed k (concat (recommendation_blocks r)))
         (recommendation_blocks r).
Proof.
  unfold recommendation_blocks. cbn [concat]. rewrite !keyed_app.
  set (B0 := flat_map _ (discovered_files _)).
  set (B1 := when _ [scale_entry _]).
  assert (F0 : Forall (fun e => (fun k => snd k = "memory") (entry_key e)) B0)
    by (unfold B0; apply (flat_map_keys (fun k => snd k = "memory")); reflexivity).
  assert (F1 : Forall (fun e => (fun k => snd k = "scale") (entry_key e)) B1)
    by (unfold B1; apply (when_keys (fun k => snd k = "scale")); reflexivity).
  assert (N0 : snd k <> "memory" -> keyed k B0 = [])
    by (intros N; exact (keyed_not _ k B0 F0 N)).
  assert (N1 : snd k <> "scale" -> keyed k B1 = [])
    by (intros N; exact (keyed_not _ k B1 F1 N)).
  clearbody B0 B1. clear F0 F1.
  destruct k as [p c]. cbn [fst snd] in *.
  destruct (string_dec c "memory") as [->|Hm].
  - rewrite N1 by discriminate. rewrite !app_nil_r. blocks_done.
  - rewrite N0 by exact Hm. rewrite !app_nil_r. blocks_done.
Qed.

(** ** The blocks of a report that [audit] returns *)

Lemma flat_map_filter {R B : Type} (p : R -> bool) (f : R -> list B) (l : list R) :
  Forall (fun x => p x = false -> f x = []) l ->
  flat_map f (filter p l) = flat_map f l.
Proof.
  induction 1 as [|x l Hx F IH]; [reflexivity|]. cbn [filter flat_map].
  destruct (p x) eqn:E.
  - cbn [flat_map]. rewrite IH. reflexivity.
  - rewrite IH, (Hx eq_refl). reflexivity.
Qed.

Lemma settings_absent_no_issue (rt : Runtime) (w : World) (path : Path)
  (scope : string) (r : SettingsFileReport.t) :
  _analyze_settings_file rt w path scope = Ok r ->
  SettingsFileReport.exists_ r = false -> SettingsFileReport.issues r = [].
Proof.
  unfold _analyze_settings_file.
  destruct (FS.exists_ w path); cbn [negb]; intros H.
  - destruct (_safe_read_json rt w path).
    + repeat bind_inv H. injection H as <-. discriminate.
    + injection H as <-. discriminate.
  - injection H as <-. reflexivity.
Qed.

Lemma mcp_absent_no_issue (rt : Runtime) (w : World) (path : Path)
  (scope : string) (r : MCPConfigReport.t) :
  _analyze_mcp_config rt w path scope = Ok r ->
  MCPConfigReport.exists_ r = false -> MCPConfigReport.issues r = [].
Proof.
  unfold _analyze_mcp_config.
  destruct (FS.exists_ w path); cbn [negb]; intros H.
  - destruct (_safe_read_json rt w path).
    + repeat bind_inv H. injection H as <-. discriminate.
    + injection H as <-. discriminate.
  - injection H as <-. reflexivity.
Qed.

Lemma scoped_incl {R : Type} (inc : bool) (scope : R -> string) (l : list R) (x : R) :
  In x (scoped inc scope l) -> In x l.
Proof.
  unfold scoped. destruct (negb inc); [|auto]. intros H.
  apply filter_In in H. exact (proj1 H).
Qed.

(** The two flat lists of a report are the sorted blocks of the report. *)
Lemma audit_blocks (rt : Runtime) (w : World) (root : Path) (inc : bool)
  (r : AuditReport) :
  audit rt w root inc = Ok r ->
  issues r = Builtins.sorted entry_le (concat (issue_blocks r))
  /\ recommendations r
     = Builtins.sorted entry_le (concat (recommendation_blocks r)).
Proof.
  intros H. apply audit_parts in H.
  destruct H as (tracked & mr & sr & cr & sk & ds & _ & Hm & Hs & Hc & _ & _ & _ & _
                 & Hdm & Hds & Hdc & Hdk & _ & Hi & Hr).
  cbv zeta in *.
  assert (Fm : Forall memory_invariant mr).
  { eapply mapM_Ok_Forall; [|exact Hm]. intros a b. apply analyze_memory_invariant. }
  assert (Fs : Forall (fun x => SettingsFileReport.exists_ x = false ->
                                SettingsFileReport.issues x = []) sr).
  { eapply mapM_Ok_Forall; [|exact Hs]. intros a b. apply settings_absent_no_issue. }
  assert (Fc : Forall (fun x => MCPConfigReport.exists_ x = false ->
                                MCPConfigReport.issues x = []) cr).
  { eapply mapM_Ok_Forall; [|exact Hc]. intros a b. apply mcp_absent_no_issue. }
  split.
  - rewrite Hi. f_equal. unfold issue_blocks, all_issues. cbn [concat].
    rewrite Hdm, Hds, Hdc, Hdk, app_nil_r.
    rewrite !flat_map_filter; [reflexivity | | |].
    + apply Forall_forall. intros x Hx Hex. apply scoped_incl in Hx.
      rewrite Forall_forall in Fc. rewrite (Fc x Hx Hex). reflexivity.
    + apply Forall_forall. intros x Hx Hex. apply scoped_incl in Hx.
      rewrite Forall_forall in Fs. rewrite (Fs x Hx Hex). reflexivity.
    + eapply Forall_impl; [|exact Fm]. intros m (_ & Hinv) Hex.
      destruct (Hinv Hex) as (_ & _ & _ & _ & _ & _ & -> & _). reflexivity.
  - rewrite Hr. f_equal. unfold recommendation_blocks, all_recommendations.
    cbn [concat]. rewrite Hdm, app_nil_r.
    rewrite flat_map_filter; [reflexivity|].
    eapply Forall_impl; [|exact Fm]. intros m (_ & Hinv) Hex.
    destruct (Hinv Hex) as (_ & _ & _ & _ & _ & _ & _ & ->). reflexivity.
Qed.

(** ** Two runs, and the order of the analyzers *)

(** C9.  Two runs of the audit on the same tree, with the same answers of
    the version-control tool and differing only in the reading of the
    clock, end alike: either both return reports that are equal in every
    field but the time stamp, which is the reading of the clock, or both
    raise the same exception; and the two processes exit alike, printing
    the renderings of two such reports or the same diagnostic.  The two
    flat lists of a report do not depend on the order in which the
    analyzers deliver: sorting the blocks of entries that the analyzers
    contribute, taken in any order, gives the issues and the
    recommendations of the report, and so does sorting any interleaving
    of them that keeps, for each sort key, the order of the entries of
    that key. *)
Theorem audit_deterministic (rt : Runtime) (w : World)
  (dumps : AuditReport -> string) (t1 t2 : string) (root_arg : string)
  (inc : bool) :
  audit rt (with_clock t2 w) (PathLib.of_str root_arg) inc
  = fmap (set_generated_at t2)
         (audit rt (with_clock t1 w) (PathLib.of_str root_arg) inc)
  /\ fmap (set_generated_at "")
          (audit rt (with_clock t1 w) (PathLib.of_str root_arg) inc)
     = fmap (set_generated_at "")
            (audit rt (with_clock t2 w) (PathLib.of_str root_arg) inc)
  /\ fmap (fun r => generated_at (meta r))
          (audit rt (with_clock t1 w) (PathLib.of_str root_arg) inc)
     = fmap (fun _ => t1) (audit rt w (PathLib.of_str root_arg) inc)
  /\ match main rt (with_clock t1 w) dumps root_arg inc,
           main rt (with_clock t2 w) dumps root_arg inc with
     | Exit s1 out1 err1, Exit s2 out2 err2 =>
         s1 = s2 /\ err1 = err2
         /\ (out1 = out2
             \/ exists r,
                 out1 = (dumps (set_generated_at t1 r) ++ String NL "")%string
                 /\ out2 = (dumps (set_generated_at t2 r) ++ String NL "")%string)
     | Uncaught e1, Uncaught e2 => e1 = e2
     | _, _ => False
     end
  /\ (forall r,
         audit rt w (PathLib.of_str root_arg) inc = Ok r ->
         (forall bs, Permutation bs (issue_blocks r) ->
                     Builtins.sorted entry_le (concat bs) = issues r)
         /\ (forall bs, Permutation bs (recommendation_blocks r) ->
                        Builtins.sorted entry_le (concat bs) = recommendations r)
         /\ (forall l, (forall k, keyed k l = keyed k (concat (issue_blocks r))) ->
                       Builtins.sorted entry_le l = issues r)
         /\ (forall l,
                (forall k, keyed k l = keyed k (concat (recommendation_blocks r))) ->
                Builtins.sorted entry_le l = recommendations r)).
Proof.
  split; [|split; [|split; [|split]]].
  5: { intros r H. destruct (audit_blocks _ _ _ _ _ H) as (Hi & Hr).
       rewrite Hi, Hr. repeat split.
       - intros bs Hp. apply sorted_blocks; [|exact Hp].
         intros k. apply issue_blocks_separated.
       - intros bs Hp. apply sorted_blocks; [|exact Hp].
         intros k. apply recommendation_blocks_separated.
       - intros l Hk. apply sorted_keyed, Hk.
       - intros l Hk. apply sorted_keyed, Hk. }
  all: rewrite ?main_clock, ?audit_clock.
  all: assert (Hmain : FS.exists_ w (PathLib.of_str root_arg) = false ->
                  main rt w dumps root_arg inc
                  = Exit 1 "" ("Error: " ++ PathLib.to_str (PathLib.of_str root_arg)
                               ++ " does not exist" ++ String NL "")%string)
         by (intros E; unfold main; rewrite E; reflexivity).
  all: destruct (FS.exists_ w (PathLib.of_str root_arg)) eqn:Ex;
    [|rewrite ?(Hmain eq_refl)];
    destruct (audit rt w (PathLib.of_str root_arg) inc) as [r|e]; simpl;
    repeat split; try (left; reflexivity).
  all: right; exists r; split; reflexivity.
Qed.

Lemma audit_deterministic_witness :
  exists r,
    audit Samples.rt0 Samples.w1 (PathLib.of_str ".") false = Ok r
    /\ map entry_key (concat (issue_blocks r))
       = [("P1", "memory"); ("P2", "memory"); ("P2", "skills")]
    /\ Builtins.sorted entry_le (concat (rev (issue_blocks r))) = issues r.
Proof.
  assert (E : exists r,
             audit Samples.rt0 Samples.w1 (PathLib.of_str ".") false = Ok r
             /\ map entry_key (concat (issue_blocks r))
                = [("P1", "memory"); ("P2", "memory"); ("P2", "skills")])
    by (vm_compute; eexists; split; reflexivity).
  destruct E as (r & E & K). exists r. split; [exact E|]. split; [exact K|].
  destruct (audit_deterministic Samples.rt0 Samples.w1 Samples.dumps0 "" ""
              "." false) as (_ & _ & _ & _ & H).
  apply (proj1 (H r E)). apply Permutation_sym, Permutation_rev.
Defined.
